(** * The MasterControl extraction / merge / load pipeline

    A shallow embedding of the Python sources

    - [mastercontrol_pipeline/data_fetch_system]: [utils.py],
      [api_client.py], [status_tracker.py], [checkpoint_manager.py],
      [data_processor.py], [bulk_fetch.py], [incremental_fetch.py];
    - [mastercontrol_pipeline/data_load_system]: [processors/file_processor.py],
      [processors/bulk_loader.py], [database/operations.py], [sql/queries.py];

    together with the properties the specification states about them.

    Conventions.  Python integers are [Z]; strings are [string]; a function
    that may raise returns an [Outcome]; code that touches the ledger, the
    checkpoint file, the output directory or the remote API threads a
    [State] through the state-and-exception monad [M].  Python, pandas,
    requests, dateutil, pytz, hashlib and PostgreSQL themselves are not part
    of the repository: where the pipeline depends on them they appear either
    as section variables (the date parser, the zone's UTC offset, MD5, the
    API client seen from the data processor) or as small models whose
    comment says what they cover. *)

From stdpp Require Import base option list strings pretty gmap fin_maps.
From Stdlib Require Import ZArith Ascii Lia Sorted.

Local Open Scope Z_scope.
Set Warnings "-register-all".

(** ** Exceptions and fallible results *)

(** The exception classes the sources raise, catch or let through. *)
Inductive ExnClass :=
  | ValueError
  | KeyError
  | TypeError
  | IndexError
  | AttributeError
  | OverflowError
  | JSONDecodeError
  | ParserError
  | OtherException.

(** An exception instance: its class and [str(e)]. *)
Record Exn := mkExn { exn_class : ExnClass; exn_msg : string }.

(** [isinstance(e, ValueError)]: [json.JSONDecodeError] and dateutil's
    [ParserError] derive from [ValueError]. *)
Definition is_ValueError (e : Exn) : bool :=
  match exn_class e with
  | ValueError | JSONDecodeError | ParserError => true
  | _ => false
  end.

Inductive Outcome (A : Type) :=
  | Ret (a : A)
  | Raise (e : Exn).
Arguments Ret {A} a.
Arguments Raise {A} e.

#[global] Instance Outcome_ret : MRet Outcome := fun A a => Ret a.
#[global] Instance Outcome_bind : MBind Outcome := fun A B f m =>
  match m with
  | Ret a => f a
  | Raise e => Raise e
  end.

(** Logging: a record of the [logging] module, level and message. *)
Inductive LogLevel := INFO | WARNING | ERROR.
Definition LogRecord : Type := LogLevel * string.

(** ** utils.py *)
Module Utils.

  (** A [datetime.datetime]: civil fields and, when aware, the offset of its
      [tzinfo] from UTC in seconds.  Microseconds play no part in
      [reformat_datetime] and are left out. *)
Record datetime := mkDatetime {
    year : Z; month : Z; day : Z;
    hour : Z; minute : Z; second : Z;
    tzinfo : option Z
  }.

  (** Days since 1970-01-01 of a proleptic Gregorian date, and back. *)
Definition days_from_civil (y m d : Z) : Z :=
    let y' := if m <=? 2 then y - 1 else y in
    let era := y' / 400 in
    let yoe := y' - era * 400 in
    let mp := if 2 <? m then m - 3 else m + 9 in
    let doy := (153 * mp + 2) / 5 + d - 1 in
    let doe := yoe * 365 + yoe / 4 - yoe / 100 + doy in
    era * 146097 + doe - 719468.

Definition civil_from_days (z : Z) : Z * Z * Z :=
    let z := z + 719468 in
    let era := z / 146097 in
    let doe := z - era * 146097 in
    let yoe := (doe - doe / 1460 + doe / 36524 - doe / 146096) / 365 in
    let doy := doe - (365 * yoe + yoe / 4 - yoe / 100) in
    let mp := (5 * doy + 2) / 153 in
    let d := doy - (153 * mp + 2) / 5 + 1 in
    let m := if mp <? 10 then mp + 3 else mp - 9 in
    let y := yoe + era * 400 in
    (if m <=? 2 then y + 1 else y, m, d).

  (** Seconds since the epoch of the civil fields read as UTC. *)
Definition timestamp_of_fields (dt : datetime) : Z :=
    days_from_civil (year dt) (month dt) (day dt) * 86400
    + hour dt * 3600 + minute dt * 60 + second dt.

Definition fields_of_timestamp (t : Z) (off : option Z) : datetime :=
    let days := t / 86400 in
    let rem := t mod 86400 in
    let '(y, m, d) := civil_from_days days in
    mkDatetime y m d (rem / 3600) (rem mod 3600 / 60) (rem mod 60) off.

  (** [datetime.MINYEAR] .. [datetime.MAXYEAR] as timestamps. *)
Definition min_timestamp : Z := days_from_civil 1 1 1 * 86400.
Definition max_timestamp : Z := days_from_civil 9999 12 31 * 86400 + 86399.

  (** Shifting a datetime by an offset; Python raises [OverflowError] when
      the result leaves the years 1..9999. *)
Definition checked_fields (t : Z) (off : option Z) : Outcome datetime :=
    if (min_timestamp <=? t) && (t <=? max_timestamp)
    then Ret (fields_of_timestamp t off)
    else Raise (mkExn OverflowError "date value out of range").

  (** [strftime('%M')]: the minute as two digits. *)
Definition strftime_M (dt : datetime) : string :=
    if minute dt <? 10 then "0" +:+ pretty (minute dt) else pretty (minute dt).

Section reformat.
    (** [dateutil.parser.parse]: the parsed datetime, or the exception. *)
Variable parse : string -> Outcome datetime.
    (** [pytz.timezone("America/New_York")]: the zone's offset from UTC, in
        seconds, at a UTC instant given in seconds since the epoch. *)
Variable eastern_utcoffset : Z -> Z.

    (** Lines 20-27 of the [try] body: parse, make the datetime UTC, convert
        to Eastern time. *)
Definition to_eastern (date_str : string) : Outcome datetime :=
      dt_utc ← parse date_str;
      dt_utc ← match tzinfo dt_utc with
               | None =>
                   (* pytz.utc.localize(dt_utc) *)
                   Ret (mkDatetime (year dt_utc) (month dt_utc) (day dt_utc)
                          (hour dt_utc) (minute dt_utc) (second dt_utc) (Some 0))
               | Some off =>
                   (* dt_utc.astimezone(pytz.utc) *)
                   checked_fields (timestamp_of_fields dt_utc - off) (Some 0)
               end;
      let t := timestamp_of_fields dt_utc in
      let off := eastern_utcoffset t in
      checked_fields (t + off) (Some off).

    (** The f-string of line 30. *)
Definition format_mdy_hm (dt_et : datetime) : string :=
      pretty (month dt_et) +:+ "/" +:+ pretty (day dt_et) +:+ "/"
      +:+ pretty (year dt_et) +:+ " " +:+ pretty (hour dt_et) +:+ ":"
      +:+ strftime_M dt_et.

    (** The [try] body of [reformat_datetime]. *)
Definition reformat_body (date_str : string) : Outcome string :=
      dt_et ← to_eastern date_str;
      Ret (format_mdy_hm dt_et).

    (** [reformat_datetime(date_str)]: the returned string and what was
        logged. *)
Definition reformat_datetime (date_str : string) : string * list LogRecord :=
      match reformat_body date_str with
      | Ret s => (s, [])
      | Raise e =>
          (date_str,
           [(ERROR, "Error reformatting datetime " +:+ date_str +:+ ": " +:+ exn_msg e)])
      end.
End reformat.

  (** [ensure_required_columns] is defined with the data frames, below. *)

  (** *** A parser for the examples

      dateutil on the ISO-8601 form [YYYY-MM-DDTHH:MM:SSZ]: the fields read
      off at their positions, [Z] giving an aware datetime at offset 0.  Any
      other input is reported as unparsable by this model, which is used for
      concrete examples only; the theorems quantify over [parse]. *)
Definition digit_of_ascii (c : ascii) : option Z :=
    let n := Z.of_nat (nat_of_ascii c) in
    if (48 <=? n) && (n <=? 57) then Some (n - 48) else None.

Fixpoint number_at (s : string) (pos len : nat) (acc : Z) : option Z :=
    match len with
    | O => Some acc
    | S len' =>
        c ← String.get pos s;
        d ← digit_of_ascii c;
        number_at s (S pos) len' (acc * 10 + d)
    end.

Definition char_is (s : string) (pos : nat) (c : string) : bool :=
    bool_decide (String.substring pos 1 s = c).

Definition days_in_month (y m : Z) : Z :=
    days_from_civil (if m =? 12 then y + 1 else y) (if m =? 12 then 1 else m + 1) 1
    - days_from_civil y m 1.

Definition parse_iso_utc (s : string) : Outcome datetime :=
    let bad := Raise (mkExn ParserError ("Unknown string format: " +:+ s)) in
    if bool_decide (String.length s = 20%nat)
       && char_is s 4 "-" && char_is s 7 "-" && char_is s 10 "T"
       && char_is s 13 ":" && char_is s 16 ":" && char_is s 19 "Z"
    then
      match number_at s 0 4 0, number_at s 5 2 0, number_at s 8 2 0,
            number_at s 11 2 0, number_at s 14 2 0, number_at s 17 2 0 with
      | Some y, Some m, Some d, Some h, Some mi, Some se =>
          if (1 <=? y) && (1 <=? m) && (m <=? 12) && (1 <=? d)
             && (d <=? days_in_month y m) && (h <=? 23) && (mi <=? 59) && (se <=? 59)
          then Ret (mkDatetime y m d h mi se (Some 0))
          else bad
      | _, _, _, _, _, _ => bad
      end
    else bad.

  (** The range of timestamps a [datetime] can hold. *)
Definition in_range (t : Z) : Prop := min_timestamp <= t <= max_timestamp.

  (** A zone at a constant offset of minus five hours (US Eastern standard
      time). *)
Definition minus_five_hours (t : Z) : Z := -18000.

End Utils.

(** ** api_client.py *)
Module ApiClient.

(** A document as [json.loads] returns it.  Numbers are integers here. *)
Inductive json :=
  | JNull
  | JBool (b : bool)
  | JNum (n : Z)
  | JStr (s : string)
  | JArr (items : list json)
  | JObj (members : list (string * json)).

(** Python's truth value of a decoded document ([not last_page]). *)
Definition truthy (v : json) : bool :=
  match v with
  | JNull => false
  | JBool b => b
  | JNum n => negb (n =? 0)
  | JStr s => negb (bool_decide (s = ""))
  | JArr items => negb (bool_decide (length items = O))
  | JObj members => negb (bool_decide (length members = O))
  end.

(** The value stored under [key] in a dict. *)
Fixpoint dict_lookup (key : string) (members : list (string * json)) : option json :=
  match members with
  | [] => None
  | (k, v) :: rest => if bool_decide (k = key) then Some v else dict_lookup key rest
  end.

Definition is_JStr (s : string) (v : json) : bool :=
  match v with
  | JStr s' => bool_decide (s' = s)
  | _ => false
  end.

(** [p in s] on strings: [p] occurs in [s]. *)
Fixpoint is_substring (p s : string) : bool :=
  String.prefix p s
  || match s with
     | EmptyString => false
     | String _ s' => is_substring p s'
     end.

(** [key in data]: key membership on a dict, element membership on a list,
    substring test on a string, [TypeError] on a number, a boolean or
    [None]. *)
Definition contains (key : string) (data : json) : Outcome bool :=
  match data with
  | JObj members => Ret (bool_decide (is_Some (dict_lookup key members)))
  | JArr items => Ret (existsb (is_JStr key) items)
  | JStr s => Ret (is_substring key s)
  | _ => Raise (mkExn TypeError "argument is not iterable")
  end.

(** [data.get(key, default)]: only a dict has [get]. *)
Definition get (data : json) (key : string) (dflt : json) : Outcome json :=
  match data with
  | JObj members => Ret (default dflt (dict_lookup key members))
  | _ => Raise (mkExn AttributeError "object has no attribute 'get'")
  end.

(** What [all_data.extend(v)] appends: the elements of a list, the
    characters of a string, the keys of a dict; other values are not
    iterable. *)
Fixpoint characters (s : string) : list json :=
  match s with
  | EmptyString => []
  | String c s' => JStr (String c EmptyString) :: characters s'
  end.

Definition iterate (v : json) : Outcome (list json) :=
  match v with
  | JArr items => Ret items
  | JStr s => Ret (characters s)
  | JObj members => Ret ((fun kv => JStr kv.1) <$> members)
  | _ => Raise (mkExn TypeError "object is not iterable")
  end.

(** One [requests.get(url, ...)] followed by [raise_for_status()]: a
    response, whose text [json.loads] decodes or rejects; an [HTTPError],
    [ConnectionError] or [Timeout]; or some other exception. *)
Inductive Reply :=
  | Response (body : Outcome json)
  | RequestError
  | UnexpectedError (e : Exn).

(** The remote side: the reply to the [retry]-th attempt at [url] within one
    call of [perform_get_request]. *)
Definition Network : Type := string -> nat -> Reply.

(** The [for retry in range(retries)] loop of [perform_get_request], from
    attempt [retry] on with [remaining] attempts left. *)
Fixpoint perform_attempts (net : Network) (url : string) (retry remaining : nat)
  : Outcome (option (Outcome json)) :=
  match remaining with
  | O => Ret None
  | S remaining' =>
      match net url retry with
      | Response body => Ret (Some body)
      | RequestError => perform_attempts net url (S retry) remaining'
      | UnexpectedError e => Raise e
      end
  end.

(** [perform_get_request(url, retries=3)]: the response, or [None] once the
    retries are used up.  The sleep between attempts is not modelled. *)
Definition perform_get_request (net : Network) (url : string) : Outcome (option (Outcome json)) :=
  perform_attempts net url 0 3.

(** The URL of one page: [currentPage], [itemsPerPage=1000], then the
    parameters in the dict's order. *)
Definition page_url (base_url : string) (page : nat) (params : list (string * string)) : string :=
  foldl (fun url kv => url +:+ "&" +:+ kv.1 +:+ "=" +:+ kv.2)
        (base_url +:+ "?currentPage=" +:+ pretty page +:+ "&itemsPerPage=1000")
        params.

(** The [if 'content' in data / elif 'pageResult' in data / else] of the
    loop body: the records to append and the new [last_page], or [None] for
    the [else: break]. *)
Definition read_page (data : json) : Outcome (option (list json * json)) :=
  has_content ← contains "content" data;
  if has_content : bool then
    content ← get data "content" (JArr []);
    records ← iterate content;
    last_page ← get data "last" (JBool true);
    Ret (Some (records, last_page))
  else
    has_page_result ← contains "pageResult" data;
    if has_page_result : bool then
      page_result ← get data "pageResult" (JObj []);
      content ← get page_result "content" (JArr []);
      records ← iterate content;
      last_page ← get data "last" (JBool true);
      Ret (Some (records, last_page))
    else Ret None.

(** The [while not last_page] loop of [fetch_paginated_data], entered with
    [last_page] false: at most [fuel] iterations, [None] when they do not
    suffice.  Beside the result it returns the URLs requested, in order. *)
Fixpoint fetch_pages (fuel : nat) (net : Network) (base_url : string)
    (params : list (string * string)) (page : nat) (all_data : list json)
    (requested : list string) : option (Outcome (list json) * list string) :=
  match fuel with
  | O => None
  | S fuel' =>
      let url := page_url base_url page params in
      let requested := requested ++ [url] in
      match perform_get_request net url with
      | Raise e => Some (Raise e, requested)
      | Ret None => Some (Ret all_data, requested)
      | Ret (Some (Raise e)) => Some (Raise e, requested)
      | Ret (Some (Ret data)) =>
          match read_page data with
          | Raise e => Some (Raise e, requested)
          | Ret None => Some (Ret all_data, requested)
          | Ret (Some (records, last_page)) =>
              if truthy last_page
              then Some (Ret (all_data ++ records), requested)
              else fetch_pages fuel' net base_url params (S page) (all_data ++ records) requested
          end
      end
  end.

(** [fetch_paginated_data(base_url, params)]. *)
Definition fetch_paginated_data (fuel : nat) (net : Network) (base_url : string)
    (params : list (string * string)) : option (Outcome (list json) * list string) :=
  fetch_pages fuel net base_url params 0 [] [].

(** [perform_get_request] obtains the document [data] from [url]. *)
Definition serves (net : Network) (url : string) (data : json) : Prop :=
  perform_get_request net url = Ret (Some (Ret data)).

(** [data] is a page in one of the two envelopes the client reads,
    [{content: [...], last: ...}] or [{pageResult: {content: [...]}, last: ...}],
    with the records [content] and the flag [last] ([None]: no flag). *)
Definition is_page (data : json) (content : list json) (last : option bool) : Prop :=
  exists members,
    data = JObj members
    /\ dict_lookup "last" members = JBool <$> last
    /\ (dict_lookup "content" members = Some (JArr content)
        \/ (dict_lookup "content" members = None
            /\ exists inner,
                 dict_lookup "pageResult" members = Some (JObj inner)
                 /\ dict_lookup "content" inner = Some (JArr content))).

End ApiClient.


(** ** Data frames

    The part of pandas the pipeline uses.  A cell is an integer, a string
    or NaN; a row maps column labels to cells; a frame lists its column
    labels in order and its rows in order.  [pd.DataFrame()] is the frame
    without columns and rows. *)
Module Frames.

Inductive Cell :=
  | CNaN
  | CInt (n : Z)
  | CStr (s : string).

#[global] Instance Cell_eq_dec : EqDecision Cell.
Proof. solve_decision. Defined.

(** [str(cell)], as an f-string renders it. *)
Definition str (c : Cell) : string :=
  match c with
  | CNaN => "nan"
  | CInt n => pretty n
  | CStr s => s
  end.

Record Frame := mkFrame {
  columns : list string;
  rows : list (gmap string Cell)
}.

Definition empty_frame : Frame := mkFrame [] [].

(** [df.empty]: an axis of length 0. *)
Definition empty (df : Frame) : bool :=
  bool_decide (rows df = []) || bool_decide (columns df = []).

(** [df.shape[0]]. *)
Definition shape0 (df : Frame) : nat := length (rows df).

(** The cell of a row under a label: NaN where the row has none. *)
Definition cell (r : gmap string Cell) (c : string) : Cell := default CNaN (r !! c).

(** [df[c] = v] and [df.loc[:, c] = v] for a scalar [v]. *)
Definition set_column (c : string) (v : Cell) (df : Frame) : Frame :=
  mkFrame (if bool_decide (c ∈ columns df) then columns df else columns df ++ [c])
          (insert c v <$> rows df).

(** [ensure_required_columns(df, required_columns)] of utils.py. *)
Definition ensure_required_columns (df : Frame) (required_columns : list string) : Frame :=
  let current_columns := columns df in
  foldl (fun df col => if bool_decide (col ∈ current_columns) then df
                       else set_column col (CStr "") df)
        df required_columns.

(** The first label of [cols] that [df] lacks. *)
Definition missing_column (df : Frame) (cols : list string) : option string :=
  List.find (fun c => negb (bool_decide (c ∈ columns df))) cols.

Definition key_error (c : string) : Exn := mkExn KeyError ("'" +:+ c +:+ "'").

(** [df[cols]] for a list of labels. *)
Definition select (cols : list string) (df : Frame) : Outcome Frame :=
  match missing_column df cols with
  | Some c => Raise (key_error c)
  | None =>
      Ret (mkFrame cols ((fun r => list_to_map ((fun c => (c, cell r c)) <$> cols)) <$> rows df))
  end.

(** [df.columns = new_labels]: the columns are relabelled by position. *)
Definition rename_columns (new_labels : list string) (df : Frame) : Outcome Frame :=
  if bool_decide (length new_labels = length (columns df))
  then Ret (mkFrame new_labels
              ((fun r => list_to_map (zip new_labels (cell r <$> columns df))) <$> rows df))
  else Raise (mkExn ValueError "Length mismatch")
  .

(** [df[c].unique()[0]]: the first value of column [c]. *)
Definition first_unique (c : string) (df : Frame) : Outcome Cell :=
  if bool_decide (c ∈ columns df) then
    match rows df with
    | [] => Raise (mkExn IndexError "index 0 is out of bounds for axis 0 with size 0")
    | r :: _ => Ret (cell r c)
    end
  else Raise (key_error c).

(** The values of a column. *)
Definition column (c : string) (df : Frame) : list Cell := (fun r => cell r c) <$> rows df.

(** [df.values.tolist()]: the rows as lists of cells, in column order. *)
Definition values (df : Frame) : list (list Cell) :=
  (fun r => cell r <$> columns df) <$> rows df.

Definition is_string (c : Cell) : bool :=
  match c with
  | CStr _ => true
  | _ => false
  end.

(** A column has dtype [object] when it holds a string, a numeric dtype
    otherwise. *)
Definition is_object (c : string) (df : Frame) : bool := existsb is_string (column c df).

(** *** merge

    [left.merge(right, how='left', on=on)] as far as the pipeline depends on
    it: a label of [on] missing on a side is a [KeyError]; a key column that
    holds strings on one side and numbers on the other is a [ValueError]
    ("You are trying to merge on object and int64 columns"); otherwise every
    left row is paired, in order, with the right rows that agree with it on
    all keys (NaN agreeing with NaN), or kept once with NaN in the right
    frame's other columns.  Other columns the two frames share get the
    suffixes [_x] and [_y]. *)
Definition agree (on : list string) (l r : gmap string Cell) : bool :=
  forallb (fun k => bool_decide (cell l k = cell r k)) on.

Definition merge (left right : Frame) (on : list string) : Outcome Frame :=
  match missing_column right on, missing_column left on with
  | Some k, _ | None, Some k => Raise (key_error k)
  | None, None =>
      if existsb (fun k => negb (bool_decide (is_object k left = is_object k right))) on
      then Raise (mkExn ValueError
                    "You are trying to merge on object and int64 columns. If you wish to proceed you should use pd.concat")
      else
        let others := List.filter (fun c => negb (bool_decide (c ∈ on))) (columns right) in
        let shared c := bool_decide (c ∈ columns left) && bool_decide (c ∈ others) in
        let lname c := if shared c then c +:+ "_x" else c in
        let rname c := if shared c then c +:+ "_y" else c in
        let lrow (l : gmap string Cell) : gmap string Cell :=
          list_to_map ((fun c => (lname c, cell l c)) <$> columns left) in
        let rrow (r : gmap string Cell) : gmap string Cell :=
          list_to_map ((fun c => (rname c, cell r c)) <$> others) in
        let unmatched : gmap string Cell :=
          list_to_map ((fun c => (rname c, CNaN)) <$> others) in
        Ret (mkFrame ((lname <$> columns left) ++ (rname <$> others))
               (l ← rows left;
                match List.filter (agree on l) (rows right) with
                | [] => [lrow l ∪ unmatched]
                | matches => (fun r => lrow l ∪ rrow r) <$> matches
                end))
  end.

(** *** Strings *)

(** Python's ASCII whitespace. *)
Definition is_space (c : ascii) : bool :=
  let n := nat_of_ascii c in
  bool_decide (n = 32%nat) || (bool_decide (9 <= n)%nat && bool_decide (n <= 13)%nat).

Fixpoint lstrip (s : string) : string :=
  match s with
  | String c s' => if is_space c then lstrip s' else s
  | EmptyString => EmptyString
  end.

(** [s.strip()]. *)
Definition strip (s : string) : string :=
  String.rev (lstrip (String.rev (lstrip s))).

(** [df.apply(lambda x: x.str.strip() if x.dtype == "object" else x)]: in a
    column of dtype [object] strings are stripped and the [str] accessor
    turns every other value into NaN; other columns are left alone. *)
Definition strip_objects (df : Frame) : Frame :=
  mkFrame (columns df)
    ((fun r => list_to_map
        ((fun c => (c, if is_object c df
                       then match cell r c with
                            | CStr s => CStr (strip s)
                            | _ => CNaN
                            end
                       else cell r c)) <$> columns df)) <$> rows df).

(** [df[c] = df[c].apply(f)] for a function on strings that hands any other
    value back unchanged. *)
Definition apply_to_strings (c : string) (f : string -> string) (df : Frame) : Outcome Frame :=
  if bool_decide (c ∈ columns df)
  then Ret (mkFrame (columns df)
              ((fun r => match cell r c with
                         | CStr s => <[c := CStr (f s)]> r
                         | _ => r
                         end) <$> rows df))
  else Raise (key_error c).

(** [df[~df[c].str.startswith(prefix)]]: the rows whose [c] does not start
    with [prefix].  A value that is not a string makes the accessor or the
    negation raise. *)
Definition drop_prefixed (c prefix : string) (df : Frame) : Outcome Frame :=
  if bool_decide (c ∈ columns df) then
    if forallb is_string (column c df)
    then Ret (mkFrame (columns df)
                (List.filter (fun r => negb (String.prefix prefix (str (cell r c)))) (rows df)))
    else Raise (mkExn TypeError "bad operand type for unary ~: 'float'")
  else Raise (key_error c).

End Frames.


(** ** config.py *)
Module Config.

(** The settings the modelled code reads. *)
Record Settings := mkSettings {
  OUTPUT_DATA_DIR : string;
  INCR_OUTPUT_DATA_DIR : string;
  DEFAULT_END_ID : Z;
  BATCH_SIZE : Z
}.

(** The values config.py falls back to when the environment sets none. *)
Definition defaults : Settings :=
  mkSettings "../data/raw_bulk_data/" "../data/new_data/" 60000 100.

(** The keys of [API_ENDPOINTS]. *)
Inductive Endpoint :=
  | data_captures
  | batch_records
  | data_captures_by_lot
  | structures.

(** [REQUIRED_COLUMNS]. *)
Definition REQUIRED_data_capture : list string :=
  ["orderLabel"; "productionRecordId"; "masterTemplateId"; "unitProcedureId";
   "operationId"; "phaseId"; "title"; "value"; "userName"; "dateTime";
   "actionTaken"; "dataCaptureName"].

Definition REQUIRED_batch_record : list string :=
  ["lotNumber"; "productId"; "productName"; "status"].

End Config.

(** ** The state the fetch system works on *)

(** One call of the API client by the data processor: a paginated fetch of
    an endpoint with its query parameters, or the structure document of a
    production record. *)
Inductive ApiCall :=
  | Paginated (endpoint : Config.Endpoint) (params : list (string * string))
  | Structures (production_record_id : Z).

#[global] Instance Endpoint_eq_dec : EqDecision Config.Endpoint.
Proof. solve_decision. Defined.
#[global] Instance ApiCall_eq_dec : EqDecision ApiCall.
Proof. solve_decision. Defined.

Inductive Status :=
  | Success
  | Failure.

#[global] Instance Status_eq_dec : EqDecision Status.
Proof. solve_decision. Defined.

(** A row of the tracking frame: [Production Record ID], [Lot Number],
    [Status] ([Failure] is the string ["Fail"]), [Reason]. *)
Record StatusEntry := mkStatusEntry {
  entry_record_id : Z;
  entry_lot_number : option Frames.Cell;
  entry_status : Status;
  entry_reason : string
}.

(** The dict stored in the checkpoint file. *)
Record Checkpoint := mkCheckpoint {
  last_processed_id : Z;
  timestamp : string
}.

(** The checkpoint file: absent, unreadable as JSON, or holding a
    checkpoint. *)
Inductive CheckpointFile :=
  | NoFile
  | Corrupt
  | Stored (checkpoint : Checkpoint).

(** What the fetch system reads and changes: the calls made to the API
    client so far, the tracker's in-memory frame, the rows of the status log
    file, the checkpoint file and every checkpoint written to it so far, and
    the CSV files written so far (path and content, oldest first). *)
Record State := mkState {
  api_calls : list ApiCall;
  tracking_df : list StatusEntry;
  status_log_file : list StatusEntry;
  checkpoint_file : CheckpointFile;
  checkpoint_saves : list Checkpoint;
  csv_files : list (string * Frames.Frame)
}.

(** The state-and-exception monad: an exception leaves the state as it was
    when raised. *)
Definition M (A : Type) : Type := State -> Outcome A * State.

#[global] Instance M_ret : MRet M := fun A a s => (Ret a, s).
#[global] Instance M_bind : MBind M := fun A B f m s =>
  match m s with
  | (Ret a, s') => f a s'
  | (Raise e, s') => (Raise e, s')
  end.

(** [try: body  except Exception as e: handler(e)]. *)
Definition try_except {A} (body : M A) (handler : Exn -> M A) : M A := fun s =>
  match body s with
  | (Raise e, s') => handler e s'
  | done => done
  end.

(** A computation without effect on the state. *)
Definition lift {A} (o : Outcome A) : M A := fun s => (o, s).

(** ** status_tracker.py *)
Module StatusTracker.

(** [load_tracking_df]: the rows of the status log file; no file, or one
    that cannot be read, gives the empty frame. *)
Definition load_tracking_df (s : State) : list StatusEntry := status_log_file s.

(** [StatusTracker.__init__]. *)
Definition init : M unit := fun s =>
  (Ret (), mkState (api_calls s) (load_tracking_df s) (status_log_file s)
             (checkpoint_file s) (checkpoint_saves s) (csv_files s)).

(** [is_already_processed]: the rows of the record are selected, and the
    status of the first of them ([iloc[0]]) is compared with ["Success"]. *)
Definition is_already_processed (tracking_df : list StatusEntry) (production_record_id : Z) : bool :=
  let existing_entry :=
    List.filter (fun e => bool_decide (entry_record_id e = production_record_id))
                tracking_df in
  match existing_entry with
  | [] => false
  | first :: _ => bool_decide (entry_status first = Success)
  end.

(** [save_tracking_df]: the frame is written out in full. *)
Definition save_tracking_df : M unit := fun s =>
  (Ret (), mkState (api_calls s) (tracking_df s) (tracking_df s)
             (checkpoint_file s) (checkpoint_saves s) (csv_files s)).

(** [log_status]: a row is appended at label [len(tracking_df)], then the
    frame is saved. *)
Definition log_status (production_record_id : Z) (lot_number : option Frames.Cell)
    (status : Status) (reason : string) : M unit := fun s =>
  save_tracking_df
    (mkState (api_calls s)
       (tracking_df s ++ [mkStatusEntry production_record_id lot_number status reason])
       (status_log_file s) (checkpoint_file s) (checkpoint_saves s) (csv_files s)).

End StatusTracker.

(** ** checkpoint_manager.py *)
Module CheckpointManager.
Section checkpoint.
(** [datetime.datetime.now().isoformat()] at the time the [n]-th checkpoint
    is built. *)
Variable isoformat_now : nat -> string.

Definition _default_checkpoint (s : State) : Checkpoint :=
  mkCheckpoint (-1) (isoformat_now (length (checkpoint_saves s))).

(** [load_checkpoint]: the stored dict, or the default when the file is
    missing or cannot be decoded. *)
Definition load_checkpoint (s : State) : Checkpoint :=
  match checkpoint_file s with
  | Stored checkpoint => checkpoint
  | Corrupt | NoFile => _default_checkpoint s
  end.

(** [save_checkpoint(last_id)]: the file is overwritten. *)
Definition save_checkpoint (last_id : Z) : M unit := fun s =>
  let checkpoint := mkCheckpoint last_id (isoformat_now (length (checkpoint_saves s))) in
  (Ret (), mkState (api_calls s) (tracking_df s) (status_log_file s)
             (Stored checkpoint) (checkpoint_saves s ++ [checkpoint]) (csv_files s)).
End checkpoint.
End CheckpointManager.


(** ** data_processor.py *)
Module DataProcessor.
Import Frames.

(** An item of the capture endpoint, decoded: the attributes the processor
    reads.  [iterationNumber] is [None] where the item has none. *)
Record RawCapture := mkRawCapture {
  current : bool;
  iterationNumber : option Z;
  orderLabel : string;
  productionRecordId : Cell;
  masterTemplateId : Cell;
  unitProcedureId : Cell;
  operationId : Cell;
  phaseId : Cell;
  title : Cell;
  value : Cell;
  userName : Cell;
  dateTime : Cell;
  actionTaken : Cell;
  dataCaptureName : Cell
}.

(** An item of the batch-records endpoint. *)
Record BatchRecord := mkBatchRecord {
  batch_lotNumber : Cell;
  batch_productId : Cell;
  batch_productName : Cell;
  batch_status : Cell
}.

(** An item of the data-captures-by-lot endpoint. *)
Record LotCapture := mkLotCapture {
  lot_masterTemplateName : Cell;
  lot_productId : Cell;
  lot_lotNumber : Cell;
  lot_productionRecordStatus : Cell
}.

(** A node of the structure document. *)
Record StructureNode := mkStructureNode {
  node_title : Cell;
  node_level : string;
  node_masterTemplateId : Cell;
  node_unitProcedureId : Cell;
  node_operationId : Cell;
  node_phaseId : Cell
}.

(** The API client as the data processor uses it: what
    [fetch_paginated_data] returns (or raises) for each endpoint and
    parameter dict, and what [perform_get_request] followed by [json.loads]
    gives for the structure document of a record ([None]: no response). *)
Record Client := mkClient {
  fetch_data_captures : list (string * string) -> Outcome (list RawCapture);
  fetch_batch_records : list (string * string) -> Outcome (list BatchRecord);
  fetch_data_captures_by_lot : list (string * string) -> Outcome (list LotCapture);
  get_structures : Z -> Outcome (option (list StructureNode))
}.

(** A call of the client: it is recorded, and its result handed on. *)
Definition api_call {A} (c : ApiCall) (result : Outcome A) : M A := fun s =>
  (result, mkState (api_calls s ++ [c]) (tracking_df s) (status_log_file s)
             (checkpoint_file s) (checkpoint_saves s) (csv_files s)).

(** Lines 70-80 of [fetch_production_record_data]: the order label gets the
    iteration number appended unless the label is ["0"] or the number is
    missing ([-99999]). *)
Definition labelled (r : RawCapture) : string :=
  let iteration := default (-99999) (iterationNumber r) in
  if negb (bool_decide (orderLabel r = "0")) && negb (iteration =? -99999)
  then orderLabel r +:+ " - " +:+ pretty iteration
  else orderLabel r.

(** The row of [df_required] for a capture. *)
Definition capture_row (r : RawCapture) : gmap string Cell :=
  list_to_map
    [("orderLabel", CStr (labelled r)); ("productionRecordId", productionRecordId r);
     ("masterTemplateId", masterTemplateId r); ("unitProcedureId", unitProcedureId r);
     ("operationId", operationId r); ("phaseId", phaseId r); ("title", title r);
     ("value", value r); ("userName", userName r); ("dateTime", dateTime r);
     ("actionTaken", actionTaken r); ("dataCaptureName", dataCaptureName r)].

(** Lines 58-95 of [fetch_production_record_data], on the fetched items:
    the lot number and the frame of current captures. *)
Definition record_data (all_data : list RawCapture) : Cell * Frame :=
  match all_data with
  | [] => (CInt 0, empty_frame)
  | _ =>
      let record_data_df := List.filter current all_data in
      let df_required :=
        mkFrame Config.REQUIRED_data_capture (capture_row <$> record_data_df) in
      let lot_numbers :=
        title <$> List.filter
                    (fun r => bool_decide (dataCaptureName r = CStr "BATCH_RECORD_CREATION"))
                    record_data_df in
      match lot_numbers with
      | [] => (CInt 0, df_required)
      | first :: _ => (first, df_required)
      end
  end.

Definition batch_row (b : BatchRecord) : gmap string Cell :=
  list_to_map [("lotNumber", batch_lotNumber b); ("productId", batch_productId b);
               ("productName", batch_productName b); ("status", batch_status b)].

(** Lines 111-123 of [fetch_batch_records_by_lot]. *)
Definition batch_frame (all_data : list BatchRecord) : Frame :=
  match all_data with
  | [] => empty_frame
  | _ => mkFrame Config.REQUIRED_batch_record (batch_row <$> all_data)
  end.

Definition lot_capture_row (c : LotCapture) : gmap string Cell :=
  list_to_map [("lotNumber", lot_lotNumber c); ("productId", lot_productId c);
               ("productName", lot_masterTemplateName c);
               ("status", lot_productionRecordStatus c)].

(** Lines 133-152 of [fetch_data_capture_by_lot]. *)
Definition lot_capture_frame (all_data : list LotCapture) : Frame :=
  match all_data with
  | [] => empty_frame
  | _ => mkFrame Config.REQUIRED_batch_record (lot_capture_row <$> all_data)
  end.

Definition at_level (level : string) (data : list StructureNode) : list StructureNode :=
  List.filter (fun n => bool_decide (node_level n = level)) data.

(** [_process_unit_procedures], [_process_operations], [_process_phases]. *)
Definition _process_unit_procedures (df : list StructureNode) : Frame :=
  match df with
  | [] => empty_frame
  | _ =>
      mkFrame ["masterTemplateId"; "unitProcedureId"; "Unit"]
        ((fun n => list_to_map [("masterTemplateId", node_masterTemplateId n);
                                ("unitProcedureId", node_unitProcedureId n);
                                ("Unit", node_title n)]) <$> df)
  end.

Definition _process_operations (df : list StructureNode) : Frame :=
  match df with
  | [] => empty_frame
  | _ =>
      mkFrame ["masterTemplateId"; "unitProcedureId"; "operationId"; "Operation"]
        ((fun n => list_to_map [("masterTemplateId", node_masterTemplateId n);
                                ("unitProcedureId", node_unitProcedureId n);
                                ("operationId", node_operationId n);
                                ("Operation", node_title n)]) <$> df)
  end.

Definition _process_phases (df : list StructureNode) : Frame :=
  match df with
  | [] => empty_frame
  | _ =>
      mkFrame ["masterTemplateId"; "unitProcedureId"; "operationId"; "phaseId"; "Phase"]
        ((fun n => list_to_map [("masterTemplateId", node_masterTemplateId n);
                                ("unitProcedureId", node_unitProcedureId n);
                                ("operationId", node_operationId n);
                                ("phaseId", node_phaseId n);
                                ("Phase", node_title n)]) <$> df)
  end.

(** Lines 162-186 of [fetch_production_structure_metadata], on the
    response: three empty frames without a response; [KeyError] when the
    document has no node, hence no [level] column. *)
Definition structure_tables (response : option (list StructureNode))
  : Outcome (Frame * Frame * Frame) :=
  match response with
  | None => Ret (empty_frame, empty_frame, empty_frame)
  | Some [] => Raise (key_error "level")
  | Some data =>
      Ret (_process_unit_procedures (at_level "UNIT_PROCEDURE" data),
           _process_operations (at_level "OPERATION" data),
           _process_phases (at_level "PHASE" data))
  end.

Section processor.
Variable client : Client.

Definition record_params (production_record_id : Z) : list (string * string) :=
  [("productionRecordId", pretty production_record_id)].

Definition fetch_production_record_data (production_record_id : Z) : M (Cell * Frame) :=
  let params := record_params production_record_id in
  all_data ← api_call (Paginated Config.data_captures params) (fetch_data_captures client params);
  mret (record_data all_data).

Definition batch_params (lot_number : Cell) : list (string * string) :=
  [("sortColumn", "create_date"); ("sortDirection", "desc"); ("productName", "");
   ("productId", ""); ("lotNumber", str lot_number)].

Definition fetch_batch_records_by_lot (lot_number : Cell) : M Frame :=
  let params := batch_params lot_number in
  all_data ← api_call (Paginated Config.batch_records params) (fetch_batch_records client params);
  mret (batch_frame all_data).

Definition lot_params (lot_number : Cell) : list (string * string) :=
  [("lotNumbers", str lot_number)].

Definition fetch_data_capture_by_lot (lot_number : Cell) : M Frame :=
  let params := lot_params lot_number in
  all_data ← api_call (Paginated Config.data_captures_by_lot params)
               (fetch_data_captures_by_lot client params);
  mret (lot_capture_frame all_data).

Definition fetch_production_structure_metadata (production_record_id : Z)
  : M (Frame * Frame * Frame) :=
  response ← api_call (Structures production_record_id) (get_structures client production_record_id);
  lift (structure_tables response).
End processor.

End DataProcessor.


(** ** The two pipelines: what they share *)
Module Pipeline.
Import Frames.

(** [try: body  except ValueError: handler]. *)
Definition except_ValueError {A} (body : Outcome A) (handler : Outcome A) : Outcome A :=
  match body with
  | Raise e => if is_ValueError e then handler else Raise e
  | done => done
  end.

(** [merged_df.to_csv(file_name, index=False)]. *)
Definition to_csv (file_name : string) (df : Frame) : M unit := fun s =>
  (Ret (), mkState (api_calls s) (tracking_df s) (status_log_file s)
             (checkpoint_file s) (checkpoint_saves s) (csv_files s ++ [(file_name, df)])).

(** [for x in xs: body(x)]. *)
Fixpoint for_each {A} (body : A -> M unit) (xs : list A) : M unit :=
  match xs with
  | [] => mret ()
  | x :: rest => _ ← body x; for_each body rest
  end.

Definition final_columns : list string :=
  ["Master Template Name"; "Lot Number"; "Product ID"; "Unit"; "Operation"; "Phase";
   "dateTime"; "Production Record Status"; "orderLabel"; "title"; "value";
   "userName"; "actionTaken"; "dataCaptureName"].

Definition output_columns : list string :=
  ["Master Template Name"; "Lot Number"; "Product ID"; "Unit"; "Operation"; "Phase";
   "Data Capture Time"; "Production Record Status"; "Structure Label"; "Description";
   "Input Data Value"; "Performed By"; "Action Performed"; "Captured Data Type"].

(** The first four assignments of [_merge_data], the same in both
    pipelines: the lot summary's first values become columns. *)
Definition add_basic_metadata (record_df data_capture_df : Frame) : Outcome Frame :=
  let merged_df := record_df in
  v ← first_unique "productName" data_capture_df;
  let merged_df := set_column "Master Template Name" v merged_df in
  v ← first_unique "lotNumber" data_capture_df;
  let merged_df := set_column "Lot Number" v merged_df in
  v ← first_unique "productId" data_capture_df;
  let merged_df := set_column "Product ID" v merged_df in
  v ← first_unique "status" data_capture_df;
  Ret (set_column "Production Record Status" v merged_df).

(** The end of [_merge_data], the same in both pipelines: column
    selection and renaming, stripping, the timestamp reformatter, and the
    filter on [VOD_] users. *)
Definition select_and_clean (reformat_datetime : string -> string) (merged_df : Frame)
  : Outcome Frame :=
  final_df ← select final_columns merged_df;
  final_df ← rename_columns output_columns final_df;
  let final_df := strip_objects final_df in
  final_df ← apply_to_strings "Data Capture Time" reformat_datetime final_df;
  drop_prefixed "Performed By" "VOD_" final_df.

(** [os.path.join(directory, name)] for a relative [name]. *)
Definition path_join (directory name : string) : string :=
  if bool_decide (directory = "") then name
  else if bool_decide (String.substring (String.length directory - 1) 1 directory = "/")
       then directory +:+ name
       else directory +:+ "/" +:+ name.

End Pipeline.

(** ** bulk_fetch.py *)
Module BulkFetch.
Import Frames Pipeline.

(** The parsed command line. *)
Record Args := mkArgs {
  start : option Z;
  end_ : option Z;
  batch_size : Z
}.

Section pipeline.
Variable settings : Config.Settings.
Variable client : DataProcessor.Client.
Variable reformat_datetime : string -> string.
Variable isoformat_now : nat -> string.

(** Lines 111-137 of [_merge_data]: the nested [try] blocks give up the
    level whose merge raises [ValueError] and the levels below it. *)
Definition merge_structure (merged_df unit_df operation_df phase_df : Frame) : Outcome Frame :=
  let merge_keys := ["masterTemplateId"; "unitProcedureId"] in
  except_ValueError
    (merged_df ← merge merged_df unit_df merge_keys;
     except_ValueError
       (merged_df ← merge merged_df operation_df (merge_keys ++ ["operationId"]);
        except_ValueError
          (merge merged_df phase_df (merge_keys ++ ["operationId"; "phaseId"]))
          (Ret (set_column "Phase" (CStr "") merged_df)))
       (Ret (set_column "Phase" (CStr "") (set_column "Operation" (CStr "") merged_df))))
    (Ret (set_column "Phase" (CStr "")
            (set_column "Operation" (CStr "") (set_column "Unit" (CStr "") merged_df)))).

Definition _merge_data (record_df data_capture_df unit_df operation_df phase_df : Frame)
  : Outcome Frame :=
  merged_df ← add_basic_metadata record_df data_capture_df;
  merged_df ← merge_structure merged_df unit_df operation_df phase_df;
  select_and_clean reformat_datetime merged_df.

(** Lines 72-81 of [process_record]: the alternative lookup when the first
    returned no row.  [None] stands for the [return 0] after the failure is
    logged. *)
Definition alternative_lookup (production_record_id : Z) (lot_number : Cell)
    (filtered_data_capture_df : Frame) : M (option Frame) :=
  if bool_decide (shape0 filtered_data_capture_df = 0%nat) then
    filtered_data_capture_df ← DataProcessor.fetch_data_capture_by_lot client lot_number;
    if bool_decide (shape0 filtered_data_capture_df = 0%nat) then
      _ ← StatusTracker.log_status production_record_id (Some lot_number) Failure
            "Both api_1 calls returned empty";
      mret None
    else mret (Some filtered_data_capture_df)
  else mret (Some filtered_data_capture_df).

(** Lines 83-95 of [process_record]: merge, write the CSV file, log the
    success. *)
Definition merge_and_save (production_record_id : Z) (lot_number : Cell)
    (filtered_record_data_df filtered_data_capture_df unit_df operation_df phase_df : Frame)
  : M unit :=
  merged_df ← lift (_merge_data filtered_record_data_df filtered_data_capture_df
                      unit_df operation_df phase_df);
  let file_name := Config.OUTPUT_DATA_DIR settings +:+ str lot_number +:+ ".csv" in
  _ ← to_csv file_name merged_df;
  StatusTracker.log_status production_record_id (Some lot_number) Success "".

(** The [except Exception as e] block of [process_record]. *)
Definition log_exception (production_record_id : Z) (e : Exn) : M unit :=
  StatusTracker.log_status production_record_id None Failure (exn_msg e).

Definition process_record (production_record_id : Z) : M unit :=
  try_except
    ('(lot_number, filtered_record_data_df) ←
        DataProcessor.fetch_production_record_data client production_record_id;
     if bool_decide (shape0 filtered_record_data_df = 0%nat) then
       StatusTracker.log_status production_record_id None Failure
         "fetch_production_record_data returned empty"
     else
       filtered_data_capture_df ← DataProcessor.fetch_batch_records_by_lot client lot_number;
       '(unit_df, operation_df, phase_df) ←
          DataProcessor.fetch_production_structure_metadata client production_record_id;
       reconciled ← alternative_lookup production_record_id lot_number filtered_data_capture_df;
       match reconciled with
       | None => mret ()
       | Some filtered_data_capture_df =>
           merge_and_save production_record_id lot_number filtered_record_data_df
             filtered_data_capture_df unit_df operation_df phase_df
       end)
    (log_exception production_record_id).

(** [range(a, b + 1)]. *)
Definition id_range (a b : Z) : list Z := seqZ a (b + 1 - a).

(** The [while current_batch_start <= end_id] loop of [run]: at most [fuel]
    batches, [None] when they do not suffice. *)
Fixpoint run_batches (fuel : nat) (current_batch_start end_id batch_size : Z) (s : State)
  : option (Outcome unit * State) :=
  if current_batch_start <=? end_id then
    match fuel with
    | O => None
    | S fuel' =>
        let current_batch_end := Z.min (current_batch_start + batch_size - 1) end_id in
        match (_ ← for_each process_record (id_range current_batch_start current_batch_end);
               CheckpointManager.save_checkpoint isoformat_now current_batch_end) s with
        | (Ret _, s') => run_batches fuel' (current_batch_end + 1) end_id batch_size s'
        | (Raise e, s') => Some (Raise e, s')
        end
    end
  else Some (Ret (), s).

Definition run (fuel : nat) (start_id end_id batch_size : Z) (s : State)
  : option (Outcome unit * State) :=
  run_batches fuel start_id end_id batch_size s.

(** Lines 192-196 of [main]: the start is [--start], or one past the
    checkpoint, and never below 0. *)
Definition start_id_of (args : Args) (s : State) : Z :=
  let checkpoint := CheckpointManager.load_checkpoint isoformat_now s in
  let start_id := match start args with
                  | Some v => v
                  | None => last_processed_id checkpoint + 1
                  end in
  if start_id <=? 0 then 0 else start_id.

(** [main]: the end is [--end] or [DEFAULT_END_ID]; building the pipeline
    loads the ledger. *)
Definition main (fuel : nat) (args : Args) (s : State) : option (Outcome unit * State) :=
  let start_id := start_id_of args s in
  let end_id := default (Config.DEFAULT_END_ID settings) (end_ args) in
  let batch_size := batch_size args in
  match StatusTracker.init s with
  | (Ret _, s') => run fuel start_id end_id batch_size s'
  | (Raise e, s') => Some (Raise e, s')
  end.
End pipeline.
End BulkFetch.

(** ** incremental_fetch.py *)
Module IncrementalFetch.
Import Frames Pipeline.

Section pipeline.
Variable settings : Config.Settings.
Variable client : DataProcessor.Client.
Variable reformat_datetime : string -> string.
Variable isoformat_now : nat -> string.

(** The [except ValueError] block of [_merge_data]: all three structure
    columns of the frame at hand are set to the empty string. *)
Definition blank_structure (e : Exn) (merged_df : Frame) : Outcome Frame :=
  if is_ValueError e
  then Ret (set_column "Phase" (CStr "")
              (set_column "Operation" (CStr "") (set_column "Unit" (CStr "") merged_df)))
  else Raise e.

(** Lines 97-107 of [_merge_data]: one [try] around the three merges;
    [merged_df] is reassigned after each merge that succeeds, so the handler
    works on the last frame obtained. *)
Definition merge_structure (merged_df unit_df op_df phase_df : Frame) : Outcome Frame :=
  match merge merged_df unit_df ["masterTemplateId"; "unitProcedureId"] with
  | Raise e => blank_structure e merged_df
  | Ret merged_df =>
      match merge merged_df op_df ["masterTemplateId"; "unitProcedureId"; "operationId"] with
      | Raise e => blank_structure e merged_df
      | Ret merged_df =>
          match merge merged_df phase_df
                  ["masterTemplateId"; "unitProcedureId"; "operationId"; "phaseId"] with
          | Raise e => blank_structure e merged_df
          | Ret merged_df => Ret merged_df
          end
      end
  end.

Definition _merge_data (record_df capture_df unit_df op_df phase_df : Frame) : Outcome Frame :=
  merged_df ← add_basic_metadata record_df capture_df;
  merged_df ← merge_structure merged_df unit_df op_df phase_df;
  select_and_clean reformat_datetime merged_df.

(** [_log_failure]. *)
Definition _log_failure (record_id : Z) (reason : string) (lot_number : option Cell) : M unit :=
  StatusTracker.log_status record_id lot_number Failure reason.

(** Lines 63-68 of [process_record]: the lot summary from the first lookup,
    or from the second when the first is empty.  [None] stands for the
    [return] after the failure is logged. *)
Definition reconcile (production_record_id : Z) (lot_number : Cell) : M (option Frame) :=
  capture_df ← DataProcessor.fetch_batch_records_by_lot client lot_number;
  if empty capture_df then
    capture_df ← DataProcessor.fetch_data_capture_by_lot client lot_number;
    if empty capture_df then
      _ ← _log_failure production_record_id "Both API calls returned empty" (Some lot_number);
      mret None
    else mret (Some capture_df)
  else mret (Some capture_df).

(** Lines 70-77 of [process_record]: fetch the structure, merge, write the
    CSV file, log the success. *)
Definition merge_and_save (production_record_id : Z) (lot_number : Cell)
    (record_df capture_df : Frame) : M unit :=
  '(unit_df, op_df, phase_df) ←
     DataProcessor.fetch_production_structure_metadata client production_record_id;
  merged_df ← lift (_merge_data record_df capture_df unit_df op_df phase_df);
  let output_file :=
    path_join (Config.INCR_OUTPUT_DATA_DIR settings) (str lot_number +:+ ".csv") in
  _ ← to_csv output_file merged_df;
  StatusTracker.log_status production_record_id (Some lot_number) Success "".

(** The [except Exception as e] block of [process_record]. *)
Definition log_exception (production_record_id : Z) (e : Exn) : M unit :=
  StatusTracker.log_status production_record_id None Failure (exn_msg e).

Definition process_record (production_record_id : Z) : M unit :=
  try_except
    ('(lot_number, record_df) ←
        DataProcessor.fetch_production_record_data client production_record_id;
     if empty record_df then
       _log_failure production_record_id "fetch_production_record_data returned empty" None
     else
       reconciled ← reconcile production_record_id lot_number;
       match reconciled with
       | None => mret ()
       | Some capture_df =>
           merge_and_save production_record_id lot_number record_df capture_df
       end)
    (log_exception production_record_id).

(** [range(0, n, batch_size)] for [n >= 0]. *)
Definition batch_offsets (n : nat) (batch_size : Z) : Outcome (list nat) :=
  if batch_size =? 0 then Raise (mkExn ValueError "range() arg 3 must not be zero")
  else if batch_size <? 0 then Ret []
  else
    let size := Z.to_nat batch_size in
    Ret ((fun k => (k * size)%nat) <$> seq 0 ((n + size - 1) / size)%nat).

(** One iteration of the loop of [run]. *)
Definition run_batch (id_list : list Z) (batch_size : Z) (i : nat) : M unit :=
  let batch_ids := take (Z.to_nat batch_size) (drop i id_list) in
  _ ← for_each process_record batch_ids;
  match last batch_ids with
  | Some last_id => CheckpointManager.save_checkpoint isoformat_now last_id
  | None => lift (Raise (mkExn IndexError "list index out of range"))
  end.

Definition run (id_list : list Z) (batch_size : Z) : M unit :=
  offsets ← lift (batch_offsets (length id_list) batch_size);
  for_each (run_batch id_list batch_size) offsets.

End pipeline.
End IncrementalFetch.


(** ** The destination store *)
Module Database.
Import Frames.

#[global] Instance Cell_countable : Countable Cell.
Proof.
  refine (inj_countable'
            (fun c => match c with
                      | CNaN => inl ()
                      | CInt n => inr (inl n)
                      | CStr s => inr (inr s)
                      end)
            (fun x => match x with
                      | inl _ => CNaN
                      | inr (inl n) => CInt n
                      | inr (inr s) => CStr s
                      end) _).
  intros []; reflexivity.
Defined.

(** A row of [lots] without its key [lot_number]. *)
Record Lot := mkLot {
  product_id : Cell;
  product_name : Cell;
  lot_status : Cell;
  first_loaded : Z;
  last_updated : Z
}.

(** The tuple [prepare_data_for_insert] builds for one detail row, in the
    column order of [INSERT_LOT_DATA]. *)
Record Detail := mkDetail {
  lot_number : Cell;
  master_template_name : Cell;
  unit : Cell;
  operation : Cell;
  phase : Cell;
  data_capture_time : Cell;
  structure_label : Cell;
  description : Cell;
  input_data_value : Cell;
  performed_by : Cell;
  action_performed : Cell;
  captured_data_type : Cell;
  data_hash : Cell
}.

(** A row of [lot_data]: the serial id, the inserted values, and the two
    timestamps the table defaults. *)
Record LotData := mkLotData {
  id : Z;
  detail : Detail;
  created_at : Z;
  updated_at : Z
}.

(** A row of [file_processing_history]. *)
Record History := mkHistory {
  history_id : Z;
  filename : string;
  history_lot_number : Cell;
  process_type : string;
  processed_at : Z;
  record_count : Z;
  source_directory : string;
  target_directory : string;
  history_status : string;
  message : string
}.

(** The three tables. *)
Record Tables := mkTables {
  lots : gmap Cell Lot;
  lot_data : list LotData;
  file_processing_history : list History
}.

(** A connection: the committed tables, the tables as the open transaction
    sees them, and the two serial sequences, which a rollback does not
    rewind.  Column widths and other constraints of the schema are not
    modelled: statements are taken on values the schema accepts. *)
Record Connection := mkConnection {
  committed : Tables;
  working : Tables;
  lot_data_id_seq : Z;
  history_id_seq : Z
}.

Definition commit (conn : Connection) : Connection :=
  mkConnection (working conn) (working conn) (lot_data_id_seq conn) (history_id_seq conn).

Definition rollback (conn : Connection) : Connection :=
  mkConnection (committed conn) (committed conn) (lot_data_id_seq conn) (history_id_seq conn).

(** The statement changes the tables of the open transaction. *)
Definition execute (f : Tables -> Tables) (conn : Connection) : Connection :=
  mkConnection (committed conn) (f (working conn)) (lot_data_id_seq conn) (history_id_seq conn).

(** *** database/operations.py with sql/queries.py *)

(** [CHECK_LOT_EXISTS] and [fetchone()]. *)
Definition check_lot_exists (conn : Connection) (lot_number : Cell) : option Lot :=
  lots (working conn) !! lot_number.

(** [INSERT_LOT]. *)
Definition insert_lot (now : Z) (lot_number product_id product_name status : Cell)
  : Connection -> Connection :=
  execute (fun t =>
    mkTables (<[lot_number := mkLot product_id product_name status now now]> (lots t))
             (lot_data t) (file_processing_history t)).

(** [UPDATE_LOT]. *)
Definition update_lot (now : Z) (lot_number product_id product_name status : Cell)
  : Connection -> Connection :=
  execute (fun t =>
    mkTables (alter (fun l => mkLot product_id product_name status (first_loaded l) now)
                    lot_number (lots t))
             (lot_data t) (file_processing_history t)).

(** [DELETE_LOT_DATA]: [DELETE FROM lot_data WHERE lot_number = %s]. *)
Definition delete_lot_data (lot : Cell) : Connection -> Connection :=
  execute (fun t =>
    mkTables (lots t)
             (List.filter (fun r => negb (bool_decide (lot_number (detail r) = lot))) (lot_data t))
             (file_processing_history t)).

(** The rows [INSERT_LOT_DATA] adds for the given tuples, with serial ids
    from [first_id] on. *)
Fixpoint new_rows (now first_id : Z) (data_to_insert : list Detail) : list LotData :=
  match data_to_insert with
  | [] => []
  | d :: rest => mkLotData first_id d now now :: new_rows now (first_id + 1) rest
  end.

(** [insert_lot_data]: [execute_values] with [INSERT_LOT_DATA]. *)
Definition insert_lot_data (now : Z) (data_to_insert : list Detail) (conn : Connection)
  : Connection :=
  mkConnection (committed conn)
    (mkTables (lots (working conn))
       (lot_data (working conn) ++ new_rows now (lot_data_id_seq conn) data_to_insert)
       (file_processing_history (working conn)))
    (lot_data_id_seq conn + Z.of_nat (length data_to_insert))
    (history_id_seq conn).

(** [log_processing_history]: [INSERT_PROCESSING_HISTORY]. *)
Definition log_processing_history (now : Z) (filename : string) (lot_number : Cell)
    (process_type : string) (record_count : Z) (source_dir target_dir status message : string)
    (conn : Connection) : Connection :=
  mkConnection (committed conn)
    (mkTables (lots (working conn)) (lot_data (working conn))
       (file_processing_history (working conn)
        ++ [mkHistory (history_id_seq conn) filename lot_number process_type now record_count
              source_dir target_dir status message]))
    (lot_data_id_seq conn)
    (history_id_seq conn + 1).

End Database.

(** ** processors/file_processor.py *)
Module FileProcessor.
Import Frames Database.

(** The part of a path before and after its last occurrence of [sep]. *)
Fixpoint rsplit (sep : ascii) (p : string) : option (string * string) :=
  match p with
  | EmptyString => None
  | String c p' =>
      match rsplit sep p' with
      | Some (before, after) => Some (String c before, after)
      | None => if bool_decide (c = sep) then Some (EmptyString, p') else None
      end
  end.

Fixpoint only (c : ascii) (s : string) : bool :=
  match s with
  | EmptyString => true
  | String c' s' => bool_decide (c' = c) && only c s'
  end.

Fixpoint rstrip_slashes (s : string) : string :=
  match s with
  | EmptyString => EmptyString
  | String c s' =>
      match rstrip_slashes s' with
      | EmptyString => if bool_decide (c = "/"%char) then EmptyString else String c EmptyString
      | rest => String c rest
      end
  end.

(** [os.path.basename], [os.path.dirname], [os.path.splitext(...)[0]]. *)
Definition basename (p : string) : string :=
  match rsplit "/" p with
  | Some (_, after) => after
  | None => p
  end.

Definition dirname (p : string) : string :=
  match rsplit "/" p with
  | Some (before, _) => if only "/" before then before +:+ "/" else rstrip_slashes before
  | None => ""
  end.

Definition splitext_root (p : string) : string :=
  let name := basename p in
  match rsplit "." name with
  | Some (before, _) =>
      if only "." before then p
      else String.substring 0 (String.length p - (String.length name - String.length before)) p
  | None => p
  end.

(** [process_type] values. *)
Definition initial_load : string := "initial_load".
Definition incremental_load : string := "incremental_load".

(** [df[c].iloc[0] if c in df.columns and len(df) > 0 else '']. *)
Definition first_or_blank (c : string) (df : Frame) : Cell :=
  if bool_decide (c ∈ columns df) then
    match rows df with
    | r :: _ => cell r c
    | [] => CStr ""
    end
  else CStr "".

(** [extract_lot_info]: the lot number of the first row supersedes the one
    of the file name when they differ. *)
Definition extract_lot_info (df : Frame) (filename_lot_number : Cell)
  : Cell * Cell * Cell * Cell :=
  let lot_number :=
    if bool_decide ("Lot Number" ∈ columns df) then
      match rows df with
      | r :: _ =>
          let extracted_lot_number := cell r "Lot Number" in
          if bool_decide (extracted_lot_number = filename_lot_number)
          then filename_lot_number else extracted_lot_number
      | [] => filename_lot_number
      end
    else filename_lot_number in
  (lot_number, first_or_blank "Product ID" df, first_or_blank "Master Template Name" df,
   first_or_blank "Production Record Status" df).

(** [row.get(c, default)] for a row of [df]. *)
Definition row_get (df : Frame) (r : gmap string Cell) (c : string) (dflt : Cell) : Cell :=
  if bool_decide (c ∈ columns df) then cell r c else dflt.

(** [prepare_data_for_insert].  The default [None] of the capture time is
    rendered as NaN. *)
Definition prepare_data_for_insert (df : Frame) (lot_number : Cell) : list Detail :=
  (fun row =>
     mkDetail lot_number
       (row_get df row "Master Template Name" (CStr ""))
       (row_get df row "Unit" (CStr ""))
       (row_get df row "Operation" (CStr ""))
       (row_get df row "Phase" (CStr ""))
       (row_get df row "Data Capture Time" CNaN)
       (row_get df row "Structure Label" (CStr ""))
       (row_get df row "Description" (CStr ""))
       (row_get df row "Input Data Value" (CStr ""))
       (row_get df row "Performed By" (CStr ""))
       (row_get df row "Action Performed" (CStr ""))
       (row_get df row "Captured Data Type" (CStr ""))
       (row_get df row "data_hash" (CStr ""))) <$> rows df.

Section processor.
(** [hashlib.md5(s.encode()).hexdigest()]. *)
Variable md5_hexdigest : string -> string.
(** [pd.to_datetime(..., errors='coerce')] on one value. *)
Variable to_datetime : Cell -> Cell.
(** [pd.read_csv(file_path)]: the frame, or the exception. *)
Variable read_csv : string -> Outcome Frame.
(** [Config.DIR_STRUCTURE['processed_data']]. *)
Variable processed_data_dir : string.

Definition hash_columns : list string :=
  ["Structure Label"; "Description"; "Input Data Value"; "Data Capture Time"].

(** [calculate_row_hash] on a row of [df]. *)
Definition calculate_row_hash (row : gmap string Cell) : string :=
  md5_hexdigest (str (cell row "Structure Label") +:+ "|" +:+ str (cell row "Description")
                 +:+ "|" +:+ str (cell row "Input Data Value") +:+ "|"
                 +:+ str (cell row "Data Capture Time")).

(** [df['data_hash'] = df.apply(self.calculate_row_hash, axis=1)]: a
    [KeyError] when a hashed column is missing. *)
Definition add_data_hash (df : Frame) : Outcome Frame :=
  match missing_column df hash_columns with
  | Some c => Raise (key_error c)
  | None =>
      Ret (mkFrame (if bool_decide ("data_hash" ∈ columns df) then columns df
                    else columns df ++ ["data_hash"])
             ((fun r => <["data_hash" := CStr (calculate_row_hash r)]> r) <$> rows df))
  end.

(** Lines 82-83: the date column, when there is one, is converted. *)
Definition format_date_column (df : Frame) : Frame :=
  if bool_decide ("Data Capture Time" ∈ columns df)
  then mkFrame (columns df)
         ((fun r => <["Data Capture Time" := to_datetime (cell r "Data Capture Time")]> r)
            <$> rows df)
  else df.

(** Lines 85-113: the transaction of one file. *)
Definition load_file (now : Z) (file_path filename process_type : string) (df : Frame)
    (lot_number product_id product_name status : Cell) (conn : Connection)
  : Z * Connection :=
  let lot_exists := check_lot_exists conn lot_number in
  let conn := match lot_exists with
              | Some _ => update_lot now lot_number product_id product_name status conn
              | None => insert_lot now lot_number product_id product_name status conn
              end in
  let conn := if bool_decide (process_type = incremental_load)
              then delete_lot_data lot_number conn else conn in
  let data_to_insert := prepare_data_for_insert df lot_number in
  let conn := insert_lot_data now data_to_insert conn in
  let count := Z.of_nat (length data_to_insert) in
  let conn := log_processing_history now filename lot_number process_type count
                (dirname file_path) processed_data_dir "success"
                ("Processed " +:+ pretty count +:+ " records") conn in
  (count, commit conn).

(** The [try] body up to the transaction: [None] for the early [return 0]
    on an empty frame. *)
Definition read_and_prepare (file_path : string) (filename_lot_number : Cell)
  : Outcome (option (Frame * (Cell * Cell * Cell * Cell))) :=
  df ← read_csv file_path;
  if empty df then Ret None
  else
    let info := extract_lot_info df filename_lot_number in
    df ← add_data_hash df;
    Ret (Some (format_date_column df, info)).

(** [process_csv_file(file_path, conn, process_type)]: the number returned
    and the connection afterwards. *)
Definition process_csv_file (now : Z) (file_path : string) (conn : Connection)
    (process_type : string) : Z * Connection :=
  let filename := basename file_path in
  let filename_lot_number := splitext_root filename in
  match read_and_prepare file_path (CStr filename_lot_number) with
  | Ret None => (0, conn)
  | Ret (Some (df, (lot_number, product_id, product_name, status))) =>
      load_file now file_path filename process_type df lot_number product_id product_name
        status conn
  | Raise e =>
      let conn := rollback conn in
      let conn := log_processing_history now filename (CStr filename_lot_number) process_type 0
                    (dirname file_path) "" "error" (exn_msg e) conn in
      (0, commit conn)
  end.
End processor.



End FileProcessor.


(** ** incremental_fetch.py: the six-hour windows and [main] *)
Module IncrementalWindows.

Definition SIX_HOURS_IN_SECONDS : Z := 6 * 3600.
Definition FIRST_RUN_EPOCH : Z := 1741564801.

(** A row of [six_hour_windows.csv], which is also the dict the window
    function returns. *)
Record Window := mkWindow {
  start_datetime : string;
  end_datetime : string;
  start_epoch : Z;
  end_epoch : Z
}.

(** The window file: absent, or the rows under its header.  A file that
    [pd.read_csv] rejects, or without an integer column [end_epoch], is not
    modelled. *)
Definition WindowFile : Type := option (list Window).

(** [s.replace(":", "_")]. *)
Fixpoint replace_colons (s : string) : string :=
  match s with
  | EmptyString => EmptyString
  | String c s' =>
      String (if bool_decide (c = ":"%char) then "_"%char else c) (replace_colons s')
  end.

(** What [streamload_and_process_records] returns: [({}, [])], or a window
    with the identifiers found in it. *)
Inductive Streamload :=
  | NoWindow
  | Found (window : Window) (record_ids : list Z).

Section windows.
(** [datetime.fromtimestamp(t, timezone.utc).strftime("%Y-%m-%d %H:%M:%S")].
    Where it is called the epoch lies between [FIRST_RUN_EPOCH] and the
    present, so the conversion cannot overflow. *)
Variable strftime : Z -> string.
(** [DataProcessor().fetch_production_record_ids(start, end, start_str, end_str)]:
    the identifiers, in the order Python's set yields them, or the
    exception; its calls and files are effects on the state. *)
Variable fetch_production_record_ids : Z -> Z -> string -> string -> M (list Z).
Variable settings : Config.Settings.
Variable client : DataProcessor.Client.
Variable reformat_datetime : string -> string.
Variable isoformat_now : nat -> string.

(** Lines 143-155 of [append_next_six_hour_window]: the window that starts
    at [start_epoch], unless it ends after [max_end_time]. *)
Definition next_window (max_end_time start_epoch : Z) : option Window :=
  let end_epoch := start_epoch + SIX_HOURS_IN_SECONDS in
  if max_end_time <? end_epoch then None
  else Some (mkWindow (replace_colons (strftime start_epoch))
               (replace_colons (strftime end_epoch)) start_epoch end_epoch).

(** [append_next_six_hour_window]: [now] is the clock in whole seconds
    since the epoch; it is cut to the hour.  Beside the result, the window
    file afterwards: an absent file is created with its header. *)
Definition append_next_six_hour_window (now : Z) (csv_file : WindowFile)
  : Outcome (option Window) * WindowFile :=
  let max_end_time := (now - now mod 3600) - SIX_HOURS_IN_SECONDS in
  match csv_file with
  | Some df =>
      match last df with
      | Some row =>
          let last_end_epoch := end_epoch row in
          (Ret (next_window max_end_time (Z.max last_end_epoch FIRST_RUN_EPOCH)), csv_file)
      | None =>
          (Raise (mkExn IndexError "single positional indexer is out-of-bounds"), csv_file)
      end
  | None => (Ret (next_window max_end_time FIRST_RUN_EPOCH), Some [])
  end.

(** [streamload_and_process_records]: any exception gives [({}, [])]. *)
Definition streamload_and_process_records (now : Z) (csv_file : WindowFile) (s : State)
  : Streamload * WindowFile * State :=
  match append_next_six_hour_window now csv_file with
  | (Ret (Some window), csv_file) =>
      match fetch_production_record_ids (start_epoch window) (end_epoch window)
              (start_datetime window) (end_datetime window) s with
      | (Ret ids, s) => (Found window ids, csv_file, s)
      | (Raise _, s) => (NoWindow, csv_file, s)
      end
  | (_, csv_file) => (NoWindow, csv_file, s)
  end.

(** [pd.concat([pd.read_csv(file), pd.DataFrame([window])]).to_csv(file)]. *)
Definition record_window (window : Window) (csv_file : WindowFile) : Outcome WindowFile :=
  match csv_file with
  | Some df => Ret (Some (df ++ [window]))
  | None => Raise (mkExn OtherException "No such file or directory: '../six_hour_windows.csv'")
  end.

(** [main]: the outcome, the window file and the state afterwards. *)
Definition main (now : Z) (csv_file : WindowFile) (s : State)
  : Outcome unit * WindowFile * State :=
  match streamload_and_process_records now csv_file s with
  | (NoWindow, csv_file, s) => (Ret (), csv_file, s)
  | (Found window [], csv_file, s) =>
      match record_window window csv_file with
      | Ret csv_file => (Ret (), csv_file, s)
      | Raise e => (Raise e, csv_file, s)
      end
  | (Found window record_ids, csv_file, s) =>
      match (_ ← StatusTracker.init;
             IncrementalFetch.run settings client reformat_datetime isoformat_now
               record_ids (Config.BATCH_SIZE settings)) s with
      | (Ret _, s) =>
          match record_window window csv_file with
          | Ret csv_file => (Ret (), csv_file, s)
          | Raise e => (Raise e, csv_file, s)
          end
      | (Raise e, s) => (Raise e, csv_file, s)
      end
  end.
End windows.

End IncrementalWindows.

(** ** processors/bulk_loader.py *)
Module BulkLoader.
Import Database FileProcessor.

Section loader.
Variable md5_hexdigest : string -> string.
Variable to_datetime : Frames.Cell -> Frames.Cell.
Variable read_csv : string -> Outcome Frames.Frame.
Variable processed_data_dir : string.
(** [CURRENT_TIMESTAMP] while the [k]-th file of a run is loaded. *)
Variable clock : nat -> Z.

(** The [for file_path in csv_files] loop of both entry points, from the
    [k]-th file on.  Beside the two totals and the connection it returns the
    files handed to [archive_file], in order. *)
Fixpoint process_files (process_type : string) (k : nat) (csv_files : list string)
    (conn : Connection) (total_processed total_records : Z) (archived : list string)
  : Z * Z * Connection * list string :=
  match csv_files with
  | [] => (total_processed, total_records, conn, archived)
  | file_path :: rest =>
      let '(record_count, conn) :=
        process_csv_file md5_hexdigest to_datetime read_csv processed_data_dir
          (clock k) file_path conn process_type in
      let total_records := total_records + record_count in
      if 0 <? record_count
      then process_files process_type (S k) rest conn (total_processed + 1) total_records
             (archived ++ [file_path])
      else process_files process_type (S k) rest conn total_processed total_records archived
  end.

(** [bulk_load_initial_data] on the files [glob] found: the connection is
    new, the schema's tables exist already, and [create_schema] commits. *)
Definition bulk_load_initial_data (csv_files : list string) (conn : Connection)
  : Z * Z * Connection * list string :=
  let conn := commit (rollback conn) in
  match csv_files with
  | [] => (0, 0, conn, [])
  | _ => process_files initial_load 0 csv_files conn 0 0 []
  end.

(** [process_new_data] on the files [glob] found, with a new connection. *)
Definition process_new_data (csv_files : list string) (conn : Connection)
  : Z * Z * Connection * list string :=
  process_files incremental_load 0 csv_files (rollback conn) 0 0 [].
End loader.

End BulkLoader.


(** ** Example data *)

(** A source with three pages of one endpoint: page 0 in the [content]
    envelope, page 1 in the [pageResult] envelope and answered only at the
    second attempt, page 2 flagged last. *)
Definition three_page_source : ApiClient.Network := fun url retry =>
  if bool_decide (url = "https://mx/captures?currentPage=0&itemsPerPage=1000&productionRecordId=7")
  then ApiClient.Response
         (Ret (ApiClient.JObj [("content", ApiClient.JArr [ApiClient.JNum 1; ApiClient.JNum 2]);
                               ("last", ApiClient.JBool false)]))
  else if bool_decide (url = "https://mx/captures?currentPage=1&itemsPerPage=1000&productionRecordId=7")
  then match retry with
       | O => ApiClient.RequestError
       | _ => ApiClient.Response
                (Ret (ApiClient.JObj
                        [("pageResult", ApiClient.JObj [("content", ApiClient.JArr [ApiClient.JNum 3])]);
                         ("last", ApiClient.JBool false)]))
       end
  else if bool_decide (url = "https://mx/captures?currentPage=2&itemsPerPage=1000&productionRecordId=7")
  then ApiClient.Response
         (Ret (ApiClient.JObj [("content", ApiClient.JArr [ApiClient.JNum 4]);
                               ("last", ApiClient.JBool true)]))
  else ApiClient.RequestError.

(** A ledger in which record 7 first failed and then, on a retry, succeeded. *)
Definition retried_ledger : list StatusEntry :=
  [mkStatusEntry 7 None Failure "fetch_production_record_data returned empty";
   mkStatusEntry 7 (Some (Frames.CStr "LOT-7")) Success ""].

(** An artifact of two rows for lot [L1], and the store before it is loaded:
    one detail row of [L1] and one of [L2]. *)
Definition artifact_row (label value : string) : gmap string Frames.Cell :=
  list_to_map
    [("Master Template Name", Frames.CStr "Buffer"); ("Lot Number", Frames.CStr "L1");
     ("Product ID", Frames.CStr "P-1"); ("Unit", Frames.CStr "Mixing");
     ("Operation", Frames.CStr "Charge"); ("Phase", Frames.CStr "Weigh");
     ("Data Capture Time", Frames.CStr "3/1/2024 13:05");
     ("Production Record Status", Frames.CStr "COMPLETE");
     ("Structure Label", Frames.CStr label); ("Description", Frames.CStr "Weight");
     ("Input Data Value", Frames.CStr value); ("Performed By", Frames.CStr "jdoe");
     ("Action Performed", Frames.CStr "ENTERED"); ("Captured Data Type", Frames.CStr "NUMERIC")].

Definition artifact : Frames.Frame :=
  Frames.mkFrame Pipeline.output_columns [artifact_row "1.1" "12.5"; artifact_row "1.2" "13.0"].

Definition artifact_files (file_path : string) : Outcome Frames.Frame :=
  if bool_decide (file_path = "../data/new_data/L1.csv") then Ret artifact
  else if bool_decide (file_path = "../data/new_data/EMPTY.csv")
       then Ret (Frames.mkFrame Pipeline.output_columns [])
       else Raise (mkExn OtherException "No such file or directory").

Definition old_detail (lot label : string) : Database.Detail :=
  Database.mkDetail (Frames.CStr lot) (Frames.CStr "Buffer") (Frames.CStr "Mixing")
    (Frames.CStr "Charge") (Frames.CStr "Weigh") (Frames.CStr "2024-02-01 09:00")
    (Frames.CStr label) (Frames.CStr "Weight") (Frames.CStr "11.0") (Frames.CStr "jdoe")
    (Frames.CStr "ENTERED") (Frames.CStr "NUMERIC") (Frames.CStr "old").

Definition loaded_tables : Database.Tables :=
  Database.mkTables
    {[Frames.CStr "L1" := Database.mkLot (Frames.CStr "P-1") (Frames.CStr "Buffer")
                            (Frames.CStr "IN_PROGRESS") 100 100;
      Frames.CStr "L2" := Database.mkLot (Frames.CStr "P-2") (Frames.CStr "Saline")
                            (Frames.CStr "COMPLETE") 100 100]}
    [Database.mkLotData 1 (old_detail "L1" "0.9") 100 100;
     Database.mkLotData 2 (old_detail "L2" "0.9") 100 100]
    [].

Definition loaded_store : Database.Connection :=
  Database.mkConnection loaded_tables loaded_tables 3 1.


(** A stand-in for MD5 in the examples; the theorems hold for any digest. *)
Definition stub_digest (s : string) : string := "md5:" +:+ s.

(** The loader of the examples: it reads [artifact_files], leaves dates as
    they are, and archives under [../data/processed]. *)
Definition example_loader : Z -> string -> Database.Connection -> string -> Z * Database.Connection :=
  FileProcessor.process_csv_file stub_digest (fun c => c) artifact_files "../data/processed".


(** A source that has nothing: every fetch returns no item, and there is
    no structure document.  Every record processed against it fails. *)
Definition silent_client : DataProcessor.Client :=
  DataProcessor.mkClient (fun _ => Ret []) (fun _ => Ret []) (fun _ => Ret []) (fun _ => Ret None).

(** The reformatter of the examples: the ISO parser and a zone five hours
    behind UTC. *)
Definition example_reformat (date_str : string) : string :=
  (Utils.reformat_datetime Utils.parse_iso_utc Utils.minus_five_hours date_str).1.

(** A clock for the examples. *)
Definition example_clock (n : nat) : string := "2024-03-01T00:00:0" +:+ pretty n.

(** Before the first run: no call made, no ledger, no checkpoint, no file. *)
Definition fresh_state : State := mkState [] [] [] NoFile [] [].


(** *** A small plant

    Four production records.  Record 5 belongs to lot [LOT-5], which the
    first lookup knows.  Record 6 has no batch-creation capture; the first
    lookup has nothing for lot 0 and the second has one row.  Record 7
    belongs to [LOT-7], unknown to both lookups.  Record 8 belongs to
    [LOT-8], known to the second lookup only, and its structure document
    is an empty list. *)
Definition example_capture (record : Z) (name title user : string) : DataProcessor.RawCapture :=
  DataProcessor.mkRawCapture true None "1.1" (Frames.CInt record) (Frames.CInt 10)
    (Frames.CInt 20) (Frames.CInt 30) (Frames.CInt 40) (Frames.CStr title)
    (Frames.CStr "12.5") (Frames.CStr user) (Frames.CStr "2024-03-01T18:05:00Z")
    (Frames.CStr "ENTERED") (Frames.CStr name).

Definition captures_of (record : Z) (lot : string) : list DataProcessor.RawCapture :=
  [example_capture record "BATCH_RECORD_CREATION" lot "jdoe";
   example_capture record "NUMERIC" "Weight" "jdoe";
   example_capture record "NUMERIC" "Weight" "VOD_svc"].

Definition example_structure : list DataProcessor.StructureNode :=
  [DataProcessor.mkStructureNode (Frames.CStr "Mixing") "UNIT_PROCEDURE"
     (Frames.CInt 10) (Frames.CInt 20) Frames.CNaN Frames.CNaN;
   DataProcessor.mkStructureNode (Frames.CStr "Charge") "OPERATION"
     (Frames.CInt 10) (Frames.CInt 20) (Frames.CInt 30) Frames.CNaN;
   DataProcessor.mkStructureNode (Frames.CStr "Weigh") "PHASE"
     (Frames.CInt 10) (Frames.CInt 20) (Frames.CInt 30) (Frames.CInt 40)].

Definition plant_client : DataProcessor.Client :=
  DataProcessor.mkClient
    (fun params =>
       if bool_decide (params = DataProcessor.record_params 5) then Ret (captures_of 5 "LOT-5")
       else if bool_decide (params = DataProcessor.record_params 6)
       then Ret [example_capture 6 "NUMERIC" "Weight" "jdoe"]
       else if bool_decide (params = DataProcessor.record_params 7) then Ret (captures_of 7 "LOT-7")
       else if bool_decide (params = DataProcessor.record_params 8) then Ret (captures_of 8 "LOT-8")
       else Ret [])
    (fun params =>
       if bool_decide (params = DataProcessor.batch_params (Frames.CStr "LOT-5"))
       then Ret [DataProcessor.mkBatchRecord (Frames.CStr "LOT-5") (Frames.CStr "P-5")
                   (Frames.CStr "Buffer") (Frames.CStr "COMPLETE")]
       else Ret [])
    (fun params =>
       if bool_decide (params = DataProcessor.lot_params (Frames.CInt 0))
       then Ret [DataProcessor.mkLotCapture (Frames.CStr "Saline") (Frames.CStr "P-0")
                   (Frames.CStr "0") (Frames.CStr "IN_PROGRESS")]
       else if bool_decide (params = DataProcessor.lot_params (Frames.CStr "LOT-8"))
       then Ret [DataProcessor.mkLotCapture (Frames.CStr "Glucose") (Frames.CStr "P-8")
                   (Frames.CStr "LOT-8") (Frames.CStr "COMPLETE")]
       else Ret [])
    (fun production_record_id =>
       if bool_decide (production_record_id = 8) then Ret (Some [])
       else Ret (Some example_structure)).

(** The state a restart finds after record 5 succeeded and the checkpoint
    was written at 4. *)
Definition interrupted_state : State :=
  mkState [] []
    [mkStatusEntry 5 (Some (Frames.CStr "LOT-5")) Success ""]
    (Stored (mkCheckpoint 4 "2024-03-01T00:00:00")) [] [].

(** *** Frames for the merge

    One capture of record 5 with the lot metadata added; a unit table that
    matches it; an operation table whose [operationId] column holds strings
    where the captures hold numbers; a phase table that matches. *)
Definition merge_input : Frames.Frame :=
  match Pipeline.add_basic_metadata
          (DataProcessor.record_data [example_capture 5 "NUMERIC" "Weight" "jdoe"]).2
          (DataProcessor.batch_frame
             [DataProcessor.mkBatchRecord (Frames.CStr "LOT-5") (Frames.CStr "P-5")
                (Frames.CStr "Buffer") (Frames.CStr "COMPLETE")]) with
  | Ret df => df
  | Raise _ => Frames.empty_frame
  end.

Definition unit_table : Frames.Frame :=
  DataProcessor._process_unit_procedures
    (DataProcessor.at_level "UNIT_PROCEDURE" example_structure).

Definition text_keyed_operation_table : Frames.Frame :=
  DataProcessor._process_operations
    [DataProcessor.mkStructureNode (Frames.CStr "Charge") "OPERATION"
       (Frames.CInt 10) (Frames.CInt 20) (Frames.CStr "30") Frames.CNaN].

Definition phase_table : Frames.Frame :=
  DataProcessor._process_phases (DataProcessor.at_level "PHASE" example_structure).


(** ** Helpers of the proofs *)

(** A decimal rendering is zero-padded when it starts with [0] and goes on. *)
Definition zero_padded (s : string) : bool :=
  match s with
  | String c (String _ _) => bool_decide (c = "0"%char)
  | _ => false
  end.

(** [f] holds on the [n] integers from [lo] on. *)
Fixpoint all_from (f : Z -> bool) (lo : Z) (n : nat) : bool :=
  match n with
  | O => true
  | S n' => f lo && all_from f (lo + 1) n'
  end.

(** The identifiers of the checkpoints written so far, oldest first. *)
Definition saved_ids (s : State) : list Z := last_processed_id <$> checkpoint_saves s.

(** A computation leaves the checkpoint file and its history alone. *)
Definition keeps_checkpoints {A} (m : M A) : Prop :=
  forall s, checkpoint_file (m s).2 = checkpoint_file s
            /\ checkpoint_saves (m s).2 = checkpoint_saves s.

(** A computation returns, whatever the state. *)
Definition never_raises {A} (m : M A) : Prop :=
  forall s, exists a, (m s).1 = Ret a.

(** The last identifiers of the batches of the bulk run from
    [current_batch_start] to [end_id]: the loop of [run] without the
    records. *)
Fixpoint batch_ends (fuel : nat) (current_batch_start end_id batch_size : Z) : list Z :=
  if current_batch_start <=? end_id then
    match fuel with
    | O => []
    | S fuel' =>
        let current_batch_end := Z.min (current_batch_start + batch_size - 1) end_id in
        current_batch_end :: batch_ends fuel' (current_batch_end + 1) end_id batch_size
    end
  else [].

(** Enough iterations for any run with a positive batch size. *)
Definition enough_fuel (start_id end_id : Z) : nat := Z.to_nat (end_id - start_id + 1).

(** The last identifier of each batch of the incremental run: the list is
    cut into consecutive slices of [batch_size] identifiers. *)
Definition batch_lasts (id_list : list Z) (batch_size : Z) : list Z :=
  match IncrementalFetch.batch_offsets (length id_list) batch_size with
  | Ret offsets => omap (fun i => last (take (Z.to_nat batch_size) (drop i id_list))) offsets
  | Raise _ => []
  end.

(** The state after the given calls of the API client. *)
Definition called (calls : list ApiCall) (s : State) : State :=
  mkState (api_calls s ++ calls) (tracking_df s) (status_log_file s)
    (checkpoint_file s) (checkpoint_saves s) (csv_files s).

(** The state after [log_status] appended and saved the given entry. *)
Definition logged (entry : StatusEntry) (s : State) : State :=
  mkState (api_calls s) (tracking_df s ++ [entry]) (tracking_df s ++ [entry])
    (checkpoint_file s) (checkpoint_saves s) (csv_files s).


(** The outcome of a computation of the data processor on the client's
    answer. *)
Definition answer {A B} (f : A -> Outcome B) (result : Outcome A) : Outcome B :=
  match result with
  | Ret a => f a
  | Raise e => Raise e
  end.

(** The calls the data processor makes for a record and a lot. *)
Definition captures_call (production_record_id : Z) : ApiCall :=
  Paginated Config.data_captures (DataProcessor.record_params production_record_id).
Definition primary_call (lot_number : Frames.Cell) : ApiCall :=
  Paginated Config.batch_records (DataProcessor.batch_params lot_number).


(** A computation only adds to the calls made so far. *)
Definition extends_calls {A} (m : M A) : Prop :=
  forall s, exists more, api_calls (m s).2 = api_calls s ++ more.

(** The values of a column of the frame a merge step returned; [None] when
    the step raised. *)
Definition column_values (name : string) (result : Outcome Frames.Frame)
  : option (list Frames.Cell) :=
  match result with
  | Ret df => Some (Frames.column name df)
  | Raise _ => None
  end.

(** The restart of the bulk pipeline on the interrupted state: no [--start],
    [--end 5], batches of 100. *)
Definition restart_args : BulkFetch.Args := BulkFetch.mkArgs None (Some 5) 100.

(** ** Further helpers and examples *)

(** The source serves the pages from [page] on, each in an envelope the
    client reads and flagged as not the last, with the given records. *)
Fixpoint serves_pages (net : ApiClient.Network) (base_url : string)
    (params : list (string * string)) (page : nat)
    (pages : list (ApiClient.json * list ApiClient.json)) : Prop :=
  match pages with
  | [] => True
  | (data, content) :: rest =>
      ApiClient.serves net (ApiClient.page_url base_url page params) data
      /\ ApiClient.is_page data content (Some false)
      /\ serves_pages net base_url params (S page) rest
  end.

(** The URLs of [n] consecutive pages from [page] on. *)
Definition page_urls (base_url : string) (params : list (string * string)) (page n : nat)
  : list string :=
  (fun k => ApiClient.page_url base_url k params) <$> seq page n.

(** A source that answers every request with an empty page flagged as not
    the last. *)
Definition endless_source : ApiClient.Network := fun _ _ =>
  ApiClient.Response
    (Ret (ApiClient.JObj [("content", ApiClient.JArr []); ("last", ApiClient.JBool false)])).

(** A source whose first page is served and whose second page times out at
    every attempt. *)
Definition failing_second_page : ApiClient.Network := fun url _ =>
  if bool_decide (url = "https://mx/captures?currentPage=0&itemsPerPage=1000")
  then ApiClient.Response
         (Ret (ApiClient.JObj [("content", ApiClient.JArr [ApiClient.JNum 1; ApiClient.JNum 2]);
                               ("last", ApiClient.JBool false)]))
  else ApiClient.RequestError.

(** What [ensure_required_columns] does to one row: a required column
    that is not among the [current] ones is set to the empty string. *)
Definition blank_missing (current required : list string) (r : gmap string Frames.Cell)
  : gmap string Frames.Cell :=
  foldl (fun r col => if bool_decide (col ∈ current) then r else <[col := Frames.CStr ""]> r)
        r required.

(** The ledger holds an entry of the record. *)
Definition has_entry (ledger : list StatusEntry) (production_record_id : Z) : bool :=
  existsb (fun e => bool_decide (entry_record_id e = production_record_id)) ledger.

(** The CSV file of a lot in the output directory of each pipeline. *)
Definition bulk_file (settings : Config.Settings) (lot_number : Frames.Cell) : string :=
  Config.OUTPUT_DATA_DIR settings +:+ Frames.str lot_number +:+ ".csv".
Definition incremental_file (settings : Config.Settings) (lot_number : Frames.Cell) : string :=
  Pipeline.path_join (Config.INCR_OUTPUT_DATA_DIR settings) (Frames.str lot_number +:+ ".csv").

(** The files that go with ledger rows: one for each [Success] row, named
    after the row's lot number. *)
Definition files_of_entries (file_of : Frames.Cell -> string) (entries : list StatusEntry)
  : list string :=
  omap (fun e => match entry_status e with
                 | Success => file_of <$> entry_lot_number e
                 | Failure => None
                 end) entries.

(** From [s] to [s'] the given rows were appended to the ledger, in order,
    every [Success] row has a lot number, the files written are those of
    the [Success] rows, in order, and once a row is appended the status log
    file holds the whole frame. *)
Definition appended (file_of : Frames.Cell -> string) (entries : list StatusEntry)
    (s s' : State) : Prop :=
  tracking_df s' = tracking_df s ++ entries
  /\ (csv_files s').*1 = (csv_files s).*1 ++ files_of_entries file_of entries
  /\ length (files_of_entries file_of entries)
     = length (List.filter (fun e => bool_decide (entry_status e = Success)) entries)
  /\ status_log_file s' = match entries with
                          | [] => status_log_file s
                          | _ => tracking_df s'
                          end.

(** A computation leaves the ledger and the output directory alone. *)
Definition quiet {A} (file_of : Frames.Cell -> string) (m : M A) : Prop :=
  forall s, appended file_of [] s (m s).2.

(** A computation that, when it returns, has logged one row for the
    record, and that raises before it logs or writes anything. *)
Definition finishes {A} (file_of : Frames.Cell -> string) (production_record_id : Z)
    (m : M A) : Prop :=
  forall s,
    match m s with
    | (Ret _, s') =>
        exists e, entry_record_id e = production_record_id /\ appended file_of [e] s s'
    | (Raise _, s') => appended file_of [] s s'
    end.

(** The same for a lookup that returns [None] after it logged the row, and
    a frame when processing goes on. *)
Definition finishes_or_goes_on {A} (file_of : Frames.Cell -> string) (production_record_id : Z)
    (m : M (option A)) : Prop :=
  forall s,
    match m s with
    | (Ret None, s') =>
        exists e, entry_record_id e = production_record_id /\ appended file_of [e] s s'
    | (_, s') => appended file_of [] s s'
    end.

(** The slices of [batch_size] consecutive identifiers at the given offsets. *)
Definition slices (id_list : list Z) (batch_size : nat) (offsets : list nat) : list (list Z) :=
  (fun i => take batch_size (drop i id_list)) <$> offsets.

(** The plant when the structure endpoint does not answer: the request
    for the structure document of any record gets no response. *)
Definition plant_without_structures : DataProcessor.Client :=
  DataProcessor.mkClient
    (DataProcessor.fetch_data_captures plant_client)
    (DataProcessor.fetch_batch_records plant_client)
    (DataProcessor.fetch_data_captures_by_lot plant_client)
    (fun _ => Ret None).

(** A source whose capture endpoint answers with a document that is not
    JSON. *)
Definition garbled_client : DataProcessor.Client :=
  DataProcessor.mkClient
    (fun _ => Raise (mkExn JSONDecodeError "Expecting value: line 1 column 1 (char 0)"))
    (fun _ => Ret []) (fun _ => Ret []) (fun _ => Ret None).

(** A record all of whose captures are superseded. *)
Definition superseded_capture : DataProcessor.RawCapture :=
  DataProcessor.mkRawCapture false None "1.1" (Frames.CInt 9) (Frames.CInt 10)
    (Frames.CInt 20) (Frames.CInt 30) (Frames.CInt 40) (Frames.CStr "LOT-9")
    (Frames.CStr "12.5") (Frames.CStr "jdoe") (Frames.CStr "2024-03-01T18:05:00Z")
    (Frames.CStr "ENTERED") (Frames.CStr "BATCH_RECORD_CREATION").

Definition superseded_client : DataProcessor.Client :=
  DataProcessor.mkClient (fun _ => Ret [superseded_capture])
    (fun _ => Ret []) (fun _ => Ret []) (fun _ => Ret None).

(** The files written so far have the output columns. *)
Definition output_schema (s : State) : Prop :=
  Forall (fun f => Frames.columns f.2 = Pipeline.output_columns) (csv_files s).

(** A computation writes files with the output columns only. *)
Definition keeps_schema {A} (m : M A) : Prop :=
  forall s, output_schema s -> output_schema (m s).2.

(** The number [process_csv_file] returns for a file, which does not depend
    on the connection: the rows of the frame it prepares, 0 for a file
    without rows or one that cannot be read or hashed. *)
Definition file_record_count (md5_hexdigest : string -> string)
    (to_datetime : Frames.Cell -> Frames.Cell) (read_csv : string -> Outcome Frames.Frame)
    (file_path : string) : Z :=
  match FileProcessor.read_and_prepare md5_hexdigest to_datetime read_csv file_path
          (Frames.CStr (FileProcessor.splitext_root (FileProcessor.basename file_path))) with
  | Ret (Some (df, _)) => Z.of_nat (length (Frames.rows df))
  | _ => 0
  end.

(** The sum of a list of integers. *)
Definition sum_list (l : list Z) : Z := foldr Z.add 0 l.

(** The history row of a file that failed. *)
Definition error_row (history_id now : Z) (file_path process_type : string) (e : Exn)
  : Database.History :=
  Database.mkHistory history_id (FileProcessor.basename file_path)
    (Frames.CStr (FileProcessor.splitext_root (FileProcessor.basename file_path)))
    process_type now 0 (FileProcessor.dirname file_path) "" "error" (exn_msg e).

(** The history row of a file that was loaded. *)
Definition success_row (history_id now : Z) (file_path process_type processed_data_dir : string)
    (lot_number : Frames.Cell) (count : Z) : Database.History :=
  Database.mkHistory history_id (FileProcessor.basename file_path) lot_number process_type now
    count (FileProcessor.dirname file_path) processed_data_dir "success"
    ("Processed " +:+ pretty count +:+ " records").

(** The files of the examples for the loader: the artifact, a header-only
    file, and a file without the [Description] column. *)
Definition loader_files (file_path : string) : Outcome Frames.Frame :=
  if bool_decide (file_path = "../data/new_data/BAD.csv")
  then Ret (Frames.mkFrame ["Lot Number"; "Structure Label"]
              [list_to_map [("Lot Number", Frames.CStr "L9");
                            ("Structure Label", Frames.CStr "1.1")]])
  else artifact_files file_path.

(** A window of six hours that starts no earlier than the first run. *)
Definition six_hours (w : IncrementalWindows.Window) : Prop :=
  IncrementalWindows.end_epoch w
  = IncrementalWindows.start_epoch w + IncrementalWindows.SIX_HOURS_IN_SECONDS
  /\ IncrementalWindows.FIRST_RUN_EPOCH <= IncrementalWindows.start_epoch w.

(** Each window of the file starts where the one before it ends. *)
Definition contiguous (rows : list IncrementalWindows.Window) : Prop :=
  forall i a b,
    rows !! i = Some a -> rows !! S i = Some b ->
    IncrementalWindows.start_epoch b = IncrementalWindows.end_epoch a.

(** The examples of the windows: a formatter that only prints the epoch, a
    fetch of identifiers that finds records 5 and 6, and one that raises. *)
Definition epoch_text (t : Z) : string := "t=" +:+ pretty t.
Definition found_ids (start_epoch end_epoch : Z) (start_str end_str : string) : M (list Z) :=
  mret [5; 6].
Definition failing_ids (start_epoch end_epoch : Z) (start_str end_str : string) : M (list Z) :=
  lift (Raise (mkExn KeyError "'productionRecordId'")).

(** 2025-03-11 00:10:00 UTC, a little over six hours after the end of the
    first window. *)
Definition example_now : Z := 1741651800.

(** The Gregorian calendar, stated independently of the day-number
    arithmetic of [Utils.days_from_civil]: leap years and month lengths. *)
Definition is_leap (y : Z) : bool :=
  (y mod 4 =? 0) && (negb (y mod 100 =? 0) || (y mod 400 =? 0)).

Definition month_length (y m : Z) : Z :=
  if m =? 2 then (if is_leap y then 29 else 28)
  else if (m =? 4) || (m =? 6) || (m =? 9) || (m =? 11) then 30 else 31.

(** The fields of a [datetime] are those of a day of the calendar and a
    time of that day. *)
Definition valid_datetime (dt : Utils.datetime) : Prop :=
  1 <= Utils.month dt <= 12
  /\ 1 <= Utils.day dt <= month_length (Utils.year dt) (Utils.month dt)
  /\ 0 <= Utils.hour dt <= 23 /\ 0 <= Utils.minute dt <= 59
  /\ 0 <= Utils.second dt <= 59.

(** Two datetimes show the same date and time of day. *)
Definition same_fields (a b : Utils.datetime) : Prop :=
  Utils.year a = Utils.year b /\ Utils.month a = Utils.month b
  /\ Utils.day a = Utils.day b /\ Utils.hour a = Utils.hour b
  /\ Utils.minute a = Utils.minute b /\ Utils.second a = Utils.second b.

(** The day number of the first day of the month numbered [n], counting
    twelve months to the year. *)
Definition month_start (n : Z) : Z := Utils.days_from_civil (n / 12) (n mod 12 + 1) 1.

(** * Properties *)

Lemma all_from_spec (f : Z -> bool) (n : nat) (lo z : Z) :
  all_from f lo n = true -> lo <= z < lo + Z.of_nat n -> f z = true.
Proof.
  revert lo. induction n as [|n IH]; intros lo Hall Hz; [lia|].
  simpl in Hall. apply andb_prop in Hall as [Hlo Hrest].
  destruct (decide (z = lo)) as [->|Hne]; [exact Hlo|].
  apply (IH (lo + 1)); [exact Hrest|lia].
Qed.

(** ** The timestamp reformatter *)

Example reformat_example :
  Utils.reformat_datetime Utils.parse_iso_utc Utils.minus_five_hours "2024-03-01T18:05:00Z"
  = ("3/1/2024 13:05", []).
Proof. vm_compute. reflexivity. Qed.

Section civil_dates.
Import Utils.

Lemma day_of_era_range doe : 0 <= doe < 146097 ->
    let yoe := (doe - doe / 1460 + doe / 36524 - doe / 146096) / 365 in
    let doy := doe - (365 * yoe + yoe / 4 - yoe / 100) in
    let mp := (5 * doy + 2) / 153 in
    0 <= yoe < 400 /\ 0 <= doy <= 365 /\ 0 <= mp < 12
    /\ 1 <= doy - (153 * mp + 2) / 5 + 1 <= 31.
Proof.
    intros H yoe doy mp. subst mp doy yoe.
    Z.div_mod_to_equations; lia.
Qed.

Lemma era_split z : 0 <= z - z / 146097 * 146097 < 146097.
Proof. Z.div_mod_to_equations; lia. Qed.

Lemma era_recover era yoe : 0 <= yoe < 400 -> (yoe + era * 400) / 400 = era.
Proof. intros H. Z.div_mod_to_equations; lia. Qed.

  (** [civil_from_days] yields a calendar date, and [days_from_civil] maps
      it back to the day it came from. *)
Lemma civil_roundtrip z y m d :
    civil_from_days z = (y, m, d) ->
    days_from_civil y m d = z /\ 1 <= m <= 12 /\ 1 <= d <= 31.
Proof.
    unfold civil_from_days.
    pose proof (era_split (z + 719468)) as Hdoe.
    remember ((z + 719468) / 146097) as era eqn:Hera.
    remember (z + 719468 - era * 146097) as doe eqn:Edoe.
    pose proof (day_of_era_range doe Hdoe) as Hr. cbv zeta in Hr.
    remember ((doe - doe / 1460 + doe / 36524 - doe / 146096) / 365) as yoe eqn:Eyoe.
    remember (doe - (365 * yoe + yoe / 4 - yoe / 100)) as doy eqn:Edoy.
    remember ((5 * doy + 2) / 153) as mp eqn:Emp.
    clear Hera Eyoe Emp Hdoe.
    destruct Hr as (Hyoe & Hdoy & Hmp & Hd).
    intros Heq. apply pair_equal_spec in Heq as [Heq <-].
    apply pair_equal_spec in Heq as [<- <-].
    unfold days_from_civil.
    destruct (mp <? 10) eqn:E.
    - apply Z.ltb_lt in E.
      replace (mp + 3 <=? 2) with false by (symmetry; apply Z.leb_gt; lia).
      replace (2 <? mp + 3) with true by (symmetry; apply Z.ltb_lt; lia).
      rewrite (era_recover era yoe Hyoe).
      replace (mp + 3 - 3) with mp by lia.
      replace (yoe + era * 400 - era * 400) with yoe by lia.
      repeat split; lia.
    - apply Z.ltb_ge in E.
      replace (mp - 9 <=? 2) with true by (symmetry; apply Z.leb_le; lia).
      replace (2 <? mp - 9) with false by (symmetry; apply Z.ltb_ge; lia).
      replace (yoe + era * 400 + 1 - 1) with (yoe + era * 400) by lia.
      rewrite (era_recover era yoe Hyoe).
      replace (mp - 9 + 9) with mp by lia.
      replace (yoe + era * 400 - era * 400) with yoe by lia.
      repeat split; lia.
Qed.

  (** The fields computed for a timestamp denote that timestamp, and are
      those of a calendar date and a time of day. *)
Lemma fields_of_timestamp_spec t off :
    let dt := fields_of_timestamp t off in
    timestamp_of_fields dt = t /\ tzinfo dt = off
    /\ 1 <= month dt <= 12 /\ 1 <= day dt <= 31
    /\ 0 <= hour dt <= 23 /\ 0 <= minute dt <= 59.
Proof.
    unfold fields_of_timestamp, timestamp_of_fields.
    destruct (civil_from_days (t / 86400)) as [[y m] d] eqn:Hc.
    apply civil_roundtrip in Hc as (Hdays & Hm & Hd). simpl.
    rewrite Hdays. repeat split; try lia.
    all: Z.div_mod_to_equations; lia.
Qed.

Lemma checked_fields_in_range t off :
    in_range t -> checked_fields t off = Ret (fields_of_timestamp t off).
Proof.
    intros [Hlo Hhi]. unfold checked_fields.
    apply Z.leb_le in Hlo, Hhi. now rewrite Hlo, Hhi.
Qed.

Lemma pretty_not_padded n : 0 <= n < 60 -> zero_padded (pretty n) = false.
Proof.
    intros H.
    assert (Hall : all_from (fun n => negb (zero_padded (pretty n))) 0 (Z.to_nat 60) = true)
      by (vm_compute; reflexivity).
    apply negb_true_iff. apply (all_from_spec _ _ _ _ Hall). lia.
Qed.

Lemma strftime_M_length dt :
    0 <= minute dt <= 59 -> String.length (strftime_M dt) = 2%nat.
Proof.
    intros H.
    assert (Hall : all_from
              (fun n => bool_decide (String.length
                 (if n <? 10 then "0" +:+ pretty n else pretty n) = 2%nat))
              0 (Z.to_nat 60) = true)
      by (vm_compute; reflexivity).
    unfold strftime_M.
    pose proof (all_from_spec _ _ _ (minute dt) Hall) as Hm.
    apply bool_decide_eq_true in Hm; [exact Hm|lia].
Qed.
End civil_dates.

(** The day numbers against the Gregorian calendar. *)
Section calendar.
Import Utils.

Ltac decide_tests :=
  repeat match goal with
         | |- context [?a =? ?b] =>
             first [rewrite (proj2 (Z.eqb_eq a b)) by lia
                   | rewrite (proj2 (Z.eqb_neq a b)) by lia]
         | |- context [?a <=? ?b] =>
             first [rewrite (proj2 (Z.leb_le a b)) by lia
                   | rewrite (proj2 (Z.leb_gt a b)) by lia]
         | |- context [?a <? ?b] =>
             first [rewrite (proj2 (Z.ltb_lt a b)) by lia
                   | rewrite (proj2 (Z.ltb_ge a b)) by lia]
         end.

Lemma days_from_civil_epoch : days_from_civil 1970 1 1 = 0.
Proof. reflexivity. Qed.

Lemma days_from_civil_day y m d :
    days_from_civil y m d = days_from_civil y m 1 + (d - 1).
Proof. unfold days_from_civil. lia. Qed.

  (** The months of [days_from_civil] have the lengths of the Gregorian
      calendar. *)
Lemma days_in_month_gregorian y m :
    1 <= m <= 12 -> days_in_month y m = month_length y m.
Proof.
    intros Hm. unfold days_in_month, month_length, is_leap, days_from_civil.
    assert (m = 1 \/ m = 2 \/ m = 3 \/ m = 4 \/ m = 5 \/ m = 6 \/ m = 7
            \/ m = 8 \/ m = 9 \/ m = 10 \/ m = 11 \/ m = 12) as Hcases by lia.
    repeat destruct Hcases as [->|Hcases]; try subst m.
    all: decide_tests; cbn [andb orb negb].
    all: try (Z.div_mod_to_equations; lia).
    all: destruct (Z.eqb_spec (y mod 4) 0), (Z.eqb_spec (y mod 100) 0),
           (Z.eqb_spec (y mod 400) 0); cbn [andb orb negb];
         Z.div_mod_to_equations; lia.
Qed.

Lemma month_length_range y m : 28 <= month_length y m <= 31.
Proof.
    unfold month_length.
    destruct (m =? 2); [destruct (is_leap y); lia|].
    destruct ((m =? 4) || (m =? 6) || (m =? 9) || (m =? 11)); lia.
Qed.

Lemma day_of_year_bound doe : 0 <= doe < 146097 ->
    let yoe := (doe - doe / 1460 + doe / 36524 - doe / 146096) / 365 in
    yoe < 399 -> doe < 365 * (yoe + 1) + (yoe + 1) / 4 - (yoe + 1) / 100.
Proof.
    intros H yoe. subst yoe.
    Z.div_mod_to_equations; lia.
Qed.

  (** The day [civil_from_days] yields lies before the first day of the
      next month. *)
Lemma civil_from_days_before_next z y m d :
    civil_from_days z = (y, m, d) ->
    z < days_from_civil (if m =? 12 then y + 1 else y) (if m =? 12 then 1 else m + 1) 1.
Proof.
    unfold civil_from_days.
    pose proof (era_split (z + 719468)) as Hdoe.
    remember ((z + 719468) / 146097) as era eqn:Hera.
    remember (z + 719468 - era * 146097) as doe eqn:Edoe.
    pose proof (day_of_era_range doe Hdoe) as Hr. cbv zeta in Hr.
    pose proof (day_of_year_bound doe Hdoe) as Hb. cbv zeta in Hb.
    remember ((doe - doe / 1460 + doe / 36524 - doe / 146096) / 365) as yoe eqn:Eyoe.
    remember (doe - (365 * yoe + yoe / 4 - yoe / 100)) as doy eqn:Edoy.
    remember ((5 * doy + 2) / 153) as mp eqn:Emp.
    clear Hera Eyoe.
    destruct Hr as (Hyoe & Hdoy & Hmp & Hd).
    intros Heq. apply pair_equal_spec in Heq as [Heq <-].
    apply pair_equal_spec in Heq as [<- <-].
    assert (z = era * 146097 + doe - 719468) as -> by lia. clear Edoe.
    assert (mp = 0 \/ mp = 1 \/ mp = 2 \/ mp = 3 \/ mp = 4 \/ mp = 5 \/ mp = 6
            \/ mp = 7 \/ mp = 8 \/ mp = 9 \/ mp = 10 \/ mp = 11) as Hcases by lia.
    unfold days_from_civil.
    repeat destruct Hcases as [E|Hcases]; try rename Hcases into E.
    all: rewrite E in *; decide_tests.
    all: Z.div_mod_to_equations; lia.
Qed.

  (** [civil_from_days] yields a day of the Gregorian calendar. *)
Lemma civil_from_days_valid z y m d :
    civil_from_days z = (y, m, d) ->
    days_from_civil y m d = z /\ 1 <= m <= 12 /\ 1 <= d <= month_length y m.
Proof.
    intros Hc.
    pose proof (civil_from_days_before_next _ _ _ _ Hc) as Hnext.
    apply civil_roundtrip in Hc as (Hdays & Hm & Hd).
    repeat split; try lia.
    rewrite <- (days_in_month_gregorian y m Hm). unfold days_in_month.
    rewrite days_from_civil_day in Hdays. lia.
Qed.

Lemma month_start_of y m : 1 <= m <= 12 ->
    month_start (12 * y + (m - 1)) = days_from_civil y m 1.
Proof.
    intros Hm. unfold month_start.
    replace ((12 * y + (m - 1)) / 12) with y by (Z.div_mod_to_equations; lia).
    replace ((12 * y + (m - 1)) mod 12 + 1) with m by (Z.div_mod_to_equations; lia).
    reflexivity.
Qed.

Lemma month_start_next n :
    month_start (n + 1) = month_start n + month_length (n / 12) (n mod 12 + 1).
Proof.
    assert (Hm : 1 <= n mod 12 + 1 <= 12) by (Z.div_mod_to_equations; lia).
    rewrite <- (days_in_month_gregorian _ _ Hm). unfold days_in_month, month_start.
    destruct (Z.eqb_spec (n mod 12 + 1) 12) as [E|E].
    - replace ((n + 1) / 12) with (n / 12 + 1) by (Z.div_mod_to_equations; lia).
      replace ((n + 1) mod 12 + 1) with 1 by (Z.div_mod_to_equations; lia).
      lia.
    - replace ((n + 1) / 12) with (n / 12) by (Z.div_mod_to_equations; lia).
      replace ((n + 1) mod 12 + 1) with (n mod 12 + 1 + 1) by (Z.div_mod_to_equations; lia).
      lia.
Qed.

  (** Later months start after earlier months end. *)
Lemma month_start_mono n k : 0 <= k ->
    month_start (n + 1) <= month_start (n + 1 + k).
Proof.
    intros Hk. revert k Hk. apply natlike_ind.
    - rewrite Z.add_0_r. lia.
    - intros k Hk IH.
      replace (n + 1 + Z.succ k) with (n + 1 + k + 1) by lia.
      rewrite (month_start_next (n + 1 + k)).
      pose proof (month_length_range ((n + 1 + k) / 12) ((n + 1 + k) mod 12 + 1)). lia.
Qed.

Lemma month_before y1 m1 d1 y2 m2 d2 :
    1 <= m1 <= 12 -> 1 <= d1 <= month_length y1 m1 ->
    1 <= m2 <= 12 -> 1 <= d2 <= month_length y2 m2 ->
    12 * y1 + (m1 - 1) < 12 * y2 + (m2 - 1) ->
    days_from_civil y1 m1 d1 < days_from_civil y2 m2 d2.
Proof.
    intros Hm1 Hd1 Hm2 Hd2 Hlt.
    rewrite (days_from_civil_day y1), (days_from_civil_day y2).
    rewrite <- (month_start_of y1 m1 Hm1), <- (month_start_of y2 m2 Hm2).
    set (n1 := 12 * y1 + (m1 - 1)) in *. set (n2 := 12 * y2 + (m2 - 1)) in *.
    pose proof (month_start_mono n1 (n2 - n1 - 1) ltac:(lia)) as Hmono.
    replace (n1 + 1 + (n2 - n1 - 1)) with n2 in Hmono by lia.
    rewrite (month_start_next n1) in Hmono.
    replace (n1 / 12) with y1 in Hmono by (unfold n1; Z.div_mod_to_equations; lia).
    replace (n1 mod 12 + 1) with m1 in Hmono by (unfold n1; Z.div_mod_to_equations; lia).
    lia.
Qed.

  (** A day number is the number of one day of the calendar only. *)
Lemma days_from_civil_inj y1 m1 d1 y2 m2 d2 :
    1 <= m1 <= 12 -> 1 <= d1 <= month_length y1 m1 ->
    1 <= m2 <= 12 -> 1 <= d2 <= month_length y2 m2 ->
    days_from_civil y1 m1 d1 = days_from_civil y2 m2 d2 ->
    y1 = y2 /\ m1 = m2 /\ d1 = d2.
Proof.
    intros Hm1 Hd1 Hm2 Hd2 Heq.
    destruct (Z.lt_trichotomy (12 * y1 + (m1 - 1)) (12 * y2 + (m2 - 1))) as [Hlt|[He|Hgt]].
    - pose proof (month_before _ _ _ _ _ _ Hm1 Hd1 Hm2 Hd2 Hlt). lia.
    - assert (y1 = y2) as -> by lia. assert (m1 = m2) as -> by lia.
      rewrite (days_from_civil_day y2 m2 d1), (days_from_civil_day y2 m2 d2) in Heq.
      repeat split; lia.
    - pose proof (month_before _ _ _ _ _ _ Hm2 Hd2 Hm1 Hd1 ltac:(lia)). lia.
Qed.

  (** A timestamp is the timestamp of one date and time of day only. *)
Lemma timestamp_of_fields_inj a b :
    valid_datetime a -> valid_datetime b ->
    timestamp_of_fields a = timestamp_of_fields b -> same_fields a b.
Proof.
    intros (Hma & Hda & Hha & Hmia & Hsa) (Hmb & Hdb & Hhb & Hmib & Hsb).
    unfold timestamp_of_fields, same_fields. intros Heq.
    assert (Hdays : days_from_civil (year a) (month a) (day a)
                    = days_from_civil (year b) (month b) (day b)) by lia.
    destruct (days_from_civil_inj _ _ _ _ _ _ Hma Hda Hmb Hdb Hdays) as (-> & -> & ->).
    repeat split; lia.
Qed.

  (** The fields computed for a timestamp are a date of the calendar and a
      time of day, read off the timestamp. *)
Lemma fields_of_timestamp_valid t off :
    let dt := fields_of_timestamp t off in
    valid_datetime dt
    /\ hour dt = t mod 86400 / 3600 /\ minute dt = t mod 3600 / 60
    /\ second dt = t mod 60.
Proof.
    unfold fields_of_timestamp, valid_datetime.
    destruct (civil_from_days (t / 86400)) as [[y m] d] eqn:Hc.
    apply civil_from_days_valid in Hc as (Hdays & Hm & Hd). simpl.
    repeat split; try lia.
    all: Z.div_mod_to_equations; lia.
Qed.

  (** A timestamp in the range of [datetime] falls in the years 1 to 9999. *)
Lemma in_range_year dt :
    valid_datetime dt -> in_range (timestamp_of_fields dt) -> 1 <= year dt <= 9999.
Proof.
    intros (Hm & Hd & Hh & Hmi & Hs) [Hlo Hhi].
    unfold min_timestamp, max_timestamp, timestamp_of_fields in Hlo, Hhi.
    assert (Hfirst : 1 <= 1 <= month_length 1 1) by (vm_compute; split; discriminate).
    assert (Hlast : 1 <= 31 <= month_length 9999 12) by (vm_compute; split; discriminate).
    split.
    - destruct (Z_lt_le_dec (year dt) 1) as [Hlt|]; [|assumption].
      pose proof (month_before (year dt) (month dt) (day dt) 1 1 1
                    Hm Hd ltac:(lia) Hfirst ltac:(lia)). lia.
    - destruct (Z_lt_le_dec 9999 (year dt)) as [Hlt|]; [|assumption].
      pose proof (month_before 9999 12 31 (year dt) (month dt) (day dt)
                    ltac:(lia) Hlast Hm Hd ltac:(lia)). lia.
Qed.
End calendar.

(** C7, counterexample: on the specification's own example the reformatter
    returns the minute as written by [strftime('%M')], two digits, and not
    the string the claim gives. *)
Lemma reformat_datetime_minute_is_padded :
  Utils.reformat_datetime Utils.parse_iso_utc Utils.minus_five_hours "2024-03-01T18:05:00Z"
  = ("3/1/2024 13:05", [])
  /\ "3/1/2024 13:05" <> "3/1/2024 13:5".
Proof. split; [vm_compute; reflexivity | discriminate]. Qed.

(** C7, as amended: for a date string that [parse] accepts, naive (read as
    UTC) or aware, whose instant and whose Eastern local time both lie in the
    years a [datetime] can hold, [reformat_datetime] logs nothing and returns
    [M/D/YYYY H:MM] for the local time [dt_et] of the target zone: the UTC
    instant plus the zone's offset at that instant.  [dt_et] is a day of the
    Gregorian calendar in the years 1 to 9999 with a time of day, it is the
    only such date and time whose timestamp is the local time, and its hour,
    minute and second are those read off the local timestamp.  Month, day and
    hour are rendered without zero padding, the minute always with two
    digits.  For a string that [parse] rejects the function returns the
    string unchanged and logs one error. *)
Theorem reformat_datetime_spec
    (parse : string -> Outcome Utils.datetime) (eastern_utcoffset : Z -> Z) :
  (forall date_str dt,
      parse date_str = Ret dt ->
      let utc := Utils.timestamp_of_fields dt - default 0 (Utils.tzinfo dt) in
      let local := utc + eastern_utcoffset utc in
      Utils.in_range utc -> Utils.in_range local ->
      exists dt_et,
        Utils.timestamp_of_fields dt_et = local
        /\ valid_datetime dt_et
        /\ (forall dt', valid_datetime dt' -> Utils.timestamp_of_fields dt' = local ->
                        same_fields dt' dt_et)
        /\ 1 <= Utils.year dt_et <= 9999
        /\ Utils.hour dt_et = local mod 86400 / 3600
        /\ Utils.minute dt_et = local mod 3600 / 60
        /\ Utils.second dt_et = local mod 60
        /\ Utils.reformat_datetime parse eastern_utcoffset date_str
           = (pretty (Utils.month dt_et) +:+ "/" +:+ pretty (Utils.day dt_et) +:+ "/"
              +:+ pretty (Utils.year dt_et) +:+ " " +:+ pretty (Utils.hour dt_et) +:+ ":"
              +:+ Utils.strftime_M dt_et, [])
        /\ 1 <= Utils.month dt_et <= 12 /\ 1 <= Utils.day dt_et <= 31
        /\ 0 <= Utils.hour dt_et <= 23 /\ 0 <= Utils.minute dt_et <= 59
        /\ zero_padded (pretty (Utils.month dt_et)) = false
        /\ zero_padded (pretty (Utils.day dt_et)) = false
        /\ zero_padded (pretty (Utils.hour dt_et)) = false
        /\ String.length (Utils.strftime_M dt_et) = 2%nat)
  /\ (forall date_str e,
      parse date_str = Raise e ->
      Utils.reformat_datetime parse eastern_utcoffset date_str
      = (date_str,
         [(ERROR, "Error reformatting datetime " +:+ date_str +:+ ": " +:+ exn_msg e)])).
Proof.
  split.
  - intros date_str dt Hparse utc local Hutc Hlocal.
    exists (Utils.fields_of_timestamp local (Some (eastern_utcoffset utc))).
    pose proof (fields_of_timestamp_spec local (Some (eastern_utcoffset utc)))
      as (Hts & _ & Hm & Hd & Hh & Hmi).
    pose proof (fields_of_timestamp_valid local (Some (eastern_utcoffset utc)))
      as (Hvalid & Hhour & Hminute & Hsecond).
    assert (Hto : Utils.to_eastern parse eastern_utcoffset date_str
                  = Ret (Utils.fields_of_timestamp local (Some (eastern_utcoffset utc)))).
    { unfold Utils.to_eastern. rewrite Hparse. cbn [mbind Outcome_bind].
      destruct (Utils.tzinfo dt) as [off|] eqn:Htz.
      - cbn [default] in utc.
        rewrite (checked_fields_in_range _ _ Hutc). cbn [mbind Outcome_bind].
        pose proof (fields_of_timestamp_spec utc (Some 0)) as (Hu & _).
        fold utc. rewrite Hu. fold local.
        apply checked_fields_in_range, Hlocal.
      - cbn [default] in utc. cbn [mbind Outcome_bind].
        replace (Utils.timestamp_of_fields _) with utc
          by (unfold utc, Utils.timestamp_of_fields; cbn; lia).
        fold local. apply checked_fields_in_range, Hlocal. }
    split; [exact Hts|]. split; [exact Hvalid|]. split.
    { intros dt' Hvalid' Hts'. apply timestamp_of_fields_inj; [assumption..|congruence]. }
    split.
    { apply in_range_year; [exact Hvalid|]. rewrite Hts. exact Hlocal. }
    split; [exact Hhour|]. split; [exact Hminute|]. split; [exact Hsecond|]. split.
    { unfold Utils.reformat_datetime, Utils.reformat_body. rewrite Hto. reflexivity. }
    repeat split; try lia.
    + apply pretty_not_padded; lia.
    + apply pretty_not_padded; lia.
    + apply pretty_not_padded; lia.
    + apply strftime_M_length; lia.
  - intros date_str e Hparse.
    unfold Utils.reformat_datetime, Utils.reformat_body, Utils.to_eastern.
    rewrite Hparse. reflexivity.
Qed.

(** C7, witness: the amended statement at the specification's example, with
    the ISO parser and a zone five hours behind UTC. *)
Lemma reformat_datetime_spec_witness :
  exists dt_et,
    Utils.timestamp_of_fields dt_et = 1709298300
    /\ valid_datetime dt_et
    /\ (forall dt', valid_datetime dt' -> Utils.timestamp_of_fields dt' = 1709298300 ->
                    same_fields dt' dt_et)
    /\ 1 <= Utils.year dt_et <= 9999
    /\ Utils.hour dt_et = 13
    /\ Utils.minute dt_et = 5
    /\ Utils.second dt_et = 0
    /\ Utils.reformat_datetime Utils.parse_iso_utc Utils.minus_five_hours "2024-03-01T18:05:00Z"
       = (pretty (Utils.month dt_et) +:+ "/" +:+ pretty (Utils.day dt_et) +:+ "/"
          +:+ pretty (Utils.year dt_et) +:+ " " +:+ pretty (Utils.hour dt_et) +:+ ":"
          +:+ Utils.strftime_M dt_et, [])
    /\ 1 <= Utils.month dt_et <= 12 /\ 1 <= Utils.day dt_et <= 31
    /\ 0 <= Utils.hour dt_et <= 23 /\ 0 <= Utils.minute dt_et <= 59
    /\ zero_padded (pretty (Utils.month dt_et)) = false
    /\ zero_padded (pretty (Utils.day dt_et)) = false
    /\ zero_padded (pretty (Utils.hour dt_et)) = false
    /\ String.length (Utils.strftime_M dt_et) = 2%nat.
Proof.
  apply (proj1 (reformat_datetime_spec Utils.parse_iso_utc Utils.minus_five_hours)
           "2024-03-01T18:05:00Z"
           (Utils.mkDatetime 2024 3 1 18 5 0 (Some 0))).
  - vm_compute. reflexivity.
  - vm_compute. split; discriminate.
  - vm_compute. split; discriminate.
Defined.

(** ** The paginated fetcher *)

Section paginated_fetch.
Import ApiClient.

Lemma read_page_is_page data content last :
  is_page data content last ->
  read_page data = Ret (Some (content, JBool (default true last))).
Proof.
  intros (members & -> & Hlast & Hshape).
  unfold read_page, contains, get.
  destruct Hshape as [Hc | (Hc & inner & Hpr & Hic)].
  - rewrite Hc, Hlast. simpl. now destruct last.
  - rewrite Hc, Hpr, Hlast. simpl. rewrite Hic. simpl. now destruct last.
Qed.

(** One iteration of the loop on a page the client can read: the page's
    records are appended, and the loop goes on exactly when the flag is
    present and false. *)
Lemma fetch_pages_step fuel net base_url params page all_data requested data content last :
  serves net (page_url base_url page params) data ->
  is_page data content last ->
  fetch_pages (S fuel) net base_url params page all_data requested
  = if default true last
    then Some (Ret (all_data ++ content), requested ++ [page_url base_url page params])
    else fetch_pages fuel net base_url params (S page) (all_data ++ content)
           (requested ++ [page_url base_url page params]).
Proof.
  intros Hserves Hpage. cbn [fetch_pages].
  unfold serves in Hserves. rewrite Hserves.
  rewrite (read_page_is_page _ _ _ Hpage). cbn [truthy]. reflexivity.
Qed.
End paginated_fetch.

(** C6: when the source serves pages 0, 1 and 2 of an endpoint in an
    envelope the client reads, with [last] flags false, false and true (or no
    flag on the third page), [fetch_paginated_data] terminates, requests
    exactly the URLs of pages 0, 1, 2 in that order, and returns the three
    pages' records concatenated in page order. *)
Theorem fetch_paginated_data_three_pages
    (net : ApiClient.Network) (base_url : string) (params : list (string * string))
    (d0 d1 d2 : ApiClient.json) (c0 c1 c2 : list ApiClient.json)
    (last2 : option bool) (fuel : nat) :
  ApiClient.serves net (ApiClient.page_url base_url 0 params) d0 ->
  ApiClient.serves net (ApiClient.page_url base_url 1 params) d1 ->
  ApiClient.serves net (ApiClient.page_url base_url 2 params) d2 ->
  ApiClient.is_page d0 c0 (Some false) ->
  ApiClient.is_page d1 c1 (Some false) ->
  ApiClient.is_page d2 c2 last2 ->
  last2 = Some true \/ last2 = None ->
  (3 <= fuel)%nat ->
  ApiClient.fetch_paginated_data fuel net base_url params
  = Some (Ret (c0 ++ c1 ++ c2),
          [ApiClient.page_url base_url 0 params;
           ApiClient.page_url base_url 1 params;
           ApiClient.page_url base_url 2 params]).
Proof.
  intros S0 S1 S2 P0 P1 P2 Hlast Hfuel.
  destruct fuel as [|[|[|fuel]]]; try lia.
  unfold ApiClient.fetch_paginated_data.
  rewrite (fetch_pages_step _ _ _ _ _ _ _ _ _ _ S0 P0). cbn [default].
  rewrite (fetch_pages_step _ _ _ _ _ _ _ _ _ _ S1 P1). cbn [default].
  rewrite (fetch_pages_step _ _ _ _ _ _ _ _ _ _ S2 P2).
  assert (default true last2 = true) as -> by (destruct Hlast as [-> | ->]; reflexivity).
  now rewrite app_assoc.
Qed.

(** C6, witness: the theorem on [three_page_source]. *)
Lemma fetch_paginated_data_three_pages_witness :
  ApiClient.fetch_paginated_data 5 three_page_source "https://mx/captures"
    [("productionRecordId", "7")]
  = Some (Ret ([ApiClient.JNum 1; ApiClient.JNum 2] ++ [ApiClient.JNum 3] ++ [ApiClient.JNum 4]),
          [ApiClient.page_url "https://mx/captures" 0 [("productionRecordId", "7")];
           ApiClient.page_url "https://mx/captures" 1 [("productionRecordId", "7")];
           ApiClient.page_url "https://mx/captures" 2 [("productionRecordId", "7")]]).
Proof.
  apply (fetch_paginated_data_three_pages three_page_source "https://mx/captures"
           [("productionRecordId", "7")]
           (ApiClient.JObj [("content", ApiClient.JArr [ApiClient.JNum 1; ApiClient.JNum 2]);
                            ("last", ApiClient.JBool false)])
           (ApiClient.JObj
              [("pageResult", ApiClient.JObj [("content", ApiClient.JArr [ApiClient.JNum 3])]);
               ("last", ApiClient.JBool false)])
           (ApiClient.JObj [("content", ApiClient.JArr [ApiClient.JNum 4]);
                            ("last", ApiClient.JBool true)])
           _ _ _ (Some true)).
  - vm_compute. reflexivity.
  - vm_compute. reflexivity.
  - vm_compute. reflexivity.
  - eexists. split; [reflexivity|]. split; [reflexivity|]. left. reflexivity.
  - eexists. split; [reflexivity|]. split; [reflexivity|]. right.
    split; [reflexivity|]. eexists. split; reflexivity.
  - eexists. split; [reflexivity|]. split; [reflexivity|]. left. reflexivity.
  - left. reflexivity.
  - lia.
Defined.

(** ** The status ledger *)

(** The query looks at the first entry of the record only. *)
Lemma is_already_processed_first (ledger : list StatusEntry) (production_record_id : Z) :
  StatusTracker.is_already_processed ledger production_record_id
  = match List.find (fun e => bool_decide (entry_record_id e = production_record_id)) ledger with
    | Some first => bool_decide (entry_status first = Success)
    | None => false
    end.
Proof.
  unfold StatusTracker.is_already_processed.
  induction ledger as [|e ledger IH]; [reflexivity|].
  simpl. destruct (bool_decide (entry_record_id e = production_record_id)); [reflexivity|].
  exact IH.
Qed.

(** C2, the code at the failing input: record 7 failed once and succeeded
    on the retry, so a [Success] entry for it exists, and the query answers
    [False]. *)
Lemma is_already_processed_ignores_later_success :
  StatusTracker.is_already_processed retried_ledger 7 = false
  /\ exists e, e ∈ retried_ledger /\ entry_record_id e = 7 /\ entry_status e = Success.
Proof.
  split; [reflexivity|].
  exists (mkStatusEntry 7 (Some (Frames.CStr "LOT-7")) Success "").
  split; [|split; reflexivity].
  unfold retried_ledger. apply list_elem_of_In. simpl. auto.
Qed.

(** ** The loader *)

Lemma filter_none {A} (f : A -> bool) (l : list A) :
  (forall x, x ∈ l -> f x = false) -> List.filter f l = [].
Proof.
  induction l as [|x l IH]; intros H; [reflexivity|].
  simpl. rewrite (H x) by apply list_elem_of_here.
  apply IH. intros y Hy. apply H. now apply list_elem_of_further.
Qed.



Section loader.
Import Frames Database FileProcessor.
Variable md5_hexdigest : string -> string.
Variable to_datetime : Cell -> Cell.
Variable read_csv : string -> Outcome Frame.
Variable processed_data_dir : string.

Local Abbreviation process := (process_csv_file md5_hexdigest to_datetime read_csv processed_data_dir).
Local Abbreviation prepare := (read_and_prepare md5_hexdigest to_datetime read_csv).





End loader.


Example basename_example : FileProcessor.basename "../data/new_data/L1.csv" = "L1.csv".
Proof. reflexivity. Qed.

Example splitext_example :
  FileProcessor.splitext_root "L1.csv" = "L1" /\ FileProcessor.splitext_root ".hidden" = ".hidden".
Proof. split; reflexivity. Qed.

Example dirname_example : FileProcessor.dirname "../data/new_data/L1.csv" = "../data/new_data".
Proof. reflexivity. Qed.


(** C10: a file that [read_csv] parses to a frame without rows makes
    [process_csv_file] return 0 and hand the connection back as it was:
    committed tables, pending changes and sequences alike, in either mode. *)
Theorem process_csv_file_without_rows
    (md5_hexdigest : string -> string) (to_datetime : Frames.Cell -> Frames.Cell)
    (read_csv : string -> Outcome Frames.Frame) (processed_data_dir : string)
    (now : Z) (file_path : string) (conn : Database.Connection) (process_type : string)
    (df : Frames.Frame) :
  read_csv file_path = Ret df ->
  Frames.rows df = [] ->
  FileProcessor.process_csv_file md5_hexdigest to_datetime read_csv processed_data_dir
    now file_path conn process_type
  = (0, conn).
Proof.
  intros Hread Hrows.
  unfold FileProcessor.process_csv_file, FileProcessor.read_and_prepare.
  rewrite Hread. cbn [mbind Outcome_bind].
  unfold Frames.empty. rewrite Hrows.
  rewrite bool_decide_eq_true_2 by reflexivity. reflexivity.
Qed.

(** C10, witness: a header-only artifact against the loaded store. *)
Lemma process_csv_file_without_rows_witness :
  example_loader 200 "../data/new_data/EMPTY.csv" loaded_store FileProcessor.incremental_load
  = (0, loaded_store).
Proof.
  apply (process_csv_file_without_rows stub_digest (fun c => c) artifact_files
           "../data/processed" 200 "../data/new_data/EMPTY.csv" loaded_store
           FileProcessor.incremental_load (Frames.mkFrame Pipeline.output_columns [])).
  - reflexivity.
  - reflexivity.
Defined.

(** ** The fetch pipelines: what a record leaves alone *)

Lemma bind_unfold {A B} (m : M A) (f : A -> M B) (s : State) :
  (m ≫= f) s = match m s with
               | (Ret a, s') => f a s'
               | (Raise e, s') => (Raise e, s')
               end.
Proof. reflexivity. Qed.

Lemma keeps_ret {A} (a : A) : keeps_checkpoints (mret a : M A).
Proof. intros s. split; reflexivity. Qed.

Lemma keeps_lift {A} (o : Outcome A) : keeps_checkpoints (lift o).
Proof. intros s. split; reflexivity. Qed.

Lemma keeps_bind {A B} (m : M A) (f : A -> M B) :
  keeps_checkpoints m -> (forall a, keeps_checkpoints (f a)) -> keeps_checkpoints (m ≫= f).
Proof.
  intros Hm Hf s. rewrite bind_unfold. specialize (Hm s).
  destruct (m s) as [[a|e] s1]; cbn [snd] in Hm.
  - destruct (Hf a s1) as [H1 H2]. destruct Hm as [Hm1 Hm2]. split; congruence.
  - exact Hm.
Qed.

Lemma keeps_try {A} (body : M A) (handler : Exn -> M A) :
  keeps_checkpoints body -> (forall e, keeps_checkpoints (handler e)) ->
  keeps_checkpoints (try_except body handler).
Proof.
  intros Hb Hh s. unfold try_except. specialize (Hb s).
  destruct (body s) as [[a|e] s1]; cbn [snd] in Hb.
  - exact Hb.
  - destruct (Hh e s1) as [H1 H2]. destruct Hb as [Hb1 Hb2]. split; congruence.
Qed.

Lemma keeps_api_call {A} (c : ApiCall) (r : Outcome A) :
  keeps_checkpoints (DataProcessor.api_call c r).
Proof. intros s. split; reflexivity. Qed.

Lemma keeps_log_status id lot st reason :
  keeps_checkpoints (StatusTracker.log_status id lot st reason).
Proof. intros s. split; reflexivity. Qed.

Lemma keeps_to_csv file_name df : keeps_checkpoints (Pipeline.to_csv file_name df).
Proof. intros s. split; reflexivity. Qed.

Lemma keeps_for_each {A} (body : A -> M unit) (xs : list A) :
  (forall x, keeps_checkpoints (body x)) -> keeps_checkpoints (Pipeline.for_each body xs).
Proof.
  intros Hb. induction xs as [|x xs IH]; [apply keeps_ret|].
  cbn [Pipeline.for_each]. apply keeps_bind; [apply Hb|]. intros _. exact IH.
Qed.

Lemma never_raises_try {A} (body : M A) (handler : Exn -> M A) :
  (forall e, never_raises (handler e)) -> never_raises (try_except body handler).
Proof.
  intros Hh s. unfold try_except.
  destruct (body s) as [[a|e] s1]; [exists a; reflexivity|]. apply Hh.
Qed.

Lemma never_raises_log_status id lot st reason :
  never_raises (StatusTracker.log_status id lot st reason).
Proof. intros s. exists (). reflexivity. Qed.

Lemma never_raises_for_each {A} (body : A -> M unit) (xs : list A) :
  (forall x, never_raises (body x)) -> never_raises (Pipeline.for_each body xs).
Proof.
  intros Hb. induction xs as [|x xs IH]; intros s; [exists (); reflexivity|].
  cbn [Pipeline.for_each]. rewrite bind_unfold.
  destruct (Hb x s) as [[] Hx]. destruct (body x s) as [o s1]. cbn [fst] in Hx. subst o.
  apply IH.
Qed.

Create HintDb pipeline.
#[local] Hint Resolve keeps_ret keeps_lift keeps_api_call keeps_log_status keeps_to_csv
  never_raises_log_status : pipeline.

(** Repeated step: a bind, a branch, or one of the primitives. *)
Ltac keeps_step :=
  match goal with
  | |- keeps_checkpoints (mbind _ _) => apply keeps_bind; [|intros ?]
  | |- keeps_checkpoints (if ?b then _ else _) => destruct b
  | |- keeps_checkpoints (match ?x with _ => _ end) => destruct x
  | |- keeps_checkpoints _ => solve [auto with pipeline]
  end.

Section fetch_frames.
Variable settings : Config.Settings.
Variable client : DataProcessor.Client.
Variable reformat_datetime : string -> string.

Lemma bulk_process_record_keeps id :
  keeps_checkpoints (BulkFetch.process_record settings client reformat_datetime id).
Proof.
  unfold BulkFetch.process_record, BulkFetch.alternative_lookup, BulkFetch.merge_and_save,
    BulkFetch.log_exception, DataProcessor.fetch_production_record_data, DataProcessor.fetch_batch_records_by_lot,
    DataProcessor.fetch_data_capture_by_lot, DataProcessor.fetch_production_structure_metadata.
  apply keeps_try; [|intros e; auto with pipeline].
  repeat keeps_step.
Qed.

Lemma bulk_process_record_returns id :
  never_raises (BulkFetch.process_record settings client reformat_datetime id).
Proof. apply never_raises_try. intros e. apply never_raises_log_status. Qed.

Lemma incremental_process_record_keeps id :
  keeps_checkpoints (IncrementalFetch.process_record settings client reformat_datetime id).
Proof.
  unfold IncrementalFetch.process_record, IncrementalFetch.reconcile,
    IncrementalFetch._log_failure, IncrementalFetch.merge_and_save,
    IncrementalFetch.log_exception,
    DataProcessor.fetch_production_record_data, DataProcessor.fetch_batch_records_by_lot,
    DataProcessor.fetch_data_capture_by_lot, DataProcessor.fetch_production_structure_metadata.
  apply keeps_try; [|intros e; auto with pipeline].
  repeat keeps_step.
Qed.

Lemma incremental_process_record_returns id :
  never_raises (IncrementalFetch.process_record settings client reformat_datetime id).
Proof. apply never_raises_try. intros e. apply never_raises_log_status. Qed.
End fetch_frames.

(** ** Checkpoints over the batches of a run *)

(** A batch of records followed by the checkpoint: the batch cannot raise
    and cannot touch the checkpoints, so exactly the given identifier is
    saved. *)
Lemma batch_then_save {A} (body : A -> M unit) (xs : list A)
    (isoformat_now : nat -> string) (last_id : Z) (s : State) :
  (forall x, keeps_checkpoints (body x)) ->
  (forall x, never_raises (body x)) ->
  exists s',
    (_ ← Pipeline.for_each body xs;
     CheckpointManager.save_checkpoint isoformat_now last_id) s = (Ret (), s')
    /\ saved_ids s' = saved_ids s ++ [last_id].
Proof.
  intros Hkeeps Hreturns. rewrite bind_unfold.
  destruct (never_raises_for_each body xs Hreturns s) as [[] Hret].
  destruct (keeps_for_each body xs Hkeeps s) as [_ Hsaves].
  destruct (Pipeline.for_each body xs s) as [o s1]. cbn [fst snd] in *. subst o.
  eexists. split; [reflexivity|].
  unfold saved_ids. cbn [checkpoint_saves]. now rewrite fmap_app, Hsaves.
Qed.

Section bulk_run.
Variable settings : Config.Settings.
Variable client : DataProcessor.Client.
Variable reformat_datetime : string -> string.
Variable isoformat_now : nat -> string.

(** The loop, with enough iterations, ends and saves the batch ends. *)
Lemma run_batches_saves (end_id batch_size : Z) (fuel : nat) :
  0 < batch_size ->
  forall current_batch_start s,
    end_id - current_batch_start + 1 <= Z.of_nat fuel ->
    exists s',
      BulkFetch.run_batches settings client reformat_datetime isoformat_now
        fuel current_batch_start end_id batch_size s = Some (Ret (), s')
      /\ saved_ids s' = saved_ids s ++ batch_ends fuel current_batch_start end_id batch_size.
Proof.
  intros Hbs. induction fuel as [|fuel IH]; intros start s Hfuel.
  - cbn [BulkFetch.run_batches batch_ends].
    destruct (start <=? end_id) eqn:E; [apply Z.leb_le in E; lia|].
    exists s. now rewrite app_nil_r.
  - cbn [BulkFetch.run_batches batch_ends].
    destruct (start <=? end_id) eqn:E; [|exists s; now rewrite app_nil_r].
    apply Z.leb_le in E. cbn zeta.
    set (batch_end := Z.min (start + batch_size - 1) end_id).
    destruct (batch_then_save
                (BulkFetch.process_record settings client reformat_datetime)
                (BulkFetch.id_range start batch_end) isoformat_now batch_end s
                (bulk_process_record_keeps settings client reformat_datetime)
                (bulk_process_record_returns settings client reformat_datetime))
      as (s1 & Hrun & Hsaved).
    rewrite Hrun.
    destruct (IH (batch_end + 1) s1) as (s' & Hrest & Hsaved'); [subst batch_end; lia|].
    exists s'. split; [exact Hrest|].
    rewrite Hsaved', Hsaved, <- app_assoc. reflexivity.
Qed.

(** More iterations than needed give the same batches. *)
Lemma batch_ends_fuel (end_id batch_size : Z) (fuel1 : nat) :
  0 < batch_size ->
  forall fuel2 start,
    end_id - start + 1 <= Z.of_nat fuel1 ->
    end_id - start + 1 <= Z.of_nat fuel2 ->
    batch_ends fuel1 start end_id batch_size = batch_ends fuel2 start end_id batch_size.
Proof.
  intros Hbs. induction fuel1 as [|fuel1 IH]; intros fuel2 start H1 H2.
  - destruct fuel2; cbn [batch_ends];
      (destruct (start <=? end_id) eqn:E; [apply Z.leb_le in E; lia|reflexivity]).
  - destruct fuel2; cbn [batch_ends];
      (destruct (start <=? end_id) eqn:E; [apply Z.leb_le in E|reflexivity]); [lia|].
    cbn zeta. f_equal. apply IH; lia.
Qed.

(** The batch ends lie between start and end and increase strictly. *)
Lemma batch_ends_bounds (end_id batch_size : Z) (fuel : nat) :
  0 < batch_size ->
  forall start, Forall (fun e => start <= e <= end_id) (batch_ends fuel start end_id batch_size).
Proof.
  intros Hbs. induction fuel as [|fuel IH]; intros start; cbn [batch_ends];
    (destruct (start <=? end_id) eqn:E; [apply Z.leb_le in E|constructor]);
    [constructor|].
  cbn zeta. constructor; [lia|].
  eapply Forall_impl; [apply IH|]. cbn. intros e He. lia.
Qed.

Lemma batch_ends_sorted (end_id batch_size : Z) (fuel : nat) :
  0 < batch_size ->
  forall start, StronglySorted Z.lt (batch_ends fuel start end_id batch_size).
Proof.
  intros Hbs. induction fuel as [|fuel IH]; intros start; cbn [batch_ends];
    (destruct (start <=? end_id) eqn:E; [apply Z.leb_le in E|constructor]);
    [constructor|].
  cbn zeta. constructor; [apply IH|].
  eapply Forall_impl; [apply (batch_ends_bounds end_id batch_size fuel Hbs)|].
  cbn. intros e He. lia.
Qed.

(** With enough iterations the last batch ends at [end_id]. *)
Lemma batch_ends_last (end_id batch_size : Z) (fuel : nat) :
  0 < batch_size ->
  forall start,
    start <= end_id ->
    end_id - start + 1 <= Z.of_nat fuel ->
    last (batch_ends fuel start end_id batch_size) = Some end_id.
Proof.
  intros Hbs. induction fuel as [|fuel IH]; intros start Hle Hfuel; [lia|].
  cbn [batch_ends]. rewrite (proj2 (Z.leb_le _ _) Hle). cbn zeta.
  destruct (decide (Z.min (start + batch_size - 1) end_id = end_id)) as [Heq|Hne].
  - rewrite Heq. destruct fuel; cbn [batch_ends];
      (destruct (end_id + 1 <=? end_id) eqn:E; [apply Z.leb_le in E; lia|reflexivity]).
  - rewrite last_cons. rewrite IH by lia. reflexivity.
Qed.
End bulk_run.

Section incremental_run.
Variable settings : Config.Settings.
Variable client : DataProcessor.Client.
Variable reformat_datetime : string -> string.
Variable isoformat_now : nat -> string.

Lemma offset_in_range (n size k : nat) :
  (0 < size)%nat -> (k < (n + size - 1) / size)%nat -> (k * size < n)%nat.
Proof.
  intros Hsize Hk.
  pose proof (Nat.Div0.mul_div_le (n + size - 1) size) as Hdiv.
  nia.
Qed.

Lemma last_of_slice (l : list Z) (size i : nat) :
  (0 < size)%nat -> (i < length l)%nat -> is_Some (last (take size (drop i l))).
Proof.
  intros Hsize Hi.
  destruct (take size (drop i l)) as [|x xs] eqn:E.
  - apply (f_equal length) in E. rewrite length_take, length_drop in E. cbn in E. lia.
  - rewrite last_is_Some. discriminate.
Qed.

(** The batches at the given offsets, each inside the list: every one ends
    with its checkpoint, the last identifier of its slice. *)
Lemma run_offsets_saves (id_list : list Z) (batch_size : Z) (offsets : list nat) :
  0 < batch_size ->
  Forall (fun i => (i < length id_list)%nat) offsets ->
  forall s,
    exists s',
      Pipeline.for_each
        (IncrementalFetch.run_batch settings client reformat_datetime isoformat_now
           id_list batch_size) offsets s = (Ret (), s')
      /\ saved_ids s'
         = saved_ids s
           ++ omap (fun i => last (take (Z.to_nat batch_size) (drop i id_list))) offsets.
Proof.
  intros Hbs Hoffsets. induction Hoffsets as [|i offsets Hi _ IH]; intros s.
  - exists s. split; [reflexivity|]. now rewrite app_nil_r.
  - cbn [Pipeline.for_each omap list_omap]. rewrite bind_unfold.
    unfold IncrementalFetch.run_batch at 1.
    destruct (last_of_slice id_list (Z.to_nat batch_size) i) as [last_id Hlast]; [lia|exact Hi|].
    rewrite Hlast.
    destruct (batch_then_save
                (IncrementalFetch.process_record settings client reformat_datetime)
                (take (Z.to_nat batch_size) (drop i id_list)) isoformat_now last_id s
                (incremental_process_record_keeps settings client reformat_datetime)
                (incremental_process_record_returns settings client reformat_datetime))
      as (s1 & Hrun & Hsaved).
    rewrite Hrun.
    destruct (IH s1) as (s' & Hrest & Hsaved').
    exists s'. split; [exact Hrest|].
    rewrite Hsaved', Hsaved, <- app_assoc. reflexivity.
Qed.

Lemma incremental_run_saves (id_list : list Z) (batch_size : Z) (s : State) :
  0 < batch_size ->
  exists s',
    IncrementalFetch.run settings client reformat_datetime isoformat_now id_list batch_size s
    = (Ret (), s')
    /\ saved_ids s' = saved_ids s ++ batch_lasts id_list batch_size.
Proof.
  intros Hbs. unfold IncrementalFetch.run, batch_lasts, IncrementalFetch.batch_offsets.
  replace (batch_size =? 0) with false by (symmetry; apply Z.eqb_neq; lia).
  replace (batch_size <? 0) with false by (symmetry; apply Z.ltb_ge; lia).
  cbn zeta. rewrite bind_unfold. cbn [lift].
  apply run_offsets_saves; [exact Hbs|].
  apply Forall_forall. intros i Hi.
  apply list_elem_of_fmap in Hi as (k & -> & Hk).
  apply elem_of_seq in Hk.
  apply offset_in_range; lia.
Qed.
End incremental_run.

(** C8, counterexample: the incremental run over the identifiers 5, 3 in
    batches of one, against a source where every record fails, saves the
    checkpoints 5 and then 3: the saved identifier goes down. *)
Lemma incremental_checkpoint_goes_down :
  saved_ids
    (IncrementalFetch.run Config.defaults silent_client example_reformat example_clock
       [5; 3] 1 fresh_state).2
  = [5; 3]
  /\ entry_status <$> tracking_df
       (IncrementalFetch.run Config.defaults silent_client example_reformat example_clock
          [5; 3] 1 fresh_state).2
     = [Failure; Failure]
  /\ 3 < 5.
Proof. split; [vm_compute; reflexivity|]. split; [vm_compute; reflexivity|lia]. Qed.

(** C8, as amended: with a positive batch size, whatever the source
    answers and whatever the ledger records, both runs terminate and save
    one checkpoint per batch, the batch's last identifier.  The identifiers
    saved depend on the range (or list) and the batch size alone.  In the
    bulk run they increase strictly, stay within the range and end at
    [end_id]; in the incremental run they are the last identifiers of the
    consecutive slices of the list, in the list's order. *)
Theorem checkpoint_saved_after_every_batch
    (settings : Config.Settings) (client : DataProcessor.Client)
    (reformat_datetime : string -> string) (isoformat_now : nat -> string) :
  (forall (start_id end_id batch_size : Z) (fuel : nat) (s : State),
      0 < batch_size ->
      (enough_fuel start_id end_id <= fuel)%nat ->
      let ends := batch_ends (enough_fuel start_id end_id) start_id end_id batch_size in
      exists s',
        BulkFetch.run settings client reformat_datetime isoformat_now
          fuel start_id end_id batch_size s = Some (Ret (), s')
        /\ saved_ids s' = saved_ids s ++ ends
        /\ StronglySorted Z.lt ends
        /\ Forall (fun e => start_id <= e <= end_id) ends
        /\ (start_id <= end_id -> last ends = Some end_id))
  /\ (forall (id_list : list Z) (batch_size : Z) (s : State),
      0 < batch_size ->
      exists s',
        IncrementalFetch.run settings client reformat_datetime isoformat_now
          id_list batch_size s = (Ret (), s')
        /\ saved_ids s' = saved_ids s ++ batch_lasts id_list batch_size).
Proof.
  split.
  - intros start_id end_id batch_size fuel s Hbs Hfuel ends.
    unfold enough_fuel in *.
    destruct (run_batches_saves settings client reformat_datetime isoformat_now
                end_id batch_size fuel Hbs start_id s) as (s' & Hrun & Hsaved); [lia|].
    exists s'. split; [exact Hrun|]. split.
    { rewrite Hsaved. f_equal. apply batch_ends_fuel; [exact Hbs|lia|lia]. }
    split; [apply batch_ends_sorted, Hbs|].
    split; [apply batch_ends_bounds, Hbs|].
    intros Hle. apply batch_ends_last; [exact Hbs|exact Hle|lia].
  - intros id_list batch_size s Hbs. apply incremental_run_saves, Hbs.
Qed.

(** C8, witness: the bulk run over 0..4 in batches of two and the
    incremental run over 5, 3 in batches of one, both against a source
    where every record fails. *)
Lemma checkpoint_saved_after_every_batch_witness :
  (exists s',
     BulkFetch.run Config.defaults silent_client example_reformat example_clock
       7 0 4 2 fresh_state = Some (Ret (), s')
     /\ saved_ids s' = saved_ids fresh_state ++ batch_ends (enough_fuel 0 4) 0 4 2
     /\ StronglySorted Z.lt (batch_ends (enough_fuel 0 4) 0 4 2)
     /\ Forall (fun e => 0 <= e <= 4) (batch_ends (enough_fuel 0 4) 0 4 2)
     /\ (0 <= 4 -> last (batch_ends (enough_fuel 0 4) 0 4 2) = Some 4))
  /\ batch_ends (enough_fuel 0 4) 0 4 2 = [1; 3; 4]
  /\ (exists s',
        IncrementalFetch.run Config.defaults silent_client example_reformat example_clock
          [5; 3] 1 fresh_state = (Ret (), s')
        /\ saved_ids s' = saved_ids fresh_state ++ batch_lasts [5; 3] 1).
Proof.
  destruct (checkpoint_saved_after_every_batch Config.defaults silent_client example_reformat
              example_clock) as [Hbulk Hincr].
  split; [|split].
  - apply (Hbulk 0 4 2 7%nat fresh_state); [lia|vm_compute; lia].
  - reflexivity.
  - apply (Hincr [5; 3] 1 fresh_state). lia.
Defined.

(** ** One record through the pipelines *)

Section record_steps.
Variable client : DataProcessor.Client.

Lemma called_called calls1 calls2 s :
  called calls2 (called calls1 s) = called (calls1 ++ calls2) s.
Proof. unfold called. cbn. now rewrite app_assoc. Qed.

Lemma fetch_production_record_data_step id s :
  DataProcessor.fetch_production_record_data client id s
  = (answer (fun d => Ret (DataProcessor.record_data d))
       (DataProcessor.fetch_data_captures client (DataProcessor.record_params id)),
     called [captures_call id] s).
Proof.
  unfold DataProcessor.fetch_production_record_data. rewrite bind_unfold.
  unfold DataProcessor.api_call.
  destruct (DataProcessor.fetch_data_captures client _); reflexivity.
Qed.

Lemma fetch_batch_records_by_lot_step lot s :
  DataProcessor.fetch_batch_records_by_lot client lot s
  = (answer (fun d => Ret (DataProcessor.batch_frame d))
       (DataProcessor.fetch_batch_records client (DataProcessor.batch_params lot)),
     called [primary_call lot] s).
Proof.
  unfold DataProcessor.fetch_batch_records_by_lot. rewrite bind_unfold.
  unfold DataProcessor.api_call.
  destruct (DataProcessor.fetch_batch_records client _); reflexivity.
Qed.


Lemma fetch_production_structure_metadata_step id s :
  DataProcessor.fetch_production_structure_metadata client id s
  = (answer DataProcessor.structure_tables (DataProcessor.get_structures client id),
     called [Structures id] s).
Proof.
  unfold DataProcessor.fetch_production_structure_metadata. rewrite bind_unfold.
  unfold DataProcessor.api_call.
  destruct (DataProcessor.get_structures client _); reflexivity.
Qed.

Lemma log_status_step id lot st reason s :
  StatusTracker.log_status id lot st reason s
  = (Ret (), logged (mkStatusEntry id lot st reason) s).
Proof. reflexivity. Qed.

(** The frame of a record has rows only when it has its columns. *)
Lemma record_data_empty captures :
  Frames.empty (DataProcessor.record_data captures).2
  = bool_decide (Frames.rows (DataProcessor.record_data captures).2 = []).
Proof.
  unfold DataProcessor.record_data. destruct captures as [|c captures]; [reflexivity|].
  destruct (fmap _ _); unfold Frames.empty; cbn [snd Frames.columns Frames.rows];
    rewrite (bool_decide_eq_false_2 (Config.REQUIRED_data_capture = [])) by discriminate;
    apply orb_false_r.
Qed.



Lemma shape0_zero df : bool_decide (Frames.shape0 df = 0%nat) = bool_decide (Frames.rows df = []).
Proof. unfold Frames.shape0. destruct (Frames.rows df); reflexivity. Qed.
End record_steps.

Section fallback.
Variable settings : Config.Settings.
Variable client : DataProcessor.Client.
Variable reformat_datetime : string -> string.
Variable production_record_id : Z.
Variable s : State.
Variable captures : list DataProcessor.RawCapture.
Variable lot_number : Frames.Cell.
Variable record_df : Frames.Frame.
Variable secondary : list DataProcessor.LotCapture.
Hypothesis Hcaptures :
  DataProcessor.fetch_data_captures client (DataProcessor.record_params production_record_id)
  = Ret captures.
Hypothesis Hrecord : DataProcessor.record_data captures = (lot_number, record_df).
Hypothesis Hrows : Frames.rows record_df <> [].
Hypothesis Hprimary :
  DataProcessor.fetch_batch_records client (DataProcessor.batch_params lot_number) = Ret [].
Hypothesis Hsecondary :
  DataProcessor.fetch_data_captures_by_lot client (DataProcessor.lot_params lot_number)
  = Ret secondary.

Lemma record_df_not_empty : Frames.empty record_df = false.
Proof.
  pose proof (record_data_empty captures) as H. rewrite Hrecord in H. cbn [snd] in H.
  rewrite H. now apply bool_decide_eq_false_2.
Qed.

Lemma record_df_has_rows : bool_decide (Frames.shape0 record_df = 0%nat) = false.
Proof. rewrite shape0_zero. now apply bool_decide_eq_false_2. Qed.




Variable response : option (list DataProcessor.StructureNode).
Variable unit_df operation_df phase_df : Frames.Frame.
Hypothesis Hresponse : DataProcessor.get_structures client production_record_id = Ret response.
Hypothesis Htables :
  DataProcessor.structure_tables response = Ret (unit_df, operation_df, phase_df).



End fallback.




(** ** Records without a batch-creation capture *)





Section record_outcomes.
Variable settings : Config.Settings.
Variable client : DataProcessor.Client.
Variable reformat_datetime : string -> string.




End record_outcomes.

(** ** Calls are only ever added *)

Lemma extends_ret {A} (a : A) : extends_calls (mret a : M A).
Proof. intros s. exists []. cbn. now rewrite app_nil_r. Qed.

Lemma extends_lift {A} (o : Outcome A) : extends_calls (lift o).
Proof. intros s. exists []. cbn. now rewrite app_nil_r. Qed.

Lemma extends_bind {A B} (m : M A) (f : A -> M B) :
  extends_calls m -> (forall a, extends_calls (f a)) -> extends_calls (m ≫= f).
Proof.
  intros Hm Hf s. rewrite bind_unfold. destruct (Hm s) as [more1 H1].
  destruct (m s) as [[a|e] s1]; cbn [snd] in H1.
  - destruct (Hf a s1) as [more2 H2]. exists (more1 ++ more2).
    now rewrite H2, H1, app_assoc.
  - exists more1. exact H1.
Qed.

Lemma extends_try {A} (body : M A) (handler : Exn -> M A) :
  extends_calls body -> (forall e, extends_calls (handler e)) ->
  extends_calls (try_except body handler).
Proof.
  intros Hb Hh s. unfold try_except. destruct (Hb s) as [more1 H1].
  destruct (body s) as [[a|e] s1]; cbn [snd] in H1.
  - exists more1. exact H1.
  - destruct (Hh e s1) as [more2 H2]. exists (more1 ++ more2).
    now rewrite H2, H1, app_assoc.
Qed.

Lemma extends_api_call {A} (c : ApiCall) (r : Outcome A) :
  extends_calls (DataProcessor.api_call c r).
Proof. intros s. exists [c]. reflexivity. Qed.

Lemma extends_log_status id lot st reason :
  extends_calls (StatusTracker.log_status id lot st reason).
Proof. intros s. exists []. cbn. now rewrite app_nil_r. Qed.

Lemma extends_to_csv file_name df : extends_calls (Pipeline.to_csv file_name df).
Proof. intros s. exists []. cbn. now rewrite app_nil_r. Qed.

#[local] Hint Resolve extends_ret extends_lift extends_api_call extends_log_status
  extends_to_csv : pipeline.

Ltac extends_step :=
  match goal with
  | |- extends_calls (mbind _ _) => apply extends_bind; [|intros ?]
  | |- extends_calls (try_except _ _) => apply extends_try; [|intros ?]
  | |- extends_calls (if ?b then _ else _) => destruct b
  | |- extends_calls (match ?x with _ => _ end) => destruct x
  | |- extends_calls _ => solve [auto with pipeline]
  end.

Section fetch_calls.
Variable settings : Config.Settings.
Variable client : DataProcessor.Client.
Variable reformat_datetime : string -> string.



(** Every call of [process_record] starts with the capture fetch of its
    record, whatever the ledger holds. *)
Lemma bulk_process_record_fetches id s :
  exists more,
    api_calls (BulkFetch.process_record settings client reformat_datetime id s).2
    = api_calls s ++ captures_call id :: more.
Proof.
  unfold BulkFetch.process_record.
  set (rest := fun x : Frames.Cell * Frames.Frame => _).
  assert (Hrest : forall x, extends_calls (rest x)).
  { intros [lot df]. unfold rest, BulkFetch.alternative_lookup, BulkFetch.merge_and_save,
      DataProcessor.fetch_batch_records_by_lot, DataProcessor.fetch_data_capture_by_lot,
      DataProcessor.fetch_production_structure_metadata.
    repeat extends_step. }
  unfold try_except. rewrite bind_unfold, fetch_production_record_data_step.
  destruct (answer _ _) as [x|e].
  - pose proof (Hrest x (called [captures_call id] s)) as [more1 H1].
    destruct (rest x _) as [[[]|e] s1]; cbn [snd] in H1.
    + exists more1. cbn [snd]. rewrite H1. cbn. now rewrite <- app_assoc.
    + exists more1. unfold BulkFetch.log_exception. rewrite log_status_step.
      cbn [snd api_calls logged]. rewrite H1. cbn. now rewrite <- app_assoc.
  - exists []. reflexivity.
Qed.
End fetch_calls.



(** ** Restarting the bulk pipeline *)

Lemma start_id_of_checkpoint isoformat_now end_id batch_size s :
  BulkFetch.start_id_of isoformat_now (BulkFetch.mkArgs None end_id batch_size) s
  = Z.max 0 (last_processed_id (CheckpointManager.load_checkpoint isoformat_now s) + 1).
Proof.
  unfold BulkFetch.start_id_of. cbn [BulkFetch.start].
  destruct (Z.leb_spec (last_processed_id (CheckpointManager.load_checkpoint isoformat_now s) + 1)
              0); lia.
Qed.

(** C1: without [--start] the bulk pipeline starts one past the checkpoint
    (and never below 0), but the ledger is not consulted: every call of
    [process_record] makes the capture fetch of its record whatever the
    ledger holds.  On the interrupted state, whose ledger has a [Success]
    entry for record 5 and whose checkpoint is 4, the restart begins at 5,
    fetches record 5 again, writes its file again and appends a second
    [Success] entry. *)
Theorem restart_fetches_successful_record_again :
  (forall isoformat_now end_id batch_size s,
     BulkFetch.start_id_of isoformat_now (BulkFetch.mkArgs None end_id batch_size) s
     = Z.max 0 (last_processed_id (CheckpointManager.load_checkpoint isoformat_now s) + 1))
  /\ (forall settings client reformat_datetime production_record_id s,
        captures_call production_record_id
        ∈ api_calls (BulkFetch.process_record settings client reformat_datetime
                       production_record_id s).2)
  /\ BulkFetch.start_id_of example_clock restart_args interrupted_state = 5
  /\ StatusTracker.is_already_processed (status_log_file interrupted_state) 5 = true
  /\ exists s',
       BulkFetch.main Config.defaults plant_client example_reformat example_clock 10
         restart_args interrupted_state = Some (Ret (), s')
       /\ api_calls s'
          = [captures_call 5; primary_call (Frames.CStr "LOT-5"); Structures 5]
       /\ status_log_file s'
          = [mkStatusEntry 5 (Some (Frames.CStr "LOT-5")) Success "";
             mkStatusEntry 5 (Some (Frames.CStr "LOT-5")) Success ""]
       /\ (csv_files s').*1 = ["../data/raw_bulk_data/LOT-5.csv"].
Proof.
  split; [intros; apply start_id_of_checkpoint|].
  split.
  { intros settings client reformat_datetime id s.
    destruct (bulk_process_record_fetches settings client reformat_datetime id s)
      as [more ->].
    rewrite elem_of_app, elem_of_cons. tauto. }
  split; [reflexivity|]. split; [reflexivity|].
  eexists. split; [vm_compute; reflexivity|].
  split; [vm_compute; reflexivity|]. split; vm_compute; reflexivity.
Qed.

(** ** The structure merge *)

(** C4: the capture of the example joins the unit table ([Unit] is
    [Mixing]), and the join with an operation table keyed by strings raises
    [ValueError].  The bulk pipeline keeps [Unit] and blanks [Operation] and
    [Phase]; the incremental pipeline blanks all three, [Unit] included, and
    so does the frame it goes on to write. *)
Theorem incremental_merge_blanks_joined_unit :
  let unit_keys := ["masterTemplateId"; "unitProcedureId"] in
  let record_df := (DataProcessor.record_data [example_capture 5 "NUMERIC" "Weight" "jdoe"]).2 in
  let summary :=
    DataProcessor.batch_frame
      [DataProcessor.mkBatchRecord (Frames.CStr "LOT-5") (Frames.CStr "P-5")
         (Frames.CStr "Buffer") (Frames.CStr "COMPLETE")] in
  let bulk :=
    BulkFetch.merge_structure merge_input unit_table text_keyed_operation_table phase_table in
  let incremental :=
    IncrementalFetch.merge_structure merge_input unit_table text_keyed_operation_table
      phase_table in
  (exists joined e,
     Frames.merge merge_input unit_table unit_keys = Ret joined
     /\ Frames.column "Unit" joined = [Frames.CStr "Mixing"]
     /\ Frames.merge joined text_keyed_operation_table (unit_keys ++ ["operationId"]) = Raise e
     /\ exn_class e = ValueError)
  /\ column_values "Unit" bulk = Some [Frames.CStr "Mixing"]
  /\ column_values "Operation" bulk = Some [Frames.CStr ""]
  /\ column_values "Phase" bulk = Some [Frames.CStr ""]
  /\ column_values "Unit" incremental = Some [Frames.CStr ""]
  /\ column_values "Operation" incremental = Some [Frames.CStr ""]
  /\ column_values "Phase" incremental = Some [Frames.CStr ""]
  /\ column_values "Unit"
       (BulkFetch._merge_data example_reformat record_df summary unit_table
          text_keyed_operation_table phase_table) = Some [Frames.CStr "Mixing"]
  /\ column_values "Unit"
       (IncrementalFetch._merge_data example_reformat record_df summary unit_table
          text_keyed_operation_table phase_table) = Some [Frames.CStr ""].
Proof.
  intros unit_keys record_df summary bulk incremental.
  split.
  { eexists _, _. split; [vm_compute; reflexivity|].
    split; [vm_compute; reflexivity|]. split; vm_compute; reflexivity. }
  repeat split; vm_compute; reflexivity.
Qed.

(** ** The API client beyond three pages *)

Section api_client.
Import ApiClient.

Lemma perform_attempts_first (net : Network) (url : string) (k : nat) :
  forall retry remaining,
    (k < remaining)%nat ->
    (forall j, (j < k)%nat -> net url (retry + j)%nat = RequestError) ->
    perform_attempts net url retry remaining
    = match net url (retry + k)%nat with
      | Response body => Ret (Some body)
      | RequestError => perform_attempts net url (S (retry + k)) (remaining - S k)
      | UnexpectedError e => Raise e
      end.
Proof.
  induction k as [|k IH]; intros retry remaining Hk Hfail.
  - destruct remaining as [|remaining]; [lia|].
    cbn [perform_attempts]. rewrite Nat.add_0_r.
    replace (S remaining - 1)%nat with remaining by lia. reflexivity.
  - destruct remaining as [|remaining]; [lia|].
    cbn [perform_attempts]. pose proof (Hfail 0%nat ltac:(lia)) as H0.
    rewrite Nat.add_0_r in H0. rewrite H0.
    rewrite (IH (S retry) remaining) by
      (first [lia | intros j Hj; replace (S retry + j)%nat with (retry + S j)%nat by lia;
                    apply Hfail; lia]).
    replace (S retry + k)%nat with (retry + S k)%nat by lia.
    replace (S remaining - S (S k))%nat with (remaining - S k)%nat by lia.
    reflexivity.
Qed.

Lemma fetch_pages_not_last fuel net base_url params pages :
  forall page all_data requested,
    serves_pages net base_url params page pages ->
    (length pages <= fuel)%nat ->
    fetch_pages fuel net base_url params page all_data requested
    = fetch_pages (fuel - length pages) net base_url params (page + length pages)
        (all_data ++ concat (pages.*2))
        (requested ++ page_urls base_url params page (length pages)).
Proof.
  revert fuel. induction pages as [|[data content] pages IH];
    intros fuel page all_data requested Hserves Hfuel.
  - cbn. rewrite Nat.sub_0_r, Nat.add_0_r, !app_nil_r. reflexivity.
  - destruct Hserves as (Hdata & Hpage & Hrest).
    destruct fuel as [|fuel]; [cbn in Hfuel; lia|].
    rewrite (fetch_pages_step _ _ _ _ _ _ _ _ _ _ Hdata Hpage). cbn [default].
    rewrite (IH fuel (S page)) by (first [exact Hrest | cbn in Hfuel; lia]).
    cbn [length]. replace (S page + length pages)%nat with (page + S (length pages))%nat by lia.
    rewrite fmap_cons. cbn [snd concat]. unfold page_urls. cbn [seq fmap list_fmap].
    rewrite <- !app_assoc. reflexivity.
Qed.
End api_client.

(** X1: [perform_get_request] makes at most three attempts and returns the
    first response; an exception other than a request error is raised at
    once, without a further attempt; and the result is [None] exactly when
    all three attempts end in a request error. *)
Theorem perform_get_request_first_response (net : ApiClient.Network) (url : string) :
  (forall k body,
      (k < 3)%nat ->
      (forall j, (j < k)%nat -> net url j = ApiClient.RequestError) ->
      net url k = ApiClient.Response body ->
      ApiClient.perform_get_request net url = Ret (Some body))
  /\ (forall k e,
        (k < 3)%nat ->
        (forall j, (j < k)%nat -> net url j = ApiClient.RequestError) ->
        net url k = ApiClient.UnexpectedError e ->
        ApiClient.perform_get_request net url = Raise e)
  /\ (ApiClient.perform_get_request net url = Ret None
      <-> forall j, (j < 3)%nat -> net url j = ApiClient.RequestError).
Proof.
  unfold ApiClient.perform_get_request. split; [|split].
  - intros k body Hk Hfail Hresp.
    rewrite (perform_attempts_first net url k 0 3 Hk) by (intros j Hj; apply Hfail, Hj).
    cbn [Nat.add]. now rewrite Hresp.
  - intros k e Hk Hfail Hexn.
    rewrite (perform_attempts_first net url k 0 3 Hk) by (intros j Hj; apply Hfail, Hj).
    cbn [Nat.add]. now rewrite Hexn.
  - split.
    + cbn [ApiClient.perform_attempts]. intros H j Hj.
      destruct (net url 0%nat) eqn:E0; try discriminate.
      destruct (net url 1%nat) eqn:E1; try discriminate.
      destruct (net url 2%nat) eqn:E2; try discriminate.
      destruct j as [|[|[|j]]]; [assumption..|lia].
    + intros H. cbn [ApiClient.perform_attempts].
      rewrite (H 0%nat), (H 1%nat), (H 2%nat) by lia. reflexivity.
Qed.

(** X1, witness: page 1 of [three_page_source] is answered at the second
    attempt; an unknown URL fails three times. *)
Lemma perform_get_request_first_response_witness :
  ApiClient.perform_get_request three_page_source
    "https://mx/captures?currentPage=1&itemsPerPage=1000&productionRecordId=7"
  = Ret (Some (Ret (ApiClient.JObj
                      [("pageResult",
                        ApiClient.JObj [("content", ApiClient.JArr [ApiClient.JNum 3])]);
                       ("last", ApiClient.JBool false)])))
  /\ ApiClient.perform_get_request three_page_source "https://mx/unknown" = Ret None.
Proof.
  split.
  - apply (proj1 (perform_get_request_first_response three_page_source _) 1%nat).
    + lia.
    + intros j Hj. assert (j = 0%nat) as -> by lia. reflexivity.
    + reflexivity.
  - apply (proj2 (proj2 (perform_get_request_first_response three_page_source _))).
    intros j _. reflexivity.
Defined.

(** X2: when the source serves [n] pages flagged as not the last and then
    a page that is flagged as the last, or has no flag, [fetch_paginated_data]
    terminates, requests the [n + 1] page URLs in increasing order of
    [currentPage], and returns the records of all pages concatenated in page
    order. *)
Theorem fetch_paginated_data_concatenates_pages
    (net : ApiClient.Network) (base_url : string) (params : list (string * string))
    (pages : list (ApiClient.json * list ApiClient.json))
    (data : ApiClient.json) (content : list ApiClient.json) (last : option bool) (fuel : nat) :
  serves_pages net base_url params 0 pages ->
  ApiClient.serves net (ApiClient.page_url base_url (length pages) params) data ->
  ApiClient.is_page data content last ->
  last <> Some false ->
  (length pages < fuel)%nat ->
  ApiClient.fetch_paginated_data fuel net base_url params
  = Some (Ret (concat (pages.*2) ++ content),
          page_urls base_url params 0 (S (length pages))).
Proof.
  intros Hpages Hdata Hpage Hlast Hfuel. unfold ApiClient.fetch_paginated_data.
  rewrite (fetch_pages_not_last fuel net base_url params pages 0 [] [] Hpages) by lia.
  cbn [Nat.add app].
  destruct (fuel - length pages)%nat as [|rest] eqn:E; [lia|].
  rewrite (fetch_pages_step _ _ _ _ _ _ _ _ _ _ Hdata Hpage).
  assert (default true last = true) as -> by (destruct last as [[]|]; [reflexivity|now destruct Hlast|reflexivity]).
  unfold page_urls. rewrite seq_S, fmap_app. reflexivity.
Qed.

(** X2, witness: the three pages of [three_page_source]. *)
Lemma fetch_paginated_data_concatenates_pages_witness :
  ApiClient.fetch_paginated_data 5 three_page_source "https://mx/captures"
    [("productionRecordId", "7")]
  = Some (Ret [ApiClient.JNum 1; ApiClient.JNum 2; ApiClient.JNum 3; ApiClient.JNum 4],
          page_urls "https://mx/captures" [("productionRecordId", "7")] 0 3).
Proof.
  apply (fetch_paginated_data_concatenates_pages three_page_source "https://mx/captures"
           [("productionRecordId", "7")]
           [(ApiClient.JObj [("content", ApiClient.JArr [ApiClient.JNum 1; ApiClient.JNum 2]);
                             ("last", ApiClient.JBool false)],
             [ApiClient.JNum 1; ApiClient.JNum 2]);
            (ApiClient.JObj
               [("pageResult", ApiClient.JObj [("content", ApiClient.JArr [ApiClient.JNum 3])]);
                ("last", ApiClient.JBool false)],
             [ApiClient.JNum 3])]
           (ApiClient.JObj [("content", ApiClient.JArr [ApiClient.JNum 4]);
                            ("last", ApiClient.JBool true)])
           [ApiClient.JNum 4] (Some true)).
  - split; [vm_compute; reflexivity|]. split.
    { eexists. split; [reflexivity|]. split; [reflexivity|]. left. reflexivity. }
    split; [vm_compute; reflexivity|]. split; [|exact I].
    eexists. split; [reflexivity|]. split; [reflexivity|]. right.
    split; [reflexivity|]. eexists. split; reflexivity.
  - vm_compute. reflexivity.
  - eexists. split; [reflexivity|]. split; [reflexivity|]. left. reflexivity.
  - discriminate.
  - cbn. lia.
Defined.

(** X3: when the request for a page fails at all three attempts, or the
    page's document has neither a [content] nor a [pageResult] key, the loop
    stops without an error and [fetch_paginated_data] returns the records of
    the pages before it: the caller cannot tell the truncated result from a
    complete one. *)
Theorem fetch_paginated_data_truncates_silently
    (net : ApiClient.Network) (base_url : string) (params : list (string * string))
    (pages : list (ApiClient.json * list ApiClient.json)) (fuel : nat) :
  serves_pages net base_url params 0 pages ->
  ((forall j, (j < 3)%nat ->
      net (ApiClient.page_url base_url (length pages) params) j = ApiClient.RequestError)
   \/ exists members,
        ApiClient.serves net (ApiClient.page_url base_url (length pages) params)
          (ApiClient.JObj members)
        /\ ApiClient.dict_lookup "content" members = None
        /\ ApiClient.dict_lookup "pageResult" members = None) ->
  (length pages < fuel)%nat ->
  ApiClient.fetch_paginated_data fuel net base_url params
  = Some (Ret (concat (pages.*2)), page_urls base_url params 0 (S (length pages))).
Proof.
  intros Hpages Hstop Hfuel. unfold ApiClient.fetch_paginated_data.
  rewrite (fetch_pages_not_last fuel net base_url params pages 0 [] [] Hpages) by lia.
  cbn [Nat.add app].
  destruct (fuel - length pages)%nat as [|rest] eqn:E; [lia|].
  cbn [ApiClient.fetch_pages].
  replace (page_urls base_url params 0 (S (length pages)))
    with (page_urls base_url params 0 (length pages)
          ++ [ApiClient.page_url base_url (length pages) params])
    by (unfold page_urls; rewrite seq_S, fmap_app; reflexivity).
  destruct Hstop as [Hfail | (members & Hserves & Hcontent & Hresult)].
  - unfold ApiClient.perform_get_request. cbn [ApiClient.perform_attempts].
    rewrite (Hfail 0%nat), (Hfail 1%nat), (Hfail 2%nat) by lia. reflexivity.
  - unfold ApiClient.serves in Hserves. rewrite Hserves.
    unfold ApiClient.read_page, ApiClient.contains. rewrite Hcontent, Hresult. reflexivity.
Qed.

(** X3, witness: the first page is served, the second times out. *)
Lemma fetch_paginated_data_truncates_silently_witness :
  ApiClient.fetch_paginated_data 5 failing_second_page "https://mx/captures" []
  = Some (Ret [ApiClient.JNum 1; ApiClient.JNum 2],
          page_urls "https://mx/captures" [] 0 2).
Proof.
  apply (fetch_paginated_data_truncates_silently failing_second_page "https://mx/captures" []
           [(ApiClient.JObj [("content", ApiClient.JArr [ApiClient.JNum 1; ApiClient.JNum 2]);
                             ("last", ApiClient.JBool false)],
             [ApiClient.JNum 1; ApiClient.JNum 2])]).
  - split; [vm_compute; reflexivity|]. split; [|exact I].
    eexists. split; [reflexivity|]. split; [reflexivity|]. left. reflexivity.
  - left. intros j _. reflexivity.
  - cbn. lia.
Defined.

(** X4: against a source every page of which is flagged as not the last,
    the loop of [fetch_paginated_data] does not end: no number of
    iterations gives a result. *)
Theorem fetch_paginated_data_needs_a_last_page
    (net : ApiClient.Network) (base_url : string) (params : list (string * string)) :
  (forall page, exists data content,
      ApiClient.serves net (ApiClient.page_url base_url page params) data
      /\ ApiClient.is_page data content (Some false)) ->
  forall fuel, ApiClient.fetch_paginated_data fuel net base_url params = None.
Proof.
  intros Hpages fuel. unfold ApiClient.fetch_paginated_data.
  generalize 0%nat at 1 as page. generalize (@nil ApiClient.json) as all_data.
  generalize (@nil string) as requested.
  induction fuel as [|fuel IH]; intros requested all_data page; [reflexivity|].
  destruct (Hpages page) as (data & content & Hserves & Hpage).
  rewrite (fetch_pages_step _ _ _ _ _ _ _ _ _ _ Hserves Hpage). cbn [default].
  apply IH.
Qed.

(** X4, witness: [endless_source], at a thousand iterations. *)
Lemma fetch_paginated_data_needs_a_last_page_witness :
  ApiClient.fetch_paginated_data 1000 endless_source "https://mx/captures" [] = None.
Proof.
  apply (fetch_paginated_data_needs_a_last_page endless_source "https://mx/captures" []).
  intros page. eexists _, []. split; [reflexivity|].
  eexists. split; [reflexivity|]. split; [reflexivity|]. left. reflexivity.
Defined.

(** ** Required columns *)

Section required_columns.
Import Frames.

Lemma ensure_rows (current required : list string) df :
  rows (foldl (fun df col => if bool_decide (col ∈ current) then df
                             else set_column col (CStr "") df) df required)
  = blank_missing current required <$> rows df.
Proof.
  unfold blank_missing. revert df.
  induction required as [|col required IH]; intros df.
  - cbn. now rewrite list_fmap_id.
  - cbn [foldl]. rewrite IH. destruct (bool_decide (col ∈ current)).
    + apply list_fmap_ext. intros _ r _. reflexivity.
    + cbn [set_column rows]. rewrite <- list_fmap_compose. apply list_fmap_ext.
      intros _ r _. reflexivity.
Qed.

Lemma ensure_columns (current required : list string) df c :
  c ∈ columns df \/ (c ∈ required /\ c ∉ current) ->
  c ∈ columns (foldl (fun df col => if bool_decide (col ∈ current) then df
                                    else set_column col (CStr "") df) df required).
Proof.
  revert df. induction required as [|col required IH]; intros df Hc.
  - destruct Hc as [Hc|[Hc _]]; [exact Hc|]. now apply elem_of_nil in Hc.
  - cbn [foldl]. apply IH.
    assert (Hkeep : forall df', c ∈ columns df' -> c ∈ columns (set_column col (CStr "") df')).
    { intros df' H. cbn [set_column columns].
      destruct (bool_decide (col ∈ columns df')); [exact H|]. apply elem_of_app. now left. }
    destruct Hc as [Hc|[Hc Hcur]].
    + left. destruct (bool_decide (col ∈ current)); [exact Hc|]. now apply Hkeep.
    + apply elem_of_cons in Hc as [->|Hc]; [|now right].
      left. rewrite bool_decide_eq_false_2 by exact Hcur.
      cbn [set_column columns]. destruct (bool_decide (col ∈ columns df)) eqn:E.
      * now apply bool_decide_eq_true in E.
      * apply elem_of_app. right. apply list_elem_of_here.
Qed.

Lemma blank_missing_cell (current required : list string) r c :
  cell (blank_missing current required r) c
  = if bool_decide (c ∈ required /\ c ∉ current) then CStr "" else cell r c.
Proof.
  unfold blank_missing. revert r.
  induction required as [|col required IH]; intros r.
  - cbn. rewrite bool_decide_eq_false_2; [reflexivity|].
    intros [H _]. now apply elem_of_nil in H.
  - cbn [foldl]. rewrite IH. clear IH.
    destruct (decide (c ∈ required /\ c ∉ current)) as [Hin|Hout].
    + rewrite !bool_decide_eq_true_2; [reflexivity| |exact Hin].
      split; [apply list_elem_of_further|]; tauto.
    + rewrite (bool_decide_eq_false_2 _ Hout).
      destruct (bool_decide (col ∈ current)) eqn:Ecur.
      * apply bool_decide_eq_true in Ecur.
        rewrite bool_decide_eq_false_2; [reflexivity|].
        intros [H1 H2]. apply elem_of_cons in H1 as [->|H1]; tauto.
      * apply bool_decide_eq_false in Ecur. unfold cell.
        destruct (decide (col = c)) as [->|Hne].
        -- rewrite lookup_insert_eq, bool_decide_eq_true_2; [reflexivity|].
           split; [apply list_elem_of_here|exact Ecur].
        -- rewrite lookup_insert_ne by exact Hne.
           rewrite bool_decide_eq_false_2; [reflexivity|].
           intros [H1 H2]. apply elem_of_cons in H1 as [->|H1]; tauto.
Qed.

Lemma missing_column_none df cols :
  (forall c, c ∈ cols -> c ∈ columns df) -> missing_column df cols = None.
Proof.
  unfold missing_column. induction cols as [|c cols IH]; intros H; [reflexivity|].
  cbn [List.find]. rewrite bool_decide_eq_true_2 by apply H, list_elem_of_here.
  cbn [negb]. apply IH. intros c' Hc'. apply H. now apply list_elem_of_further.
Qed.

Lemma cell_of_selected (f : string -> Cell) (cols : list string) (c : string) :
  c ∈ cols -> cell (list_to_map ((fun c => (c, f c)) <$> cols)) c = f c.
Proof.
  unfold cell. induction cols as [|c' cols IH]; intros Hc.
  - now apply elem_of_nil in Hc.
  - rewrite fmap_cons, list_to_map_cons.
    destruct (decide (c' = c)) as [->|Hne].
    + now rewrite lookup_insert_eq.
    + rewrite lookup_insert_ne by exact Hne. apply IH.
      apply elem_of_cons in Hc as [->|Hc]; [congruence|exact Hc].
Qed.
End required_columns.

(** X5: selecting the required columns from the frame
    [ensure_required_columns] returns never raises [KeyError]; the result
    has the required columns in the required order and as many rows as the
    frame given; under a column the frame had, every row keeps its value,
    and under a column it lacked every row holds the empty string. *)
Theorem select_after_ensure_required_columns
    (df : Frames.Frame) (required_columns : list string) :
  exists selected,
    Frames.select required_columns (Frames.ensure_required_columns df required_columns)
    = Ret (Frames.mkFrame required_columns selected)
    /\ length selected = length (Frames.rows df)
    /\ forall i row c,
         selected !! i = Some row -> c ∈ required_columns ->
         exists original,
           Frames.rows df !! i = Some original
           /\ Frames.cell row c
              = if bool_decide (c ∈ Frames.columns df) then Frames.cell original c
                else Frames.CStr "".
Proof.
  unfold Frames.select, Frames.ensure_required_columns.
  rewrite missing_column_none.
  2:{ intros c Hc. apply ensure_columns.
      destruct (decide (c ∈ Frames.columns df)); [now left|now right]. }
  eexists. split; [reflexivity|]. rewrite ensure_rows. split.
  - now rewrite !length_fmap.
  - intros i row c Hrow Hc. rewrite !list_lookup_fmap in Hrow.
    destruct (Frames.rows df !! i) as [original|]; [|discriminate].
    cbn in Hrow. injection Hrow as <-. exists original. split; [reflexivity|].
    rewrite (cell_of_selected _ _ _ Hc), blank_missing_cell.
    destruct (decide (c ∈ Frames.columns df)) as [Hin|Hout].
    + rewrite bool_decide_eq_false_2 by tauto. now rewrite bool_decide_eq_true_2.
    + rewrite bool_decide_eq_true_2 by tauto. now rewrite bool_decide_eq_false_2.
Qed.

(** ** The ledger over time *)

Lemma is_already_processed_app (ledger : list StatusEntry) (e : StatusEntry) (id : Z) :
  StatusTracker.is_already_processed (ledger ++ [e]) id
  = if has_entry ledger id then StatusTracker.is_already_processed ledger id
    else bool_decide (entry_record_id e = id) && bool_decide (entry_status e = Success).
Proof.
  unfold StatusTracker.is_already_processed, has_entry.
  induction ledger as [|e' ledger IH].
  - cbn. destruct (bool_decide (entry_record_id e = id)); reflexivity.
  - cbn [app List.filter existsb].
    destruct (bool_decide (entry_record_id e' = id)); [reflexivity|exact IH].
Qed.

(** X6: [log_status] appends one row to the frame and writes the frame to
    the status log, so the file and the frame agree afterwards.  The answer
    of [is_already_processed] for a record that already had an entry is not
    changed by any later [log_status]; for a record without an entry it
    becomes true exactly when the row logged is a [Success] row of that
    record. *)
Theorem log_status_then_is_already_processed
    (production_record_id : Z) (lot_number : option Frames.Cell) (status : Status)
    (reason : string) (queried : Z) (s : State) :
  let s' := (StatusTracker.log_status production_record_id lot_number status reason s).2 in
  tracking_df s'
  = tracking_df s ++ [mkStatusEntry production_record_id lot_number status reason]
  /\ status_log_file s' = tracking_df s'
  /\ StatusTracker.is_already_processed (tracking_df s') queried
     = if has_entry (tracking_df s) queried
       then StatusTracker.is_already_processed (tracking_df s) queried
       else bool_decide (production_record_id = queried) && bool_decide (status = Success).
Proof.
  intros s'. subst s'. cbn [snd StatusTracker.log_status StatusTracker.save_tracking_df
                             tracking_df status_log_file].
  split; [reflexivity|]. split; [reflexivity|].
  apply is_already_processed_app.
Qed.

(** ** One ledger row per record *)

Lemma appended_nil file_of s : appended file_of [] s s.
Proof. unfold appended. cbn. now rewrite !app_nil_r. Qed.

Lemma files_of_entries_app file_of es1 es2 :
  files_of_entries file_of (es1 ++ es2)
  = files_of_entries file_of es1 ++ files_of_entries file_of es2.
Proof. unfold files_of_entries. apply omap_app. Qed.

Lemma appended_trans file_of es1 es2 s s1 s2 :
  appended file_of es1 s s1 -> appended file_of es2 s1 s2 ->
  appended file_of (es1 ++ es2) s s2.
Proof.
  intros (Ht1 & Hf1 & Hn1 & Hl1) (Ht2 & Hf2 & Hn2 & Hl2). unfold appended.
  split; [now rewrite Ht2, Ht1, app_assoc|].
  split; [now rewrite Hf2, Hf1, files_of_entries_app, app_assoc|].
  split; [rewrite files_of_entries_app, List.filter_app, !length_app; lia|].
  destruct es2 as [|e2 es2].
  - rewrite app_nil_r. rewrite Hl2, Hl1, Ht2, app_nil_r. reflexivity.
  - rewrite Hl2. destruct es1; reflexivity.
Qed.

Lemma appended_logged file_of id lot reason s :
  appended file_of [mkStatusEntry id lot Failure reason] s
    (logged (mkStatusEntry id lot Failure reason) s).
Proof.
  unfold appended, logged. cbn. now rewrite app_nil_r.
Qed.

Lemma quiet_ret {A} file_of (a : A) : quiet file_of (mret a : M A).
Proof. intros s. apply appended_nil. Qed.

Lemma quiet_lift {A} file_of (o : Outcome A) : quiet file_of (lift o).
Proof. intros s. apply appended_nil. Qed.

Lemma quiet_api_call {A} file_of (c : ApiCall) (r : Outcome A) :
  quiet file_of (DataProcessor.api_call c r).
Proof. intros s. unfold appended. cbn. now rewrite !app_nil_r. Qed.

Lemma quiet_save_checkpoint file_of isoformat_now last_id :
  quiet file_of (CheckpointManager.save_checkpoint isoformat_now last_id).
Proof. intros s. unfold appended. cbn. now rewrite !app_nil_r. Qed.

Lemma quiet_bind {A B} file_of (m : M A) (f : A -> M B) :
  quiet file_of m -> (forall a, quiet file_of (f a)) -> quiet file_of (m ≫= f).
Proof.
  intros Hm Hf s. rewrite bind_unfold. specialize (Hm s).
  destruct (m s) as [[a|e] s1]; cbn [snd] in Hm; [|exact Hm].
  exact (appended_trans file_of [] [] _ _ _ Hm (Hf a s1)).
Qed.

Lemma finishes_bind {A B} file_of id (m : M A) (f : A -> M B) :
  quiet file_of m -> (forall a, finishes file_of id (f a)) -> finishes file_of id (m ≫= f).
Proof.
  intros Hm Hf s. rewrite bind_unfold. specialize (Hm s).
  destruct (m s) as [[a|e] s1]; cbn [snd] in Hm; [|exact Hm].
  specialize (Hf a s1). destruct (f a s1) as [[b|e] s2].
  - destruct Hf as (entry & Hid & Hf). exists entry. split; [exact Hid|].
    exact (appended_trans file_of [] [entry] _ _ _ Hm Hf).
  - exact (appended_trans file_of [] [] _ _ _ Hm Hf).
Qed.

Lemma finishes_or_goes_on_bind {A B} file_of id (m : M A) (f : A -> M (option B)) :
  quiet file_of m -> (forall a, finishes_or_goes_on file_of id (f a)) ->
  finishes_or_goes_on file_of id (m ≫= f).
Proof.
  intros Hm Hf s. rewrite bind_unfold. specialize (Hm s).
  destruct (m s) as [[a|e] s1]; cbn [snd] in Hm; [|exact Hm].
  specialize (Hf a s1). destruct (f a s1) as [[[b|]|e] s2].
  - exact (appended_trans file_of [] [] _ _ _ Hm Hf).
  - destruct Hf as (entry & Hid & Hf). exists entry. split; [exact Hid|].
    exact (appended_trans file_of [] [entry] _ _ _ Hm Hf).
  - exact (appended_trans file_of [] [] _ _ _ Hm Hf).
Qed.

Lemma finishes_log_failure file_of id lot reason :
  finishes file_of id (StatusTracker.log_status id lot Failure reason).
Proof.
  intros s. rewrite log_status_step.
  exists (mkStatusEntry id lot Failure reason). split; [reflexivity|].
  apply appended_logged.
Qed.

Lemma finishes_or_goes_on_none {A} file_of id lot reason :
  finishes_or_goes_on file_of id
    (_ ← StatusTracker.log_status id lot Failure reason; mret (@None A)).
Proof.
  intros s. rewrite bind_unfold, log_status_step. cbn.
  exists (mkStatusEntry id lot Failure reason). split; [reflexivity|].
  apply appended_logged.
Qed.

Lemma finishes_or_goes_on_some {A} file_of id (a : A) :
  finishes_or_goes_on file_of id (mret (Some a)).
Proof. intros s. apply appended_nil. Qed.

Lemma finishes_save file_of id lot df :
  finishes file_of id
    (_ ← Pipeline.to_csv (file_of lot) df;
     StatusTracker.log_status id (Some lot) Success "").
Proof.
  intros s. rewrite bind_unfold. cbn.
  exists (mkStatusEntry id (Some lot) Success ""). split; [reflexivity|].
  unfold appended. cbn. rewrite fmap_app. repeat split; reflexivity.
Qed.

Lemma finishes_after_lookup {A} file_of id (m : M (option A)) (k : A -> M unit) :
  finishes_or_goes_on file_of id m -> (forall a, finishes file_of id (k a)) ->
  finishes file_of id (reconciled ← m;
                       match reconciled with
                       | None => mret ()
                       | Some a => k a
                       end).
Proof.
  intros Hm Hk s. rewrite bind_unfold. specialize (Hm s).
  destruct (m s) as [[[a|]|e] s1]; [|exact Hm|exact Hm].
  specialize (Hk a s1). destruct (k a s1) as [[[]|e] s2].
  - destruct Hk as (entry & Hid & Hk). exists entry. split; [exact Hid|].
    exact (appended_trans file_of [] [entry] _ _ _ Hm Hk).
  - exact (appended_trans file_of [] [] _ _ _ Hm Hk).
Qed.

(** The [try] of [process_record]: whatever the body does, the call
    returns with one row logged. *)
Lemma finishes_try file_of id (body : M unit) (s : State) :
  finishes file_of id body ->
  exists s' e,
    try_except body (fun e => StatusTracker.log_status id None Failure (exn_msg e)) s
    = (Ret (), s')
    /\ entry_record_id e = id /\ appended file_of [e] s s'.
Proof.
  intros Hbody. unfold try_except. specialize (Hbody s).
  destruct (body s) as [[[]|e] s1].
  - destruct Hbody as (entry & Hid & Hbody). eauto.
  - rewrite log_status_step.
    exists (logged (mkStatusEntry id None Failure (exn_msg e)) s1),
      (mkStatusEntry id None Failure (exn_msg e)).
    split; [reflexivity|]. split; [reflexivity|].
    exact (appended_trans file_of [] [_] _ _ _ Hbody (appended_logged file_of _ _ _ _)).
Qed.

#[local] Hint Resolve quiet_ret quiet_lift quiet_api_call finishes_log_failure
  finishes_or_goes_on_none finishes_or_goes_on_some finishes_save : pipeline.

Ltac ledger_step :=
  match goal with
  | |- quiet _ (mbind _ _) => apply quiet_bind; [|intros ?]
  | |- finishes _ _ (_ ← Pipeline.to_csv _ _; _) => apply finishes_save
  | |- finishes_or_goes_on _ _ (_ ← StatusTracker.log_status _ _ _ _; _) =>
      apply finishes_or_goes_on_none
  | |- finishes _ _ (mbind _ _) =>
      first [apply finishes_after_lookup; [|intros ?] | apply finishes_bind; [|intros ?]]
  | |- finishes_or_goes_on _ _ (mbind _ _) => apply finishes_or_goes_on_bind; [|intros ?]
  | |- _ (if ?b then _ else _) => destruct b
  | |- _ (match ?x with _ => _ end) => destruct x
  | |- finishes _ _ (let '(_, _) := ?x in _) => destruct x
  | |- _ => solve [auto with pipeline]
  end.

Section one_row_per_record.
Variable settings : Config.Settings.
Variable client : DataProcessor.Client.
Variable reformat_datetime : string -> string.

Lemma bulk_process_record_appends id s :
  exists s' e,
    BulkFetch.process_record settings client reformat_datetime id s = (Ret (), s')
    /\ entry_record_id e = id /\ appended (bulk_file settings) [e] s s'.
Proof.
  unfold BulkFetch.process_record, BulkFetch.log_exception.
  apply finishes_try.
  unfold BulkFetch.alternative_lookup, BulkFetch.merge_and_save,
    DataProcessor.fetch_production_record_data, DataProcessor.fetch_batch_records_by_lot,
    DataProcessor.fetch_data_capture_by_lot, DataProcessor.fetch_production_structure_metadata.
  fold (bulk_file settings).
  repeat ledger_step.
Qed.

Lemma incremental_process_record_appends id s :
  exists s' e,
    IncrementalFetch.process_record settings client reformat_datetime id s = (Ret (), s')
    /\ entry_record_id e = id /\ appended (incremental_file settings) [e] s s'.
Proof.
  unfold IncrementalFetch.process_record, IncrementalFetch.log_exception.
  apply finishes_try.
  unfold IncrementalFetch.reconcile, IncrementalFetch._log_failure,
    IncrementalFetch.merge_and_save,
    DataProcessor.fetch_production_record_data, DataProcessor.fetch_batch_records_by_lot,
    DataProcessor.fetch_data_capture_by_lot, DataProcessor.fetch_production_structure_metadata.
  fold (incremental_file settings).
  repeat ledger_step.
Qed.
End one_row_per_record.

(** A loop over records each of which logs its row. *)
Lemma for_each_appends file_of (body : Z -> M unit) (xs : list Z) :
  (forall x s, exists s' e,
      body x s = (Ret (), s') /\ entry_record_id e = x /\ appended file_of [e] s s') ->
  forall s, exists s' es,
    Pipeline.for_each body xs s = (Ret (), s')
    /\ entry_record_id <$> es = xs /\ appended file_of es s s'.
Proof.
  intros Hbody. induction xs as [|x xs IH]; intros s.
  - exists s, []. split; [reflexivity|]. split; [reflexivity|]. apply appended_nil.
  - cbn [Pipeline.for_each]. rewrite bind_unfold.
    destruct (Hbody x s) as (s1 & e & -> & Hid & Hx).
    destruct (IH s1) as (s' & es & Hrest & Hids & Hxs).
    exists s', (e :: es). split; [exact Hrest|]. split; [cbn; congruence|].
    exact (appended_trans file_of [e] es _ _ _ Hx Hxs).
Qed.

Section ledger_of_a_run.
Variable settings : Config.Settings.
Variable client : DataProcessor.Client.
Variable reformat_datetime : string -> string.
Variable isoformat_now : nat -> string.

Lemma run_batches_appends (end_id batch_size : Z) (fuel : nat) :
  0 < batch_size ->
  forall current_batch_start s,
    end_id - current_batch_start + 1 <= Z.of_nat fuel ->
    exists s' es,
      BulkFetch.run_batches settings client reformat_datetime isoformat_now
        fuel current_batch_start end_id batch_size s = Some (Ret (), s')
      /\ entry_record_id <$> es = seqZ current_batch_start (end_id + 1 - current_batch_start)
      /\ appended (bulk_file settings) es s s'.
Proof.
  intros Hbs. induction fuel as [|fuel IH]; intros start s Hfuel.
  - cbn [BulkFetch.run_batches].
    destruct (start <=? end_id) eqn:E; [apply Z.leb_le in E; lia|]. apply Z.leb_gt in E.
    exists s, []. split; [reflexivity|]. split; [|apply appended_nil].
    unfold seqZ. replace (Z.to_nat (end_id + 1 - start)) with 0%nat by lia. reflexivity.
  - cbn [BulkFetch.run_batches].
    destruct (start <=? end_id) eqn:E.
    2:{ apply Z.leb_gt in E. exists s, []. split; [reflexivity|]. split; [|apply appended_nil].
        unfold seqZ. replace (Z.to_nat (end_id + 1 - start)) with 0%nat by lia. reflexivity. }
    apply Z.leb_le in E. cbn zeta.
    set (batch_end := Z.min (start + batch_size - 1) end_id).
    rewrite bind_unfold.
    destruct (for_each_appends (bulk_file settings)
                (BulkFetch.process_record settings client reformat_datetime)
                (BulkFetch.id_range start batch_end)
                (bulk_process_record_appends settings client reformat_datetime) s)
      as (s1 & es1 & -> & Hids1 & Hes1).
    cbn [CheckpointManager.save_checkpoint].
    match goal with |- context [BulkFetch.run_batches _ _ _ _ _ _ _ _ ?st] =>
      set (s2 := st) end.
    assert (Hs2 : appended (bulk_file settings) [] s1 s2)
      by apply (quiet_save_checkpoint (bulk_file settings) isoformat_now batch_end s1).
    destruct (IH (batch_end + 1) s2) as (s' & es2 & Hrest & Hids2 & Hes2);
      [subst batch_end; lia|].
    exists s', (es1 ++ es2). split; [exact Hrest|]. split.
    + rewrite fmap_app, Hids1, Hids2. unfold BulkFetch.id_range.
      replace (end_id + 1 - start) with ((batch_end + 1 - start) + (end_id + 1 - (batch_end + 1)))
        by lia.
      rewrite seqZ_app by (subst batch_end; lia).
      f_equal. f_equal. lia.
    + apply (appended_trans _ es1 es2 s s1 s'); [exact Hes1|].
      exact (appended_trans _ [] es2 _ _ _ Hs2 Hes2).
Qed.

Lemma slices_concat (id_list : list Z) (size m : nat) :
  concat (slices id_list size ((fun k => (k * size)%nat) <$> seq 0 m))
  = take (m * size) id_list.
Proof.
  unfold slices. induction m as [|m IH]; [reflexivity|].
  rewrite seq_S, !fmap_app, concat_app, IH. cbn [fmap list_fmap concat Nat.add].
  rewrite app_nil_r, take_take_drop. f_equal. lia.
Qed.

Lemma run_offsets_appends (id_list : list Z) (batch_size : Z) (offsets : list nat) :
  0 < batch_size ->
  Forall (fun i => (i < length id_list)%nat) offsets ->
  forall s,
    exists s' es,
      Pipeline.for_each
        (IncrementalFetch.run_batch settings client reformat_datetime isoformat_now
           id_list batch_size) offsets s = (Ret (), s')
      /\ entry_record_id <$> es = concat (slices id_list (Z.to_nat batch_size) offsets)
      /\ appended (incremental_file settings) es s s'.
Proof.
  intros Hbs Hoffsets. induction Hoffsets as [|i offsets Hi _ IH]; intros s.
  - exists s, []. split; [reflexivity|]. split; [reflexivity|]. apply appended_nil.
  - cbn [Pipeline.for_each]. rewrite bind_unfold.
    unfold IncrementalFetch.run_batch at 1. rewrite bind_unfold.
    destruct (last_of_slice id_list (Z.to_nat batch_size) i) as [last_id Hlast]; [lia|exact Hi|].
    rewrite Hlast.
    destruct (for_each_appends (incremental_file settings)
                (IncrementalFetch.process_record settings client reformat_datetime)
                (take (Z.to_nat batch_size) (drop i id_list))
                (incremental_process_record_appends settings client reformat_datetime) s)
      as (s1 & es1 & -> & Hids1 & Hes1).
    cbn [CheckpointManager.save_checkpoint].
    match goal with |- context [Pipeline.for_each _ _ ?st] => set (s2 := st) end.
    assert (Hs2 : appended (incremental_file settings) [] s1 s2)
      by apply (quiet_save_checkpoint (incremental_file settings) isoformat_now last_id s1).
    destruct (IH s2) as (s' & es2 & Hrest & Hids2 & Hes2).
    exists s', (es1 ++ es2). split; [exact Hrest|]. split.
    + rewrite fmap_app, Hids1, Hids2. reflexivity.
    + apply (appended_trans _ es1 es2 s s1 s'); [exact Hes1|].
      exact (appended_trans _ [] es2 _ _ _ Hs2 Hes2).
Qed.
End ledger_of_a_run.

(** X7: whatever the source answers or raises, and whatever the ledger
    holds, [process_record] returns normally and appends exactly one row
    for its record to the ledger, which it saves to the status log; it
    writes one file, named after the row's lot number in the pipeline's
    output directory, when the row is a [Success] row, and none otherwise. *)
Theorem process_record_logs_one_row
    (settings : Config.Settings) (client : DataProcessor.Client)
    (reformat_datetime : string -> string) (production_record_id : Z) (s : State) :
  (exists s' e,
      BulkFetch.process_record settings client reformat_datetime production_record_id s
      = (Ret (), s')
      /\ entry_record_id e = production_record_id
      /\ appended (bulk_file settings) [e] s s')
  /\ (exists s' e,
        IncrementalFetch.process_record settings client reformat_datetime production_record_id s
        = (Ret (), s')
        /\ entry_record_id e = production_record_id
        /\ appended (incremental_file settings) [e] s s').
Proof.
  split.
  - apply bulk_process_record_appends.
  - apply incremental_process_record_appends.
Qed.

(** X8: with a positive batch size the bulk run ends and leaves in the
    ledger one new row for each identifier from [start_id] to [end_id], in
    increasing order, whatever happened to the records; the files written
    are those of the [Success] rows. *)
Theorem bulk_run_logs_every_identifier
    (settings : Config.Settings) (client : DataProcessor.Client)
    (reformat_datetime : string -> string) (isoformat_now : nat -> string)
    (start_id end_id batch_size : Z) (fuel : nat) (s : State) :
  0 < batch_size ->
  (enough_fuel start_id end_id <= fuel)%nat ->
  exists s' es,
    BulkFetch.run settings client reformat_datetime isoformat_now
      fuel start_id end_id batch_size s = Some (Ret (), s')
    /\ entry_record_id <$> es = seqZ start_id (end_id + 1 - start_id)
    /\ appended (bulk_file settings) es s s'.
Proof.
  intros Hbs Hfuel. unfold BulkFetch.run. apply run_batches_appends; [exact Hbs|].
  unfold enough_fuel in Hfuel. lia.
Qed.

(** X8, witness: records 5 to 8 of the plant in batches of three. *)
Lemma bulk_run_logs_every_identifier_witness :
  exists s' es,
    BulkFetch.run Config.defaults plant_client example_reformat example_clock
      4 5 8 3 fresh_state = Some (Ret (), s')
    /\ entry_record_id <$> es = [5; 6; 7; 8]
    /\ appended (bulk_file Config.defaults) es fresh_state s'.
Proof.
  apply (bulk_run_logs_every_identifier Config.defaults plant_client example_reformat
           example_clock 5 8 3 4 fresh_state).
  - lia.
  - vm_compute. lia.
Defined.

(** X9: with a positive batch size the incremental run returns and
    leaves in the ledger one new row for each identifier of the list, in
    the list's order (an identifier listed twice is processed twice); the
    files written are those of the [Success] rows. *)
Theorem incremental_run_logs_every_identifier
    (settings : Config.Settings) (client : DataProcessor.Client)
    (reformat_datetime : string -> string) (isoformat_now : nat -> string)
    (id_list : list Z) (batch_size : Z) (s : State) :
  0 < batch_size ->
  exists s' es,
    IncrementalFetch.run settings client reformat_datetime isoformat_now id_list batch_size s
    = (Ret (), s')
    /\ entry_record_id <$> es = id_list
    /\ appended (incremental_file settings) es s s'.
Proof.
  intros Hbs. unfold IncrementalFetch.run, IncrementalFetch.batch_offsets.
  replace (batch_size =? 0) with false by (symmetry; apply Z.eqb_neq; lia).
  replace (batch_size <? 0) with false by (symmetry; apply Z.ltb_ge; lia).
  cbn zeta. rewrite bind_unfold. cbn [lift].
  destruct (run_offsets_appends settings client reformat_datetime isoformat_now
              id_list batch_size
              ((fun k => (k * Z.to_nat batch_size)%nat)
                 <$> seq 0 ((length id_list + Z.to_nat batch_size - 1) / Z.to_nat batch_size))
              Hbs) with (s := s) as (s' & es & Hrun & Hids & Hes).
  { apply Forall_forall. intros i Hi.
    apply list_elem_of_fmap in Hi as (k & -> & Hk). apply elem_of_seq in Hk.
    apply offset_in_range; lia. }
  exists s', es. split; [exact Hrun|]. split; [|exact Hes].
  rewrite Hids, slices_concat. apply take_ge.
  pose proof (Nat.div_mod_eq (length id_list + Z.to_nat batch_size - 1) (Z.to_nat batch_size)).
  pose proof (Nat.mod_upper_bound (length id_list + Z.to_nat batch_size - 1)
                (Z.to_nat batch_size)).
  nia.
Qed.

(** X9, witness: the records 8, 5, 5 of the plant in batches of two. *)
Lemma incremental_run_logs_every_identifier_witness :
  exists s' es,
    IncrementalFetch.run Config.defaults plant_client example_reformat example_clock
      [8; 5; 5] 2 fresh_state = (Ret (), s')
    /\ entry_record_id <$> es = [8; 5; 5]
    /\ appended (incremental_file Config.defaults) es fresh_state s'.
Proof.
  apply (incremental_run_logs_every_identifier Config.defaults plant_client example_reformat
           example_clock [8; 5; 5] 2 fresh_state).
  lia.
Defined.

(** ** Runs that end, runs that do not *)

Section finished_run.
Variable settings : Config.Settings.
Variable client : DataProcessor.Client.
Variable reformat_datetime : string -> string.
Variable isoformat_now : nat -> string.

Lemma run_batches_done fuel current_batch_start end_id batch_size s :
  end_id < current_batch_start ->
  BulkFetch.run_batches settings client reformat_datetime isoformat_now
    fuel current_batch_start end_id batch_size s = Some (Ret (), s).
Proof.
  intros H. apply Z.leb_gt in H. destruct fuel; cbn [BulkFetch.run_batches]; now rewrite H.
Qed.

(** The checkpoint file after a run that had something to do holds
    [end_id]. *)
Lemma run_batches_checkpoint (end_id batch_size : Z) (fuel : nat) :
  0 < batch_size ->
  forall current_batch_start s,
    current_batch_start <= end_id ->
    end_id - current_batch_start + 1 <= Z.of_nat fuel ->
    exists s' checkpoint,
      BulkFetch.run_batches settings client reformat_datetime isoformat_now
        fuel current_batch_start end_id batch_size s = Some (Ret (), s')
      /\ checkpoint_file s' = Stored checkpoint
      /\ last_processed_id checkpoint = end_id.
Proof.
  intros Hbs. induction fuel as [|fuel IH]; intros start s Hle Hfuel; [lia|].
  cbn [BulkFetch.run_batches]. rewrite (proj2 (Z.leb_le _ _) Hle). cbn zeta.
  set (batch_end := Z.min (start + batch_size - 1) end_id).
  rewrite bind_unfold.
  destruct (for_each_appends (bulk_file settings)
              (BulkFetch.process_record settings client reformat_datetime)
              (BulkFetch.id_range start batch_end)
              (bulk_process_record_appends settings client reformat_datetime) s)
    as (s1 & es1 & -> & _ & _).
  cbn [CheckpointManager.save_checkpoint].
  destruct (decide (batch_end = end_id)) as [Heq|Hne].
  - rewrite run_batches_done by lia. eexists _, _. split; [reflexivity|].
    cbn [checkpoint_file last_processed_id]. split; [reflexivity|exact Heq].
  - apply IH; subst batch_end; lia.
Qed.
End finished_run.

(** X10: after a bulk run with a positive batch size over a range that is
    not empty, the checkpoint file holds [end_id]; a restart without
    [--start] therefore begins at [end_id + 1] (at 0 when that is
    negative), and with the same [--end] it returns at once: it makes no
    call, writes no file, logs no row and leaves the checkpoint as it is. *)
Theorem restart_after_finished_run
    (settings : Config.Settings) (client : DataProcessor.Client)
    (reformat_datetime : string -> string) (isoformat_now : nat -> string)
    (start_id end_id batch_size : Z) (fuel : nat) (s : State) :
  0 < batch_size ->
  start_id <= end_id ->
  (enough_fuel start_id end_id <= fuel)%nat ->
  exists s',
    BulkFetch.run settings client reformat_datetime isoformat_now
      fuel start_id end_id batch_size s = Some (Ret (), s')
    /\ (forall end_arg batch_size',
          BulkFetch.start_id_of isoformat_now (BulkFetch.mkArgs None end_arg batch_size') s'
          = Z.max 0 (end_id + 1))
    /\ forall fuel' batch_size',
         exists s'',
           BulkFetch.main settings client reformat_datetime isoformat_now fuel'
             (BulkFetch.mkArgs None (Some end_id) batch_size') s' = Some (Ret (), s'')
           /\ api_calls s'' = api_calls s'
           /\ csv_files s'' = csv_files s'
           /\ status_log_file s'' = status_log_file s'
           /\ tracking_df s'' = status_log_file s'
           /\ checkpoint_file s'' = checkpoint_file s'
           /\ checkpoint_saves s'' = checkpoint_saves s'.
Proof.
  intros Hbs Hle Hfuel. unfold enough_fuel in Hfuel.
  destruct (run_batches_checkpoint settings client reformat_datetime isoformat_now
              end_id batch_size fuel Hbs start_id s Hle) as (s' & cp & Hrun & Hfile & Hlast);
    [lia|].
  exists s'. split; [exact Hrun|].
  assert (Hstart : forall end_arg batch_size',
             BulkFetch.start_id_of isoformat_now (BulkFetch.mkArgs None end_arg batch_size') s'
             = Z.max 0 (end_id + 1)).
  { intros end_arg batch_size'. rewrite start_id_of_checkpoint.
    unfold CheckpointManager.load_checkpoint. now rewrite Hfile, Hlast. }
  split; [exact Hstart|].
  intros fuel' batch_size'. unfold BulkFetch.main. rewrite Hstart.
  cbn [BulkFetch.end_ BulkFetch.batch_size StatusTracker.init]. simpl (default _ _).
  unfold BulkFetch.run. rewrite run_batches_done by lia.
  eexists. split; [reflexivity|]. repeat split; reflexivity.
Qed.

(** X10, witness: the run over records 5 to 8 of the plant in batches of
    three. *)
Lemma restart_after_finished_run_witness :
  exists s',
    BulkFetch.run Config.defaults plant_client example_reformat example_clock
      4 5 8 3 fresh_state = Some (Ret (), s')
    /\ BulkFetch.start_id_of example_clock (BulkFetch.mkArgs None None 100) s' = 9
    /\ exists s'',
         BulkFetch.main Config.defaults plant_client example_reformat example_clock 0
           (BulkFetch.mkArgs None (Some 8) 100) s' = Some (Ret (), s'')
         /\ api_calls s'' = api_calls s'
         /\ csv_files s'' = csv_files s'.
Proof.
  destruct (restart_after_finished_run Config.defaults plant_client example_reformat
              example_clock 5 8 3 4 fresh_state) as (s' & Hrun & Hstart & Hmain);
    [lia|lia|vm_compute; lia|].
  exists s'. split; [exact Hrun|]. split; [exact (Hstart None 100)|].
  destruct (Hmain 0%nat 100) as (s'' & Hrestart & Hcalls & Hfiles & _).
  exists s''. auto.
Defined.

(** X11: a batch size that is not positive.  The loop of the bulk run
    then never ends when the range is not empty: no number of iterations
    gives a result.  The incremental run raises the [ValueError] of
    [range] when the batch size is 0, and processes nothing when it is
    negative; in both cases the state is left as it was. *)
Theorem run_with_batch_size_not_positive
    (settings : Config.Settings) (client : DataProcessor.Client)
    (reformat_datetime : string -> string) (isoformat_now : nat -> string)
    (start_id end_id batch_size : Z) (id_list : list Z) (s : State) :
  batch_size <= 0 ->
  start_id <= end_id ->
  (forall fuel,
      BulkFetch.run settings client reformat_datetime isoformat_now
        fuel start_id end_id batch_size s = None)
  /\ IncrementalFetch.run settings client reformat_datetime isoformat_now id_list batch_size s
     = (if batch_size =? 0
        then Raise (mkExn ValueError "range() arg 3 must not be zero")
        else Ret (), s).
Proof.
  intros Hbs Hle. split.
  - intros fuel. unfold BulkFetch.run. revert start_id s Hle.
    induction fuel as [|fuel IH]; intros start s Hle;
      cbn [BulkFetch.run_batches]; rewrite (proj2 (Z.leb_le _ _) Hle); [reflexivity|].
    cbn zeta. unfold BulkFetch.id_range.
    replace (seqZ start (Z.min (start + batch_size - 1) end_id + 1 - start)) with (@nil Z)
      by (unfold seqZ;
          replace (Z.to_nat (Z.min (start + batch_size - 1) end_id + 1 - start)) with 0%nat by lia;
          reflexivity).
    cbn [Pipeline.for_each]. rewrite bind_unfold. cbn [mret M_ret].
    cbn [CheckpointManager.save_checkpoint]. apply IH. lia.
  - unfold IncrementalFetch.run, IncrementalFetch.batch_offsets. rewrite bind_unfold.
    destruct (batch_size =? 0) eqn:E0; [reflexivity|].
    apply Z.eqb_neq in E0.
    replace (batch_size <? 0) with true by (symmetry; apply Z.ltb_lt; lia).
    reflexivity.
Qed.

(** X11, witness: records 5 to 8 with a batch size of 0. *)
Lemma run_with_batch_size_not_positive_witness :
  BulkFetch.run Config.defaults plant_client example_reformat example_clock
    1000 5 8 0 fresh_state = None
  /\ IncrementalFetch.run Config.defaults plant_client example_reformat example_clock
       [5; 6] 0 fresh_state
     = (Raise (mkExn ValueError "range() arg 3 must not be zero"), fresh_state).
Proof.
  destruct (run_with_batch_size_not_positive Config.defaults plant_client example_reformat
              example_clock 5 8 0 [5; 6] fresh_state) as [Hbulk Hincr]; [lia|lia|].
  split; [apply Hbulk|exact Hincr].
Defined.

(** ** Records that fail early *)

Section early_exits.
Variable settings : Config.Settings.
Variable client : DataProcessor.Client.
Variable reformat_datetime : string -> string.

Lemma record_data_no_current captures :
  (forall r, r ∈ captures -> DataProcessor.current r = false) ->
  Frames.rows (DataProcessor.record_data captures).2 = [].
Proof.
  intros Hnone. unfold DataProcessor.record_data.
  destruct captures as [|c captures]; [reflexivity|].
  rewrite (filter_none DataProcessor.current (c :: captures) Hnone). reflexivity.
Qed.
End early_exits.

(** X12: when the capture fetch of a record returns no item, or only
    items that are not current, both pipelines log the record as [Fail]
    with the reason that the record data came back empty, without a lot
    number, and make no other call. *)
Theorem record_without_current_captures_fails
    (settings : Config.Settings) (client : DataProcessor.Client)
    (reformat_datetime : string -> string) (production_record_id : Z) (s : State)
    (captures : list DataProcessor.RawCapture) :
  DataProcessor.fetch_data_captures client (DataProcessor.record_params production_record_id)
  = Ret captures ->
  (forall r, r ∈ captures -> DataProcessor.current r = false) ->
  let failed :=
    logged (mkStatusEntry production_record_id None Failure
              "fetch_production_record_data returned empty")
      (called [captures_call production_record_id] s) in
  BulkFetch.process_record settings client reformat_datetime production_record_id s
  = (Ret (), failed)
  /\ IncrementalFetch.process_record settings client reformat_datetime production_record_id s
     = (Ret (), failed).
Proof.
  intros Hcaptures Hnone failed.
  pose proof (record_data_no_current captures Hnone) as Hrows.
  split.
  - unfold BulkFetch.process_record, try_except.
    rewrite bind_unfold, fetch_production_record_data_step, Hcaptures. cbn [answer].
    destruct (DataProcessor.record_data captures) as [lot df]. cbn [snd] in Hrows.
    rewrite shape0_zero, bool_decide_eq_true_2 by exact Hrows. reflexivity.
  - unfold IncrementalFetch.process_record, try_except.
    rewrite bind_unfold, fetch_production_record_data_step, Hcaptures. cbn [answer].
    pose proof (record_data_empty captures) as Hempty.
    destruct (DataProcessor.record_data captures) as [lot df]. cbn [snd] in Hrows, Hempty.
    rewrite Hempty, bool_decide_eq_true_2 by exact Hrows. reflexivity.
Qed.

(** X12, witness: a record whose only capture is superseded. *)
Lemma record_without_current_captures_fails_witness :
  BulkFetch.process_record Config.defaults superseded_client example_reformat 9 fresh_state
  = (Ret (),
     logged (mkStatusEntry 9 None Failure "fetch_production_record_data returned empty")
       (called [captures_call 9] fresh_state))
  /\ IncrementalFetch.process_record Config.defaults superseded_client example_reformat 9
       fresh_state
     = (Ret (),
        logged (mkStatusEntry 9 None Failure "fetch_production_record_data returned empty")
          (called [captures_call 9] fresh_state)).
Proof.
  apply (record_without_current_captures_fails Config.defaults superseded_client
           example_reformat 9 fresh_state [superseded_capture]).
  - reflexivity.
  - intros r Hr. apply list_elem_of_singleton in Hr. now subst r.
Defined.

(** X13: when the capture fetch of a record raises, both pipelines catch
    the exception and log the record as [Fail] with the exception's text
    as the reason and no lot number; no other call is made and the run
    goes on. *)
Theorem record_whose_fetch_raises_fails
    (settings : Config.Settings) (client : DataProcessor.Client)
    (reformat_datetime : string -> string) (production_record_id : Z) (s : State) (e : Exn) :
  DataProcessor.fetch_data_captures client (DataProcessor.record_params production_record_id)
  = Raise e ->
  let failed :=
    logged (mkStatusEntry production_record_id None Failure (exn_msg e))
      (called [captures_call production_record_id] s) in
  BulkFetch.process_record settings client reformat_datetime production_record_id s
  = (Ret (), failed)
  /\ IncrementalFetch.process_record settings client reformat_datetime production_record_id s
     = (Ret (), failed).
Proof.
  intros Hcaptures failed. split.
  - unfold BulkFetch.process_record, try_except.
    rewrite bind_unfold, fetch_production_record_data_step, Hcaptures. reflexivity.
  - unfold IncrementalFetch.process_record, try_except.
    rewrite bind_unfold, fetch_production_record_data_step, Hcaptures. reflexivity.
Qed.

(** X13, witness: a capture endpoint whose answer is not JSON. *)
Lemma record_whose_fetch_raises_fails_witness :
  BulkFetch.process_record Config.defaults garbled_client example_reformat 5 fresh_state
  = (Ret (),
     logged (mkStatusEntry 5 None Failure "Expecting value: line 1 column 1 (char 0)")
       (called [captures_call 5] fresh_state))
  /\ IncrementalFetch.process_record Config.defaults garbled_client example_reformat 5
       fresh_state
     = (Ret (),
        logged (mkStatusEntry 5 None Failure "Expecting value: line 1 column 1 (char 0)")
          (called [captures_call 5] fresh_state)).
Proof.
  apply (record_whose_fetch_raises_fails Config.defaults garbled_client example_reformat 5
           fresh_state (mkExn JSONDecodeError "Expecting value: line 1 column 1 (char 0)")).
  reflexivity.
Defined.

(** ** The merge *)

Lemma Ret_inj {A} (a b : A) : Ret a = Ret b -> a = b.
Proof. now intros [= ->]. Qed.

Section merge_results.
Import Frames Pipeline.

Lemma select_and_clean_schema (reformat_datetime : string -> string) (merged_df df : Frame) :
  select_and_clean reformat_datetime merged_df = Ret df ->
  columns df = output_columns
  /\ (length (rows df) <= length (rows merged_df))%nat
  /\ forall r, r ∈ rows df ->
       (exists user, cell r "Performed By" = CStr user /\ String.prefix "VOD_" user = false)
       /\ forall t, cell r "Data Capture Time" = CStr t -> exists t0, t = reformat_datetime t0.
Proof.
  unfold select_and_clean, select.
  destruct (missing_column merged_df final_columns); [discriminate|].
  cbn [mbind Outcome_bind]. unfold rename_columns. cbn [columns rows].
  rewrite bool_decide_eq_true_2 by reflexivity. cbn [mbind Outcome_bind].
  unfold strip_objects. cbn [columns rows].
  unfold apply_to_strings. cbn [columns rows].
  rewrite bool_decide_eq_true_2 by (vm_compute; repeat constructor).
  cbn [mbind Outcome_bind]. unfold drop_prefixed. cbn [columns rows].
  rewrite bool_decide_eq_true_2 by (vm_compute; repeat constructor).
  match goal with |- context [forallb is_string ?col] => destruct (forallb is_string col) eqn:Hstr end;
    [|discriminate].
  intros Hdf. apply Ret_inj in Hdf. subst df. cbn [columns rows].
  split; [reflexivity|]. split.
  - etransitivity; [apply List.filter_length_le|]. now rewrite !length_fmap.
  - intros r Hr. apply list_elem_of_In, List.filter_In in Hr as [Hr Hkeep].
    apply list_elem_of_In in Hr. split.
    + rewrite forallb_forall in Hstr.
      assert (Hs : is_string (cell r "Performed By") = true).
      { apply Hstr. apply list_elem_of_In. unfold column. cbn [rows].
        apply list_elem_of_fmap. exists r. split; [reflexivity|exact Hr]. }
      destruct (cell r "Performed By") as [| |user]; try discriminate.
      exists user. split; [reflexivity|]. cbn [str] in Hkeep.
      now apply negb_true_iff in Hkeep.
    + intros t Ht. apply list_elem_of_fmap in Hr as (r3 & -> & _).
      destruct (cell r3 "Data Capture Time") as [| |t0] eqn:E.
      * congruence.
      * congruence.
      * unfold cell in Ht. rewrite lookup_insert_eq in Ht. cbn in Ht.
        injection Ht as <-. now exists t0.
Qed.

Lemma merge_structure_without_units (merged_df operation_df phase_df : Frame) :
  BulkFetch.merge_structure merged_df empty_frame operation_df phase_df
  = Raise (key_error "masterTemplateId")
  /\ IncrementalFetch.merge_structure merged_df empty_frame operation_df phase_df
     = Raise (key_error "masterTemplateId").
Proof. split; reflexivity. Qed.

Lemma add_basic_metadata_batch_frame (record_df : Frame) (batches : list DataProcessor.BatchRecord) :
  batches <> [] ->
  exists merged_df,
    add_basic_metadata record_df (DataProcessor.batch_frame batches) = Ret merged_df.
Proof.
  intros Hsome. destruct batches as [|b batches]; [congruence|].
  eexists. reflexivity.
Qed.

Lemma batch_frame_rows (batches : list DataProcessor.BatchRecord) :
  batches <> [] ->
  bool_decide (shape0 (DataProcessor.batch_frame batches) = 0%nat) = false
  /\ empty (DataProcessor.batch_frame batches) = false.
Proof.
  intros Hsome. destruct batches as [|b batches]; [congruence|]. split; reflexivity.
Qed.
End merge_results.

(** Both [_merge_data] end with [select_and_clean]. *)
Lemma merge_data_is_cleaned (reformat_datetime : string -> string)
    (record_df capture_df unit_df operation_df phase_df df : Frames.Frame) (bulk : bool) :
  (if bulk
   then BulkFetch._merge_data reformat_datetime record_df capture_df unit_df operation_df
          phase_df
   else IncrementalFetch._merge_data reformat_datetime record_df capture_df unit_df
          operation_df phase_df) = Ret df ->
  exists merged_df, Pipeline.select_and_clean reformat_datetime merged_df = Ret df.
Proof.
  intros Hmerge.
  destruct bulk; [unfold BulkFetch._merge_data in Hmerge
                 |unfold IncrementalFetch._merge_data in Hmerge];
    destruct (Pipeline.add_basic_metadata _ _); try discriminate;
    cbn [mbind Outcome_bind] in Hmerge;
    match type of Hmerge with context [?f _ unit_df operation_df phase_df] =>
      destruct (f a unit_df operation_df phase_df) end; try discriminate;
    cbn [mbind Outcome_bind] in Hmerge; eauto.
Qed.

(** X14: a frame that [_merge_data] returns, in either pipeline, has
    exactly the fourteen output columns, in their order; in every row
    [Performed By] is a string that does not start with [VOD_], and a
    [Data Capture Time] that is a string is a result of
    [reformat_datetime]. *)
Theorem merge_data_output_schema
    (reformat_datetime : string -> string)
    (record_df capture_df unit_df operation_df phase_df df : Frames.Frame)
    (bulk : bool) :
  (if bulk
   then BulkFetch._merge_data reformat_datetime record_df capture_df unit_df operation_df
          phase_df
   else IncrementalFetch._merge_data reformat_datetime record_df capture_df unit_df
          operation_df phase_df) = Ret df ->
  Frames.columns df = Pipeline.output_columns
  /\ forall r, r ∈ Frames.rows df ->
       (exists user,
           Frames.cell r "Performed By" = Frames.CStr user
           /\ String.prefix "VOD_" user = false)
       /\ forall t, Frames.cell r "Data Capture Time" = Frames.CStr t ->
                    exists t0, t = reformat_datetime t0.
Proof.
  intros Hmerge.
  destruct (merge_data_is_cleaned _ _ _ _ _ _ _ _ Hmerge) as [merged_df Hclean].
  destruct (select_and_clean_schema _ _ _ Hclean) as (Hcols & _ & Hrows).
  split; [exact Hcols|exact Hrows].
Qed.

(** X14, witness: the capture of record 5 in the bulk pipeline. *)
Lemma merge_data_output_schema_witness :
  exists df,
    BulkFetch._merge_data example_reformat
      (DataProcessor.record_data (captures_of 5 "LOT-5")).2
      (DataProcessor.batch_frame
         [DataProcessor.mkBatchRecord (Frames.CStr "LOT-5") (Frames.CStr "P-5")
            (Frames.CStr "Buffer") (Frames.CStr "COMPLETE")])
      unit_table text_keyed_operation_table phase_table = Ret df
    /\ Frames.columns df = Pipeline.output_columns
    /\ length (Frames.rows df) = 2%nat.
Proof.
  assert (exists df,
             BulkFetch._merge_data example_reformat
               (DataProcessor.record_data (captures_of 5 "LOT-5")).2
               (DataProcessor.batch_frame
                  [DataProcessor.mkBatchRecord (Frames.CStr "LOT-5") (Frames.CStr "P-5")
                     (Frames.CStr "Buffer") (Frames.CStr "COMPLETE")])
               unit_table text_keyed_operation_table phase_table = Ret df
             /\ length (Frames.rows df) = 2%nat) as (df & Hdf & Hlen).
  { eexists. split; [vm_compute; reflexivity|]. vm_compute. reflexivity. }
  exists df. split; [exact Hdf|]. split; [|exact Hlen].
  exact (proj1 (merge_data_output_schema example_reformat _ _ _ _ _ df true Hdf)).
Defined.

(** X15: a record with current captures and a lot summary from the first
    lookup, whose unit table is the frame without columns (the structure
    request got no response, or the document has no unit procedure), is
    logged as [Fail] by both pipelines: the join with the unit table raises
    [KeyError], which the handlers around the joins do not catch; the
    reason logged is ['masterTemplateId'] and no file is written. *)
Theorem record_without_unit_table_fails
    (settings : Config.Settings) (client : DataProcessor.Client)
    (reformat_datetime : string -> string) (production_record_id : Z) (s : State)
    (captures : list DataProcessor.RawCapture) (lot_number : Frames.Cell)
    (record_df : Frames.Frame) (batches : list DataProcessor.BatchRecord)
    (response : option (list DataProcessor.StructureNode))
    (operation_df phase_df : Frames.Frame) :
  DataProcessor.fetch_data_captures client (DataProcessor.record_params production_record_id)
  = Ret captures ->
  DataProcessor.record_data captures = (lot_number, record_df) ->
  Frames.rows record_df <> [] ->
  DataProcessor.fetch_batch_records client (DataProcessor.batch_params lot_number)
  = Ret batches ->
  batches <> [] ->
  DataProcessor.get_structures client production_record_id = Ret response ->
  DataProcessor.structure_tables response = Ret (Frames.empty_frame, operation_df, phase_df) ->
  let failed :=
    logged (mkStatusEntry production_record_id None Failure "'masterTemplateId'")
      (called [captures_call production_record_id; primary_call lot_number;
               Structures production_record_id] s) in
  BulkFetch.process_record settings client reformat_datetime production_record_id s
  = (Ret (), failed)
  /\ IncrementalFetch.process_record settings client reformat_datetime production_record_id s
     = (Ret (), failed).
Proof.
  intros Hcaptures Hrecord Hrows Hprimary Hbatches Hresponse Htables failed.
  destruct (batch_frame_rows batches Hbatches) as [Hshape Hempty].
  destruct (add_basic_metadata_batch_frame record_df batches Hbatches) as [merged_df Hmeta].
  split.
  - unfold BulkFetch.process_record, try_except.
    rewrite bind_unfold, fetch_production_record_data_step, Hcaptures. cbn [answer].
    rewrite Hrecord, (record_df_has_rows record_df Hrows).
    rewrite bind_unfold, fetch_batch_records_by_lot_step, Hprimary. cbn [answer].
    rewrite bind_unfold, fetch_production_structure_metadata_step, Hresponse. cbn [answer].
    rewrite Htables. rewrite bind_unfold. unfold BulkFetch.alternative_lookup.
    rewrite Hshape. cbn [mret M_ret]. unfold BulkFetch.merge_and_save.
    rewrite bind_unfold. unfold BulkFetch._merge_data. rewrite Hmeta.
    cbn [mbind Outcome_bind lift].
    rewrite (proj1 (merge_structure_without_units merged_df operation_df phase_df)).
    unfold BulkFetch.log_exception. rewrite !called_called. reflexivity.
  - unfold IncrementalFetch.process_record, try_except.
    rewrite bind_unfold, fetch_production_record_data_step, Hcaptures. cbn [answer].
    rewrite Hrecord, (record_df_not_empty captures lot_number record_df Hrecord Hrows).
    rewrite bind_unfold. unfold IncrementalFetch.reconcile.
    rewrite bind_unfold, fetch_batch_records_by_lot_step, Hprimary. cbn [answer].
    rewrite Hempty. cbn [mret M_ret]. unfold IncrementalFetch.merge_and_save.
    rewrite bind_unfold, fetch_production_structure_metadata_step, Hresponse. cbn [answer].
    rewrite Htables. rewrite bind_unfold. unfold IncrementalFetch._merge_data. rewrite Hmeta.
    cbn [mbind Outcome_bind lift].
    rewrite (proj2 (merge_structure_without_units merged_df operation_df phase_df)).
    unfold IncrementalFetch.log_exception. rewrite !called_called. reflexivity.
Qed.

(** X15, witness: record 5 of the plant when the structure endpoint does
    not answer. *)
Lemma record_without_unit_table_fails_witness :
  BulkFetch.process_record Config.defaults plant_without_structures example_reformat 5
    fresh_state
  = (Ret (),
     logged (mkStatusEntry 5 None Failure "'masterTemplateId'")
       (called [captures_call 5; primary_call (Frames.CStr "LOT-5"); Structures 5]
          fresh_state))
  /\ IncrementalFetch.process_record Config.defaults plant_without_structures example_reformat 5
       fresh_state
     = (Ret (),
        logged (mkStatusEntry 5 None Failure "'masterTemplateId'")
          (called [captures_call 5; primary_call (Frames.CStr "LOT-5"); Structures 5]
             fresh_state)).
Proof.
  apply (record_without_unit_table_fails Config.defaults plant_without_structures
           example_reformat 5 fresh_state (captures_of 5 "LOT-5") (Frames.CStr "LOT-5")
           (DataProcessor.record_data (captures_of 5 "LOT-5")).2
           [DataProcessor.mkBatchRecord (Frames.CStr "LOT-5") (Frames.CStr "P-5")
              (Frames.CStr "Buffer") (Frames.CStr "COMPLETE")]
           None Frames.empty_frame Frames.empty_frame).
  - vm_compute. reflexivity.
  - vm_compute. reflexivity.
  - intros H. apply (f_equal length) in H. revert H. vm_compute. discriminate.
  - vm_compute. reflexivity.
  - discriminate.
  - reflexivity.
  - reflexivity.
Defined.

(** ** What the pipelines write *)

Lemma keeps_schema_ret {A} (a : A) : keeps_schema (mret a : M A).
Proof. intros s H. exact H. Qed.

Lemma keeps_schema_lift {A} (o : Outcome A) : keeps_schema (lift o).
Proof. intros s H. exact H. Qed.

Lemma keeps_schema_api_call {A} (c : ApiCall) (r : Outcome A) :
  keeps_schema (DataProcessor.api_call c r).
Proof. intros s H. exact H. Qed.

Lemma keeps_schema_log_status id lot st reason :
  keeps_schema (StatusTracker.log_status id lot st reason).
Proof. intros s H. exact H. Qed.

Lemma keeps_schema_to_csv file_name df :
  Frames.columns df = Pipeline.output_columns -> keeps_schema (Pipeline.to_csv file_name df).
Proof.
  intros Hcols s H. unfold output_schema in *. cbn [snd Pipeline.to_csv csv_files].
  apply Forall_app. split; [exact H|]. constructor; [exact Hcols|constructor].
Qed.

Lemma keeps_schema_bind {A B} (m : M A) (f : A -> M B) :
  keeps_schema m -> (forall a, keeps_schema (f a)) -> keeps_schema (m ≫= f).
Proof.
  intros Hm Hf s H. rewrite bind_unfold. specialize (Hm s H).
  destruct (m s) as [[a|e] s1]; cbn [snd] in Hm; [|exact Hm]. exact (Hf a s1 Hm).
Qed.

Lemma keeps_schema_bind_lift {A B} (o : Outcome A) (f : A -> M B) :
  (forall a, o = Ret a -> keeps_schema (f a)) -> keeps_schema (lift o ≫= f).
Proof.
  intros Hf s H. rewrite bind_unfold. unfold lift.
  destruct o as [a|e]; [|exact H]. exact (Hf a eq_refl s H).
Qed.

Lemma keeps_schema_try {A} (body : M A) (handler : Exn -> M A) :
  keeps_schema body -> (forall e, keeps_schema (handler e)) ->
  keeps_schema (try_except body handler).
Proof.
  intros Hb Hh s H. unfold try_except. specialize (Hb s H).
  destruct (body s) as [[a|e] s1]; cbn [snd] in Hb; [exact Hb|]. exact (Hh e s1 Hb).
Qed.

#[local] Hint Resolve keeps_schema_ret keeps_schema_lift keeps_schema_api_call
  keeps_schema_log_status : pipeline.

Ltac schema_step :=
  match goal with
  | |- keeps_schema (mbind _ (lift _)) => apply keeps_schema_bind_lift; intros ? ?
  | |- keeps_schema (mbind _ _) => apply keeps_schema_bind; [|intros ?]
  | |- keeps_schema (if ?b then _ else _) => destruct b
  | |- keeps_schema (match ?x with _ => _ end) => destruct x
  | |- keeps_schema _ => solve [auto with pipeline]
  end.

Section written_files.
Variable settings : Config.Settings.
Variable client : DataProcessor.Client.
Variable reformat_datetime : string -> string.

Lemma bulk_process_record_keeps_schema id :
  keeps_schema (BulkFetch.process_record settings client reformat_datetime id).
Proof.
  unfold BulkFetch.process_record, BulkFetch.log_exception.
  apply keeps_schema_try; [|intros e; auto with pipeline].
  unfold BulkFetch.alternative_lookup, BulkFetch.merge_and_save,
    DataProcessor.fetch_production_record_data, DataProcessor.fetch_batch_records_by_lot,
    DataProcessor.fetch_data_capture_by_lot, DataProcessor.fetch_production_structure_metadata.
  repeat schema_step.
  all: apply keeps_schema_to_csv;
    match goal with H : _ = Ret ?a |- Frames.columns ?a = _ =>
      destruct (merge_data_is_cleaned reformat_datetime _ _ _ _ _ _ true H) as [merged Hclean];
      exact (proj1 (select_and_clean_schema _ _ _ Hclean))
    end.
Qed.

Lemma incremental_process_record_keeps_schema id :
  keeps_schema (IncrementalFetch.process_record settings client reformat_datetime id).
Proof.
  unfold IncrementalFetch.process_record, IncrementalFetch.log_exception.
  apply keeps_schema_try; [|intros e; auto with pipeline].
  unfold IncrementalFetch.reconcile, IncrementalFetch._log_failure,
    IncrementalFetch.merge_and_save,
    DataProcessor.fetch_production_record_data, DataProcessor.fetch_batch_records_by_lot,
    DataProcessor.fetch_data_capture_by_lot, DataProcessor.fetch_production_structure_metadata.
  repeat schema_step.
  all: apply keeps_schema_to_csv;
    match goal with H : _ = Ret ?a |- Frames.columns ?a = _ =>
      destruct (merge_data_is_cleaned reformat_datetime _ _ _ _ _ _ false H) as [merged Hclean];
      exact (proj1 (select_and_clean_schema _ _ _ Hclean))
    end.
Qed.
End written_files.

(** X24: every file either pipeline writes has exactly the fourteen
    output columns: if the files written so far have them, so have the
    files after one more record, whatever the source answers.  These
    columns include the four the loader hashes, so a file of the pipelines
    is never rejected by the loader for a missing hashed column. *)
Theorem written_files_have_the_output_columns
    (settings : Config.Settings) (client : DataProcessor.Client)
    (reformat_datetime : string -> string) (production_record_id : Z) (s : State) :
  output_schema s ->
  output_schema
    (BulkFetch.process_record settings client reformat_datetime production_record_id s).2
  /\ output_schema
       (IncrementalFetch.process_record settings client reformat_datetime
          production_record_id s).2
  /\ forall df, Frames.columns df = Pipeline.output_columns ->
                Frames.missing_column df FileProcessor.hash_columns = None.
Proof.
  intros H. split; [|split].
  - exact (bulk_process_record_keeps_schema settings client reformat_datetime _ s H).
  - exact (incremental_process_record_keeps_schema settings client reformat_datetime _ s H).
  - intros df Hcols. apply missing_column_none. rewrite Hcols. intros c Hc.
    vm_compute in Hc |- *.
    repeat (apply elem_of_cons in Hc as [->|Hc]; [repeat constructor|]).
    now apply elem_of_nil in Hc.
Qed.

(** X24, witness: record 5 of the plant, from the state before any run. *)
Lemma written_files_have_the_output_columns_witness :
  output_schema
    (BulkFetch.process_record Config.defaults plant_client example_reformat 5 fresh_state).2
  /\ output_schema
       (IncrementalFetch.process_record Config.defaults plant_client example_reformat 5
          fresh_state).2
  /\ length (csv_files
               (BulkFetch.process_record Config.defaults plant_client example_reformat 5
                  fresh_state).2) = 1%nat.
Proof.
  destruct (written_files_have_the_output_columns Config.defaults plant_client
              example_reformat 5 fresh_state) as (Hbulk & Hincr & _).
  - constructor.
  - split; [exact Hbulk|]. split; [exact Hincr|]. vm_compute. reflexivity.
Defined.

(** ** The loader, file by file *)

Section loaded_files.
Import Frames Database FileProcessor.
Variable md5_hexdigest : string -> string.
Variable to_datetime : Cell -> Cell.
Variable read_csv : string -> Outcome Frame.
Variable processed_data_dir : string.

Local Abbreviation process :=
  (process_csv_file md5_hexdigest to_datetime read_csv processed_data_dir).
Local Abbreviation prepare := (read_and_prepare md5_hexdigest to_datetime read_csv).
Local Abbreviation stem := (fun file_path => CStr (splitext_root (basename file_path))).

(** A file that is read, has rows and has the hashed columns is prepared:
    the frame keeps its rows in number, and the lot information is that of
    the file as read. *)
Lemma read_and_prepare_ok file_path df :
  read_csv file_path = Ret df ->
  empty df = false ->
  (forall c, c ∈ hash_columns -> c ∈ columns df) ->
  exists prepared,
    prepare file_path (stem file_path)
    = Ret (Some (prepared, extract_lot_info df (stem file_path)))
    /\ length (rows prepared) = length (rows df).
Proof.
  intros Hread Hempty Hcols. unfold read_and_prepare. rewrite Hread.
  cbn [mbind Outcome_bind]. rewrite Hempty. unfold add_data_hash.
  rewrite (missing_column_none df hash_columns Hcols). cbn [mbind Outcome_bind].
  eexists. split; [reflexivity|].
  unfold format_date_column. cbn [columns rows].
  destruct (bool_decide _); cbn [rows]; now rewrite !length_fmap.
Qed.

Lemma read_and_prepare_raises file_path e :
  (read_csv file_path = Raise e
   \/ exists df c,
        read_csv file_path = Ret df /\ empty df = false
        /\ missing_column df hash_columns = Some c /\ e = key_error c) ->
  prepare file_path (stem file_path) = Raise e.
Proof.
  unfold read_and_prepare. intros [Hread | (df & c & Hread & Hempty & Hmissing & ->)].
  - now rewrite Hread.
  - rewrite Hread. cbn [mbind Outcome_bind]. rewrite Hempty. unfold add_data_hash.
    now rewrite Hmissing.
Qed.

Lemma process_csv_file_loads now file_path conn process_type df lot pid pname st :
  prepare file_path (stem file_path) = Ret (Some (df, (lot, pid, pname, st))) ->
  process now file_path conn process_type
  = load_file processed_data_dir now file_path (basename file_path) process_type df
      lot pid pname st conn.
Proof. intros H. unfold process_csv_file. now rewrite H. Qed.

Lemma length_prepare_data_for_insert df lot :
  length (prepare_data_for_insert df lot) = length (rows df).
Proof. unfold prepare_data_for_insert. apply length_fmap. Qed.

(** The number returned is the file's count, and the serial of [lot_data]
    advances by it. *)
Lemma process_csv_file_count now file_path conn process_type :
  (process now file_path conn process_type).1
  = file_record_count md5_hexdigest to_datetime read_csv file_path
  /\ lot_data_id_seq (process now file_path conn process_type).2
     = lot_data_id_seq conn + file_record_count md5_hexdigest to_datetime read_csv file_path
  /\ 0 <= file_record_count md5_hexdigest to_datetime read_csv file_path.
Proof.
  unfold process_csv_file, file_record_count.
  destruct (prepare file_path _) as [[[df [[[lot pid] pname] st]]|]|e].
  - unfold load_file. cbn [fst snd commit log_processing_history insert_lot_data
                           lot_data_id_seq].
    rewrite length_prepare_data_for_insert. split; [reflexivity|]. split; [|lia].
    destruct (check_lot_exists conn lot), (bool_decide (process_type = incremental_load));
      reflexivity.
  - cbn. split; [reflexivity|]. split; lia.
  - cbn. split; [reflexivity|]. split; lia.
Qed.
End loaded_files.



(** X17: the lots table after a file is loaded, in either mode.  The row
    of the file's lot holds the product id, product name and status of the
    file's first row and the time of the load as [last_updated]; its
    [first_loaded] is that of the row the lot had, or the time of the load
    when it had none.  The rows of all other lots are as they were. *)
Theorem load_upserts_the_lot
    (md5_hexdigest : string -> string) (to_datetime : Frames.Cell -> Frames.Cell)
    (read_csv : string -> Outcome Frames.Frame) (processed_data_dir : string)
    (now : Z) (file_path process_type : string) (conn : Database.Connection)
    (df : Frames.Frame) (lot product_id product_name status : Frames.Cell) :
  read_csv file_path = Ret df ->
  Frames.empty df = false ->
  (forall c, c ∈ FileProcessor.hash_columns -> c ∈ Frames.columns df) ->
  FileProcessor.extract_lot_info df
    (Frames.CStr (FileProcessor.splitext_root (FileProcessor.basename file_path)))
  = (lot, product_id, product_name, status) ->
  let after :=
    (FileProcessor.process_csv_file md5_hexdigest to_datetime read_csv processed_data_dir
       now file_path conn process_type).2 in
  Database.lots (Database.committed after) !! lot
  = Some (Database.mkLot product_id product_name status
            (match Database.lots (Database.working conn) !! lot with
             | Some before => Database.first_loaded before
             | None => now
             end) now)
  /\ forall other, other <> lot ->
       Database.lots (Database.committed after) !! other
       = Database.lots (Database.working conn) !! other.
Proof.
  intros Hread Hempty Hcols Hinfo after.
  destruct (read_and_prepare_ok md5_hexdigest to_datetime read_csv file_path df
              Hread Hempty Hcols) as (prepared & Hprep & _).
  rewrite Hinfo in Hprep. subst after.
  rewrite (process_csv_file_loads _ _ _ _ _ _ _ _ _ _ _ _ _ Hprep).
  unfold FileProcessor.load_file, Database.check_lot_exists.
  destruct (Database.lots (Database.working conn) !! lot) as [before|] eqn:E;
    destruct (bool_decide (process_type = FileProcessor.incremental_load));
    cbn [snd Database.commit Database.log_processing_history Database.insert_lot_data
         Database.delete_lot_data Database.update_lot Database.insert_lot Database.execute
         Database.committed Database.working Database.lots];
    split;
    try (intros other Hother;
         first [now rewrite lookup_alter_ne by congruence
               |now rewrite lookup_insert_ne by congruence]);
    first [rewrite lookup_alter, decide_True by reflexivity; now rewrite E
          |now rewrite lookup_insert_eq].
Qed.

(** X17, witness: the artifact of lot [L1], which the store knows since
    time 100, loaded at time 200. *)
Lemma load_upserts_the_lot_witness :
  let after := (example_loader 200 "../data/new_data/L1.csv" loaded_store
                  FileProcessor.incremental_load).2 in
  Database.lots (Database.committed after) !! Frames.CStr "L1"
  = Some (Database.mkLot (Frames.CStr "P-1") (Frames.CStr "Buffer") (Frames.CStr "COMPLETE")
            100 200)
  /\ Database.lots (Database.committed after) !! Frames.CStr "L2"
     = Some (Database.mkLot (Frames.CStr "P-2") (Frames.CStr "Saline") (Frames.CStr "COMPLETE")
               100 100).
Proof.
  intros after.
  destruct (load_upserts_the_lot stub_digest (fun c => c) artifact_files "../data/processed"
              200 "../data/new_data/L1.csv" FileProcessor.incremental_load loaded_store
              artifact (Frames.CStr "L1") (Frames.CStr "P-1") (Frames.CStr "Buffer")
              (Frames.CStr "COMPLETE")) as [Hlot Hothers].
  - reflexivity.
  - reflexivity.
  - intros c Hc. vm_compute in Hc |- *.
    repeat (apply elem_of_cons in Hc as [->|Hc]; [repeat constructor|]).
    now apply elem_of_nil in Hc.
  - vm_compute. reflexivity.
  - split.
    + subst after. unfold example_loader. rewrite Hlot. vm_compute. reflexivity.
    + subst after. unfold example_loader. rewrite (Hothers (Frames.CStr "L2")) by discriminate.
      vm_compute. reflexivity.
Defined.

(** X18: the accounting of a file that is loaded, in either mode: the
    number returned is the number of rows of the file, the serial of
    [lot_data] advances by that number, and exactly one row is added to the
    processing history, with status [success], the lot loaded, that count
    and the directory of the file; the transaction is committed. *)
Theorem load_is_counted_and_recorded
    (md5_hexdigest : string -> string) (to_datetime : Frames.Cell -> Frames.Cell)
    (read_csv : string -> Outcome Frames.Frame) (processed_data_dir : string)
    (now : Z) (file_path process_type : string) (conn : Database.Connection)
    (df : Frames.Frame) :
  read_csv file_path = Ret df ->
  Frames.empty df = false ->
  (forall c, c ∈ FileProcessor.hash_columns -> c ∈ Frames.columns df) ->
  let result :=
    FileProcessor.process_csv_file md5_hexdigest to_datetime read_csv processed_data_dir
      now file_path conn process_type in
  let count := Z.of_nat (length (Frames.rows df)) in
  let lot :=
    (FileProcessor.extract_lot_info df
       (Frames.CStr (FileProcessor.splitext_root (FileProcessor.basename file_path)))).1.1.1 in
  result.1 = count
  /\ Database.lot_data_id_seq result.2 = Database.lot_data_id_seq conn + count
  /\ Database.history_id_seq result.2 = Database.history_id_seq conn + 1
  /\ Database.file_processing_history (Database.committed result.2)
     = Database.file_processing_history (Database.working conn)
       ++ [success_row (Database.history_id_seq conn) now file_path process_type
             processed_data_dir lot count]
  /\ Database.working result.2 = Database.committed result.2.
Proof.
  intros Hread Hempty Hcols result count lot.
  destruct (read_and_prepare_ok md5_hexdigest to_datetime read_csv file_path df
              Hread Hempty Hcols) as (prepared & Hprep & Hlen).
  subst result lot.
  destruct (FileProcessor.extract_lot_info df _) as [[[lot pid] pname] st].
  rewrite (process_csv_file_loads _ _ _ _ _ _ _ _ _ _ _ _ _ Hprep).
  unfold FileProcessor.load_file, success_row.
  rewrite length_prepare_data_for_insert, Hlen. fold count.
  destruct (Database.check_lot_exists conn lot);
    destruct (bool_decide (process_type = FileProcessor.incremental_load));
    cbn; rewrite ?length_prepare_data_for_insert, ?Hlen; repeat split; reflexivity.
Qed.

(** X18, witness: the artifact of two rows. *)
Lemma load_is_counted_and_recorded_witness :
  (example_loader 200 "../data/new_data/L1.csv" loaded_store FileProcessor.incremental_load).1
  = 2
  /\ Database.lot_data_id_seq
       (example_loader 200 "../data/new_data/L1.csv" loaded_store
          FileProcessor.incremental_load).2 = 5
  /\ Database.file_processing_history
       (Database.committed
          (example_loader 200 "../data/new_data/L1.csv" loaded_store
             FileProcessor.incremental_load).2)
     = [Database.mkHistory 1 "L1.csv" (Frames.CStr "L1") "incremental_load" 200 2
          "../data/new_data" "../data/processed" "success" "Processed 2 records"].
Proof.
  destruct (load_is_counted_and_recorded stub_digest (fun c => c) artifact_files
              "../data/processed" 200 "../data/new_data/L1.csv" FileProcessor.incremental_load
              loaded_store artifact) as (Hcount & Hserial & _ & Hhistory & _).
  - reflexivity.
  - reflexivity.
  - intros c Hc. vm_compute in Hc |- *.
    repeat (apply elem_of_cons in Hc as [->|Hc]; [repeat constructor|]).
    now apply elem_of_nil in Hc.
  - split; [exact Hcount|]. split; [exact Hserial|]. exact Hhistory.
Defined.

(** X19: a file that cannot be read, or that has rows but lacks one of
    the four hashed columns (the hash then raises [KeyError]), is not
    loaded: [process_csv_file] returns 0, rolls the connection back, so
    that pending changes are dropped and the lots and detail rows are those
    committed before, and commits one history row with status [error], the
    lot number of the file name, the count 0 and the exception's text. *)
Theorem failed_file_is_rolled_back
    (md5_hexdigest : string -> string) (to_datetime : Frames.Cell -> Frames.Cell)
    (read_csv : string -> Outcome Frames.Frame) (processed_data_dir : string)
    (now : Z) (file_path process_type : string) (conn : Database.Connection) (e : Exn) :
  (read_csv file_path = Raise e
   \/ exists df c,
        read_csv file_path = Ret df /\ Frames.empty df = false
        /\ Frames.missing_column df FileProcessor.hash_columns = Some c
        /\ e = Frames.key_error c) ->
  let tables :=
    Database.mkTables (Database.lots (Database.committed conn))
      (Database.lot_data (Database.committed conn))
      (Database.file_processing_history (Database.committed conn)
       ++ [error_row (Database.history_id_seq conn) now file_path process_type e]) in
  FileProcessor.process_csv_file md5_hexdigest to_datetime read_csv processed_data_dir
    now file_path conn process_type
  = (0, Database.mkConnection tables tables (Database.lot_data_id_seq conn)
          (Database.history_id_seq conn + 1)).
Proof.
  intros Hfail tables. unfold FileProcessor.process_csv_file.
  rewrite (read_and_prepare_raises md5_hexdigest to_datetime read_csv file_path e Hfail).
  reflexivity.
Qed.

(** X19, witness: a file without the [Description] column, against a
    connection with a pending deletion. *)
Lemma failed_file_is_rolled_back_witness :
  FileProcessor.process_csv_file stub_digest (fun c => c) loader_files "../data/processed"
    200 "../data/new_data/BAD.csv"
    (Database.delete_lot_data (Frames.CStr "L2") loaded_store) FileProcessor.incremental_load
  = (0,
     Database.mkConnection
       (Database.mkTables (Database.lots loaded_tables) (Database.lot_data loaded_tables)
          [Database.mkHistory 1 "BAD.csv" (Frames.CStr "BAD") "incremental_load" 200 0
             "../data/new_data" "" "error" "'Description'"])
       (Database.mkTables (Database.lots loaded_tables) (Database.lot_data loaded_tables)
          [Database.mkHistory 1 "BAD.csv" (Frames.CStr "BAD") "incremental_load" 200 0
             "../data/new_data" "" "error" "'Description'"])
       3 2).
Proof.
  apply (failed_file_is_rolled_back stub_digest (fun c => c) loader_files "../data/processed"
           200 "../data/new_data/BAD.csv" FileProcessor.incremental_load
           (Database.delete_lot_data (Frames.CStr "L2") loaded_store)
           (Frames.key_error "Description")).
  right. eexists _, "Description". split; [reflexivity|]. split; [reflexivity|].
  split; [vm_compute; reflexivity|reflexivity].
Defined.

(** ** The loader, run by run *)

Section loader_runs.
Import Database FileProcessor.
Variable md5_hexdigest : string -> string.
Variable to_datetime : Frames.Cell -> Frames.Cell.
Variable read_csv : string -> Outcome Frames.Frame.
Variable processed_data_dir : string.
Variable clock : nat -> Z.

Local Abbreviation count_of := (file_record_count md5_hexdigest to_datetime read_csv).

Lemma process_files_totals process_type csv_files :
  forall k conn total_processed total_records archived,
    let result :=
      BulkLoader.process_files md5_hexdigest to_datetime read_csv processed_data_dir clock
        process_type k csv_files conn total_processed total_records archived in
    let loaded := List.filter (fun f => 0 <? count_of f) csv_files in
    result.2 = archived ++ loaded
    /\ result.1.1.1 = total_processed + Z.of_nat (length loaded)
    /\ result.1.1.2 = total_records + sum_list (count_of <$> csv_files)
    /\ lot_data_id_seq result.1.2
       = lot_data_id_seq conn + sum_list (count_of <$> csv_files).
Proof.
  induction csv_files as [|file_path rest IH];
    intros k conn total_processed total_records archived.
  - cbn. rewrite app_nil_r. repeat split; lia.
  - cbn zeta. cbn [BulkLoader.process_files List.filter fmap list_fmap sum_list foldr].
    destruct (process_csv_file_count md5_hexdigest to_datetime read_csv processed_data_dir
                (clock k) file_path conn process_type) as (Hcount & Hserial & Hpos).
    destruct (process_csv_file _ _ _ _ _ _ _ _) as [record_count conn1].
    cbn [fst snd] in Hcount, Hserial. subst record_count.
    fold (sum_list (count_of <$> rest)).
    destruct (0 <? count_of file_path).
    + destruct (IH (S k) conn1 (total_processed + 1) (total_records + count_of file_path)
                  (archived ++ [file_path])) as (Ha & Hp & Hr & Hs).
      rewrite Ha, Hp, Hr, Hs, Hserial, <- app_assoc. cbn [length app].
      repeat split; lia.
    + destruct (IH (S k) conn1 total_processed (total_records + count_of file_path)
                  archived) as (Ha & Hp & Hr & Hs).
      rewrite Ha, Hp, Hr, Hs, Hserial. repeat split; lia.
Qed.
End loader_runs.

(** X20: the totals of a loader run over the files found, for
    [process_new_data] and for [bulk_load_initial_data] alike.  The files
    handed to [archive_file] are, in order, those whose load returned a
    positive count: a file without rows and a file that failed are left
    where they are.  [total_processed] is their number, [total_records] is
    the sum of the counts of all files, and the serial of [lot_data] has
    advanced by [total_records]. *)
Theorem loader_run_totals
    (md5_hexdigest : string -> string) (to_datetime : Frames.Cell -> Frames.Cell)
    (read_csv : string -> Outcome Frames.Frame) (processed_data_dir : string)
    (clock : nat -> Z) (csv_files : list string) (conn : Database.Connection)
    (incremental : bool) :
  let result :=
    if incremental
    then BulkLoader.process_new_data md5_hexdigest to_datetime read_csv processed_data_dir
           clock csv_files conn
    else BulkLoader.bulk_load_initial_data md5_hexdigest to_datetime read_csv
           processed_data_dir clock csv_files conn in
  let count_of := file_record_count md5_hexdigest to_datetime read_csv in
  let archived := List.filter (fun f => 0 <? count_of f) csv_files in
  result.2 = archived
  /\ result.1.1.1 = Z.of_nat (length archived)
  /\ result.1.1.2 = sum_list (count_of <$> csv_files)
  /\ Database.lot_data_id_seq result.1.2
     = Database.lot_data_id_seq conn + sum_list (count_of <$> csv_files).
Proof.
  intros result count_of archived. subst result.
  destruct incremental.
  - unfold BulkLoader.process_new_data.
    destruct (process_files_totals md5_hexdigest to_datetime read_csv processed_data_dir clock
                FileProcessor.incremental_load csv_files 0%nat (Database.rollback conn) 0 0 [])
      as (Ha & Hp & Hr & Hs).
    rewrite Ha, Hp, Hr, Hs. repeat split; reflexivity.
  - unfold BulkLoader.bulk_load_initial_data.
    destruct csv_files as [|file_path rest].
    + cbn. repeat split; lia.
    + destruct (process_files_totals md5_hexdigest to_datetime read_csv processed_data_dir clock
                  FileProcessor.initial_load (file_path :: rest) 0%nat
                  (Database.commit (Database.rollback conn)) 0 0 [])
        as (Ha & Hp & Hr & Hs).
      rewrite Ha, Hp, Hr, Hs. repeat split; reflexivity.
Qed.

(** X20, witness: a run over the artifact, a header-only file and a file
    without the [Description] column. *)
Lemma loader_run_totals_witness :
  let result :=
    BulkLoader.process_new_data stub_digest (fun c => c) loader_files "../data/processed"
      (fun k => 200 + Z.of_nat k)
      ["../data/new_data/L1.csv"; "../data/new_data/EMPTY.csv"; "../data/new_data/BAD.csv"]
      loaded_store in
  result.2 = ["../data/new_data/L1.csv"]
  /\ result.1.1.1 = 1
  /\ result.1.1.2 = 2
  /\ Database.lot_data_id_seq result.1.2 = 5.
Proof.
  intros result.
  destruct (loader_run_totals stub_digest (fun c => c) loader_files "../data/processed"
              (fun k => 200 + Z.of_nat k)
              ["../data/new_data/L1.csv"; "../data/new_data/EMPTY.csv";
               "../data/new_data/BAD.csv"] loaded_store true)
    as (Harchived & Hprocessed & Hrecords & Hserial).
  fold result in Harchived, Hprocessed, Hrecords, Hserial.
  rewrite Harchived, Hprocessed, Hrecords, Hserial.
  repeat split; vm_compute; reflexivity.
Defined.

(** ** The six-hour windows *)

Section six_hour_windows.
Import IncrementalWindows.
Variable strftime : Z -> string.

(** The window that starts at [start], when the clock reads [now]. *)
Lemma next_window_cases now start :
  match next_window strftime (now - now mod 3600 - SIX_HOURS_IN_SECONDS) start with
  | Some w =>
      start_epoch w = start /\ end_epoch w = start + 21600 /\ end_epoch w + 21600 <= now
  | None => now - now mod 3600 < start + 43200
  end.
Proof.
  unfold next_window, SIX_HOURS_IN_SECONDS. cbn zeta.
  pose proof (Z.mod_pos_bound now 3600 ltac:(lia)) as Hmod.
  destruct (_ <? _) eqn:E; [apply Z.ltb_lt in E|apply Z.ltb_ge in E];
    cbn [start_epoch end_epoch]; lia.
Qed.

Lemma contiguous_snoc rows w :
  contiguous rows ->
  (forall a, last rows = Some a -> start_epoch w = end_epoch a) ->
  contiguous (rows ++ [w]).
Proof.
  intros Hrows Hlast i a b Ha Hb.
  destruct (decide (S i < length rows)%nat) as [Hin|Hout].
  - rewrite lookup_app_l in Ha by lia. rewrite lookup_app_l in Hb by lia.
    exact (Hrows i a b Ha Hb).
  - assert (Hlen : S i = length rows).
    { apply lookup_lt_Some in Hb. rewrite length_app in Hb. cbn in Hb. lia. }
    rewrite lookup_app_l in Ha by lia.
    rewrite lookup_app_r in Hb by lia. rewrite Hlen, Nat.sub_diag in Hb. cbn in Hb.
    injection Hb as <-. apply Hlast. rewrite last_lookup.
    rewrite <- Hlen. exact Ha.
Qed.
End six_hour_windows.



(** X22: [main] leaves the window file as it is or adds one window to
    it, and a window it adds ends at least six hours before the present
    time.  If the windows of the file are six hours long, start no earlier
    than the first run and each starts where the one before it ends, the
    same holds of the file afterwards: the windows recorded leave no gap
    and do not overlap. *)
Theorem main_keeps_the_windows_contiguous
    (strftime : Z -> string)
    (fetch_production_record_ids : Z -> Z -> string -> string -> M (list Z))
    (settings : Config.Settings) (client : DataProcessor.Client)
    (reformat_datetime : string -> string) (isoformat_now : nat -> string)
    (now : Z) (rows : list IncrementalWindows.Window) (s : State) :
  Forall six_hours rows ->
  contiguous rows ->
  let result :=
    IncrementalWindows.main strftime fetch_production_record_ids settings client
      reformat_datetime isoformat_now now (Some rows) s in
  exists rows',
    result.1.2 = Some rows'
    /\ (rows' = rows
        \/ exists w, rows' = rows ++ [w]
                     /\ IncrementalWindows.end_epoch w + 21600 <= now)
    /\ Forall six_hours rows'
    /\ contiguous rows'.
Proof.
  intros Hsix Hcont result. subst result.
  unfold IncrementalWindows.main, IncrementalWindows.streamload_and_process_records.
  assert (Hspec : forall result csv_file',
             IncrementalWindows.append_next_six_hour_window strftime now (Some rows)
             = (Ret result, csv_file') ->
             csv_file' = Some rows
             /\ match result with
                | Some w =>
                    IncrementalWindows.start_epoch w
                    = match last rows with
                      | Some row =>
                          Z.max (IncrementalWindows.end_epoch row)
                            IncrementalWindows.FIRST_RUN_EPOCH
                      | None => IncrementalWindows.FIRST_RUN_EPOCH
                      end
                    /\ IncrementalWindows.end_epoch w
                       = IncrementalWindows.start_epoch w + 21600
                    /\ IncrementalWindows.end_epoch w + 21600 <= now
                | None => True
                end).
  { intros result csv_file'. unfold IncrementalWindows.append_next_six_hour_window.
    cbn zeta. destruct (last rows) as [row|]; [|discriminate].
    intros [= <- <-]. split; [reflexivity|].
    pose proof (next_window_cases strftime now
                  (Z.max (IncrementalWindows.end_epoch row)
                     IncrementalWindows.FIRST_RUN_EPOCH)) as Hnext.
    destruct (IncrementalWindows.next_window _ _ _); [|exact I].
    destruct Hnext as (H1 & H2 & H3). rewrite H1. auto. }
  assert (Hkeep : exists rows', Some rows = Some rows'
                                /\ (rows' = rows
                                    \/ exists w, rows' = rows ++ [w]
                                                 /\ IncrementalWindows.end_epoch w + 21600 <= now)
                                /\ Forall six_hours rows' /\ contiguous rows')
    by (exists rows; auto).
  destruct (IncrementalWindows.append_next_six_hour_window strftime now (Some rows))
    as [[[w|]|e] csv_file'] eqn:Happend.
  - destruct (Hspec _ _ eq_refl) as (-> & Hstart & Hend & Hlag). cbn [default] in *.
    assert (Hadd : exists rows', Some (rows ++ [w]) = Some rows'
                                 /\ (rows' = rows
                                     \/ exists w', rows' = rows ++ [w']
                                          /\ IncrementalWindows.end_epoch w' + 21600 <= now)
                                 /\ Forall six_hours rows' /\ contiguous rows').
    { exists (rows ++ [w]). split; [reflexivity|]. split; [right; eauto|].
      assert (Hw : six_hours w /\ forall a, last rows = Some a ->
                                            IncrementalWindows.start_epoch w
                                            = IncrementalWindows.end_epoch a).
      { unfold six_hours, IncrementalWindows.SIX_HOURS_IN_SECONDS. rewrite Hstart, Hend.
        destruct (last rows) as [row|] eqn:Elast.
        - assert (Hrow : six_hours row).
          { rewrite Forall_forall in Hsix. apply Hsix.
            rewrite last_lookup in Elast. eapply list_elem_of_lookup_2, Elast. }
          destruct Hrow as [Hrow1 Hrow2].
          unfold IncrementalWindows.SIX_HOURS_IN_SECONDS in Hrow1.
          split; [lia|]. intros a [= <-]. lia.
        - split; [lia|]. intros a [=]. }
      destruct Hw as [Hw Hlast]. split.
      - apply Forall_app. split; [exact Hsix|]. constructor; [exact Hw|constructor].
      - apply contiguous_snoc; assumption. }
    simpl (default _ _).
    destruct (fetch_production_record_ids _ _ _ _ s) as [[[|id ids]|e] s1].
    + cbn [IncrementalWindows.record_window fst snd]. exact Hadd.
    + destruct ((_ ← StatusTracker.init; _) s1) as [[[]|e] s2];
        cbn [IncrementalWindows.record_window fst snd]; [exact Hadd|exact Hkeep].
    + cbn [fst snd]. exact Hkeep.
  - destruct (Hspec _ _ eq_refl) as (-> & _). cbn [fst snd]. exact Hkeep.
  - unfold IncrementalWindows.append_next_six_hour_window in Happend. cbn zeta in Happend.
    destruct (last rows); injection Happend as _ <-; cbn [fst snd]; exact Hkeep.
Qed.

(** X22, witness: the file holds the first window, and the second is due. *)
Lemma main_keeps_the_windows_contiguous_witness :
  exists rows',
    (IncrementalWindows.main epoch_text found_ids Config.defaults plant_client
       example_reformat example_clock (example_now + 21600)
       (Some [IncrementalWindows.mkWindow "t=1741564801" "t=1741586401"
                1741564801 1741586401]) fresh_state).1.2 = Some rows'
    /\ length rows' = 2%nat
    /\ contiguous rows'.
Proof.
  destruct (main_keeps_the_windows_contiguous epoch_text found_ids Config.defaults
              plant_client example_reformat example_clock (example_now + 21600)
              [IncrementalWindows.mkWindow "t=1741564801" "t=1741586401"
                 1741564801 1741586401] fresh_state)
    as (rows' & Hfile & _ & _ & Hcont).
  - constructor; [|constructor]. split; [reflexivity|]. vm_compute. discriminate.
  - intros i a b Ha Hb. destruct i; discriminate.
  - exists rows'. split; [exact Hfile|]. split; [|exact Hcont].
    assert (Hlen : length <$> (IncrementalWindows.main epoch_text found_ids Config.defaults
                                 plant_client example_reformat example_clock
                                 (example_now + 21600)
                                 (Some [IncrementalWindows.mkWindow "t=1741564801"
                                          "t=1741586401" 1741564801 1741586401])
                                 fresh_state).1.2 = Some 2%nat)
      by (vm_compute; reflexivity).
    rewrite Hfile in Hlen. now injection Hlen.
Defined.

(** X23: a window file that exists and has no row stops the incremental
    pipeline for good: reading its last row raises [IndexError], which is
    caught, and [main] returns without fetching an identifier, processing a
    record or touching the file, whatever the time and the source.  Such a
    file is what a first run leaves behind when no window is due yet, or
    when its fetch of the identifiers raises. *)
Theorem main_is_stuck_on_a_header_only_file
    (strftime : Z -> string)
    (fetch_production_record_ids : Z -> Z -> string -> string -> M (list Z))
    (settings : Config.Settings) (client : DataProcessor.Client)
    (reformat_datetime : string -> string) (isoformat_now : nat -> string)
    (now : Z) (s : State) :
  IncrementalWindows.main strftime fetch_production_record_ids settings client
    reformat_datetime isoformat_now now (Some []) s
  = (Ret (), Some [], s)
  /\ (IncrementalWindows.append_next_six_hour_window strftime now None = (Ret None, Some []) ->
      IncrementalWindows.main strftime fetch_production_record_ids settings client
        reformat_datetime isoformat_now now None s
      = (Ret (), Some [], s))
  /\ forall e s1 w,
       IncrementalWindows.append_next_six_hour_window strftime now None
       = (Ret (Some w), Some []) ->
       fetch_production_record_ids (IncrementalWindows.start_epoch w)
         (IncrementalWindows.end_epoch w) (IncrementalWindows.start_datetime w)
         (IncrementalWindows.end_datetime w) s = (Raise e, s1) ->
       IncrementalWindows.main strftime fetch_production_record_ids settings client
         reformat_datetime isoformat_now now None s
       = (Ret (), Some [], s1).
Proof.
  split; [reflexivity|]. split.
  - intros Hwindow.
    unfold IncrementalWindows.main, IncrementalWindows.streamload_and_process_records.
    now rewrite Hwindow.
  - intros e s1 w Hwindow Hfetch.
    unfold IncrementalWindows.main, IncrementalWindows.streamload_and_process_records.
    rewrite Hwindow, Hfetch. reflexivity.
Qed.

(** X23, witness: a first run whose fetch of the identifiers raises, and
    the run after it, six hours later. *)
Lemma main_is_stuck_on_a_header_only_file_witness :
  IncrementalWindows.main epoch_text failing_ids Config.defaults plant_client example_reformat
    example_clock example_now None fresh_state
  = (Ret (), Some [], fresh_state)
  /\ IncrementalWindows.main epoch_text found_ids Config.defaults plant_client example_reformat
       example_clock (example_now + 21600) (Some []) fresh_state
     = (Ret (), Some [], fresh_state).
Proof.
  split.
  - apply (proj2 (proj2 (main_is_stuck_on_a_header_only_file epoch_text failing_ids
                           Config.defaults plant_client example_reformat example_clock
                           example_now fresh_state))
             (mkExn KeyError "'productionRecordId'") fresh_state
             (IncrementalWindows.mkWindow "t=1741564801" "t=1741586401"
                1741564801 1741586401)).
    + vm_compute. reflexivity.
    + reflexivity.
  - apply (proj1 (main_is_stuck_on_a_header_only_file epoch_text found_ids
                    Config.defaults plant_client example_reformat example_clock
                    (example_now + 21600) fresh_state)).
Defined.

(** ** The status log across runs *)

(** X25: the status log is append-only across runs of the bulk pipeline.
    With a positive batch size [main] reads the log, processes the
    identifiers from its start to its end, and leaves a log that holds the
    rows it found followed by one new row for each identifier processed, in
    increasing order; the frame in memory equals the file. *)
Theorem bulk_main_appends_to_the_status_log
    (settings : Config.Settings) (client : DataProcessor.Client)
    (reformat_datetime : string -> string) (isoformat_now : nat -> string)
    (fuel : nat) (args : BulkFetch.Args) (s : State) :
  0 < BulkFetch.batch_size args ->
  let start_id := BulkFetch.start_id_of isoformat_now args s in
  let end_id := default (Config.DEFAULT_END_ID settings) (BulkFetch.end_ args) in
  (enough_fuel start_id end_id <= fuel)%nat ->
  exists s' es,
    BulkFetch.main settings client reformat_datetime isoformat_now fuel args s
    = Some (Ret (), s')
    /\ entry_record_id <$> es = seqZ start_id (end_id + 1 - start_id)
    /\ status_log_file s' = status_log_file s ++ es
    /\ tracking_df s' = status_log_file s'.
Proof.
  intros Hbs start_id end_id Hfuel. unfold BulkFetch.main. fold start_id end_id.
  cbn [StatusTracker.init]. unfold BulkFetch.run, StatusTracker.load_tracking_df.
  unfold enough_fuel in Hfuel.
  match goal with |- context [BulkFetch.run_batches _ _ _ _ _ _ _ _ ?st] => set (s0 := st) end.
  destruct (run_batches_appends settings client reformat_datetime isoformat_now
              end_id (BulkFetch.batch_size args) fuel Hbs start_id s0)
    as (s' & es & Hrun & Hids & Htrack & _ & _ & Hfile); [lia|].
  exists s', es. split; [exact Hrun|]. split; [exact Hids|].
  subst s0. cbn [tracking_df status_log_file] in Htrack, Hfile.
  destruct es as [|e es].
  - rewrite app_nil_r in *. rewrite Hfile, Htrack. split; reflexivity.
  - rewrite Hfile, Htrack. split; reflexivity.
Qed.

(** X25, witness: the restart on the interrupted state, whose log holds
    one row. *)
Lemma bulk_main_appends_to_the_status_log_witness :
  exists s' es,
    BulkFetch.main Config.defaults plant_client example_reformat example_clock 10
      restart_args interrupted_state = Some (Ret (), s')
    /\ entry_record_id <$> es = [5]
    /\ status_log_file s'
       = [mkStatusEntry 5 (Some (Frames.CStr "LOT-5")) Success ""] ++ es.
Proof.
  destruct (bulk_main_appends_to_the_status_log Config.defaults plant_client example_reformat
              example_clock 10 restart_args interrupted_state)
    as (s' & es & Hmain & Hids & Hfile & _).
  - reflexivity.
  - vm_compute. lia.
  - exists s', es. split; [exact Hmain|]. split; [exact Hids|exact Hfile].
Defined.

(** ** Records whose first lookup finds the lot *)


